(** * JsonAsAsset: reconstruction of a material expression graph from JSON

    A shallow embedding of [UMaterialGraph_Interface]
    (Private/Utilities/EditorGraph/MaterialGraph_Interface.cpp): the
    partition of the export records, the creation of the empty expressions,
    the wiring of expression inputs and the per-kind population of the
    nodes, followed by the properties the specification states about them.

    Conventions of the embedding.
    - [FString] and [FName] values are Rocq strings, taken in the engine's
      canonical spelling, so that the engine's comparison is string equality;
      [NAME_None] is the empty name.  The searches in the text of a path
      (AssetUtilities.cpp) are made with the search case of the call.
    - A JSON number is an integer; the narrowing the engine's accessors do
      into the C++ destination type is not modelled.
    - A [UMaterialExpression*] is a value of an abstract pointer type [P];
      the null pointer is [None].
    - What the translation unit takes from outside (defaults declared in its
      header, the importer base class, the engine) is gathered in the records
      [Plugin] and [Engine] and is a parameter of every operation. *)

From stdpp Require Import gmap strings list fin_maps.
From Stdlib Require Import ZArith Ascii.

#[local] Set Warnings "-clear-no-such-hyp".
#[local] Open Scope string_scope.
#[local] Open Scope list_scope.
#[local] Open Scope Z_scope.

Abbreviation FString := string.
Abbreviation FName := string.

Definition NAME_None : FName := "".

(** ** JSON documents (the engine's [FJsonValue] / [FJsonObject]) *)

Module Json.

#[warnings="-register-all"]
Inductive FJsonValue : Type :=
| JNull
| JBool (b : bool)
| JNumber (z : Z)
| JString (s : string)
| JArray (items : list FJsonValue)
| JObject (fields : list (string * FJsonValue)).

(** An object is its list of fields, in document order. *)
Abbreviation FJsonObject := (list (string * FJsonValue)).

(** [FJsonObject::TryGetField]: the value stored under [k], null when there
    is none. *)
Fixpoint TryGetField (o : FJsonObject) (k : string) : option FJsonValue :=
  match o with
  | [] => None
  | (k', v) :: rest => if String.eqb k' k then Some v else TryGetField rest k
  end.

(** [FJsonValue::AsObject]: the value's object, the shared empty object
    for a value of another kind. *)
Definition AsObject (v : FJsonValue) : FJsonObject :=
  match v with JObject fields => fields | _ => [] end.

(** The tested getters: the field, when it is there and of the asked kind.
    (The conversions the engine makes between kinds, such as a number read
    as a string, are not modelled.) *)
Definition TryGetStringField (o : FJsonObject) (k : string) : option string :=
  match TryGetField o k with Some (JString s) => Some s | _ => None end.

Definition TryGetNumberField (o : FJsonObject) (k : string) : option Z :=
  match TryGetField o k with Some (JNumber z) => Some z | _ => None end.

Definition TryGetBoolField (o : FJsonObject) (k : string) : option bool :=
  match TryGetField o k with Some (JBool b) => Some b | _ => None end.

Definition TryGetObjectField (o : FJsonObject) (k : string) : option FJsonObject :=
  match TryGetField o k with Some (JObject fields) => Some fields | _ => None end.

Definition TryGetArrayField (o : FJsonObject) (k : string) : option (list FJsonValue) :=
  match TryGetField o k with Some (JArray items) => Some items | _ => None end.

(** The untested getters log an error and answer with the empty value when
    the field is missing or of another kind. *)
Definition GetStringField (o : FJsonObject) (k : string) : string :=
  default "" (TryGetStringField o k).

Definition GetObjectField (o : FJsonObject) (k : string) : FJsonObject :=
  default [] (TryGetObjectField o k).

Definition GetArrayField (o : FJsonObject) (k : string) : list FJsonValue :=
  default [] (TryGetArrayField o k).

(** [FJsonValue::IsNull] *)
Definition IsNull (v : FJsonValue) : bool :=
  match v with JNull => true | _ => false end.

(** [FJsonValue::AsString]: the text of a string value, the empty string
    for a value of another kind (as with the getters, a number or a boolean
    printed as text is not modelled). *)
Definition AsString (v : FJsonValue) : string :=
  match v with JString s => s | _ => "" end.

End Json.

Import Json.

(** [FString::Split(".", &Left, nullptr)]: the text before the first dot;
    the out-parameter keeps its initial empty value when there is no dot. *)
Fixpoint before_dot (s : string) : option string :=
  match s with
  | EmptyString => None
  | String c rest =>
      if Ascii.eqb c "."%char then Some EmptyString
      else String c <$> before_dot rest
  end.

Definition SplitLeftOfDot (s : string) : string := default "" (before_dot s).

(** [FString::EndsWith] *)
Definition EndsWith (s suffix : string) : bool :=
  String.prefix (String.rev suffix) (String.rev s).

(** ** What the translation unit takes from the plugin *)

(** Declarations of MaterialGraph_Interface.h and of the importer base
    class, none of which is part of the sources at hand. *)
Record Plugin : Type := {
  (** default of [GetExpressionName]'s [OverrideParameterName] *)
  ExpressionKey : string;
  (** default of [PopulateExpressionInput]'s [Type] *)
  DefaultInputType : string;
  (** [IImporter::GetExportNameOfSubobject] *)
  GetExportNameOfSubobject : string -> FName;
  (** the kinds [CreateEmptyExpression] refuses silently *)
  IgnoredExpressions : list string;
  (** the kinds the dispatch knows how to populate *)
  Expressions : list string
}.

(** ** Expression inputs and outputs *)

(** The engine's [FExpressionInput]; [Expression] is the non-owning
    pointer to the node the input is wired to. *)
Record FExpressionInput (P : Type) : Type := {
  Expression : option P;
  OutputIndex : Z;
  InputName : FName;
  Mask : Z;
  MaskR : Z;
  MaskG : Z;
  MaskB : Z;
  MaskA : Z
}.
Arguments Expression {P} _.
Arguments OutputIndex {P} _.
Arguments InputName {P} _.
Arguments Mask {P} _.
Arguments MaskR {P} _.
Arguments MaskG {P} _.
Arguments MaskB {P} _.
Arguments MaskA {P} _.

(** [FExpressionInput()] *)
Definition FExpressionInput_default {P : Type} : FExpressionInput P :=
  {| Expression := None; OutputIndex := 0; InputName := NAME_None;
     Mask := 0; MaskR := 0; MaskG := 0; MaskB := 0; MaskA := 0 |}.

(** The literal a [FColorMaterialInput], [FScalarMaterialInput] or
    [FVectorMaterialInput] carries.  The decoders of FMathUtilities are not
    part of the sources: a decoded colour or vector is represented by the
    JSON object it is decoded from. *)
Inductive ConstantValue : Type :=
| ColorConstant (o : FJsonObject)
| ScalarConstant (z : Z)
| VectorConstant (o : FJsonObject).

(** The object seen through the [reinterpret_cast] of
    [PopulateExpressionInput]: the [FExpressionInput] part, and what has
    been assigned to the members [UseConstant] and [Constant] of the derived
    struct ([None]: never assigned). *)
Record FMaterialInput (P : Type) : Type := {
  Base : FExpressionInput P;
  UseConstant : option bool;
  Constant : option ConstantValue
}.
Arguments Base {P} _.
Arguments UseConstant {P} _.
Arguments Constant {P} _.

(** The engine's [FExpressionOutput]. *)
Record FExpressionOutput : Type := {
  OutputName : FName;
  OutMask : Z;
  OutMaskR : Z;
  OutMaskG : Z;
  OutMaskB : Z;
  OutMaskA : Z
}.

Definition FExpressionOutput_default : FExpressionOutput :=
  {| OutputName := NAME_None; OutMask := 0; OutMaskR := 0; OutMaskG := 0;
     OutMaskB := 0; OutMaskA := 0 |}.

(** ** The input wiring engine *)

Section Wiring.
Context {P : Type}.
Variable plugin : Plugin.

(** [UMaterialGraph_Interface::GetExpressionName] *)
Definition GetExpressionName (JsonProperties : FJsonObject)
    (OverrideParameterName : string) : FName :=
  match TryGetField JsonProperties OverrideParameterName with
  | None | Some JNull =>
      (* Must be from < 4.25 *)
      GetStringField JsonProperties "ExpressionName"
  | Some ExpressionField =>
      match TryGetStringField (AsObject ExpressionField) "ObjectName" with
      | Some ObjectName => GetExportNameOfSubobject plugin ObjectName
      | None => NAME_None
      end
  end.

(** The masks and names [PopulateExpressionInput] reads before it looks at
    [Type]. *)
Definition PopulateInputBase (JsonProperties : FJsonObject)
    (Expression : option P) : FExpressionInput P :=
  {| Expression := Expression;
     OutputIndex := default 0 (TryGetNumberField JsonProperties "OutputIndex");
     InputName := default NAME_None (TryGetStringField JsonProperties "InputName");
     Mask := default 0 (TryGetNumberField JsonProperties "Mask");
     MaskR := default 0 (TryGetNumberField JsonProperties "MaskR");
     MaskG := default 0 (TryGetNumberField JsonProperties "MaskG");
     MaskB := default 0 (TryGetNumberField JsonProperties "MaskB");
     MaskA := default 0 (TryGetNumberField JsonProperties "MaskA") |}.

(** [PopulateExpressionInput] up to its [return]: the input as the
    [reinterpret_cast] of the branch taken sees it. *)
Definition PopulateExpressionInput_cast (JsonProperties : FJsonObject)
    (Expression : option P) (Type_ : string) : FMaterialInput P :=
  let Input := PopulateInputBase JsonProperties Expression in
  if String.eqb Type_ "Color" then
    {| Base := Input;
       UseConstant := TryGetBoolField JsonProperties "UseConstant";
       Constant := ColorConstant <$> TryGetObjectField JsonProperties "Constant" |}
  else if String.eqb Type_ "Scalar" then
    {| Base := Input;
       UseConstant := TryGetBoolField JsonProperties "UseConstant";
       Constant := ScalarConstant <$> TryGetNumberField JsonProperties "Constant" |}
  else if String.eqb Type_ "Vector" then
    {| Base := Input;
       UseConstant := TryGetBoolField JsonProperties "UseConstant";
       Constant := VectorConstant <$> TryGetObjectField JsonProperties "Constant" |}
  else
    {| Base := Input; UseConstant := None; Constant := None |}.

(** [UMaterialGraph_Interface::PopulateExpressionInput]: every branch ends
    in [Input = FExpressionInput( *Cast )], and the function returns an
    [FExpressionInput] by value. *)
Definition PopulateExpressionInput (JsonProperties : FJsonObject)
    (Expression : option P) (Type_ : string) : FExpressionInput P :=
  Base (PopulateExpressionInput_cast JsonProperties Expression Type_).

(** [UMaterialGraph_Interface::CreateExpressionInput] *)
Definition CreateExpressionInput (JsonProperties : FJsonObject)
    (CreatedExpressionMap : gmap FName P) (PropertyName : string)
    : FExpressionInput P :=
  match TryGetObjectField JsonProperties PropertyName with
  | Some AsObject_ =>
      let ExpressionName := GetExpressionName AsObject_ (ExpressionKey plugin) in
      match CreatedExpressionMap !! ExpressionName with
      | Some Found =>
          PopulateExpressionInput AsObject_ (Some Found) (DefaultInputType plugin)
      | None => FExpressionInput_default
      end
  | None => FExpressionInput_default
  end.

(** [UMaterialGraph_Interface::PopulateExpressionOutput] *)
Definition PopulateExpressionOutput (JsonProperties : FJsonObject)
    : FExpressionOutput :=
  {| OutputName := default NAME_None (TryGetStringField JsonProperties "OutputName");
     OutMask := default 0 (TryGetNumberField JsonProperties "Mask");
     OutMaskR := default 0 (TryGetNumberField JsonProperties "MaskR");
     OutMaskG := default 0 (TryGetNumberField JsonProperties "MaskG");
     OutMaskB := default 0 (TryGetNumberField JsonProperties "MaskB");
     OutMaskA := default 0 (TryGetNumberField JsonProperties "MaskA") |}.

End Wiring.

(** ** What the translation unit takes from the engine *)

Abbreviation UClass := string.
(** A loaded asset, named by its path. *)
Abbreviation UObject := string.

Definition INDEX_NONE : Z := -1.

Record Engine : Type := {
  (** [FindObject<UClass>(nullptr, Path)] *)
  FindObject_UClass : string -> option UClass;
  (** [Cast<T>(Expression)] is not null for an object of this class *)
  IsChildOf : UClass -> string -> bool;
  (** What [LoadObject(Descriptor, Field)] leaves in [Field], given the
      object paths [HandleReference] has recovered so far. *)
  LoadObject : list string -> FJsonObject -> option UObject;
  (** [HandleReference(ObjectPath)]: whether the missing asset could be
      fetched and imported. *)
  HandleReference : string -> bool;
  (** the names and values of the reflected enum [StaticEnum<E>()] *)
  EnumTable : string -> list (string * Z);
  (** [EMaterialQualityLevel::Num], the size of
      [UMaterialExpressionQualitySwitch::Inputs] *)
  QualityLevelNum : nat;
  (** [ERHIFeatureLevel::Num], the size of
      [UMaterialExpressionFeatureLevelSwitch::Inputs] *)
  FeatureLevelNum : nat;
  (** [ERHIShadingPath::Num], the size of
      [UMaterialExpressionShadingPathSwitch::Inputs] *)
  ShadingPathNum : nat
}.

(** The fixed-size [Inputs] arrays of the three switch expressions. *)
Inductive ArrayBound : Type :=
| EMaterialQualityLevel_Num
| ERHIFeatureLevel_Num
| ERHIShadingPath_Num.

Definition NumOf (eng : Engine) (bound : ArrayBound) : nat :=
  match bound with
  | EMaterialQualityLevel_Num => QualityLevelNum eng
  | ERHIFeatureLevel_Num => FeatureLevelNum eng
  | ERHIShadingPath_Num => ShadingPathNum eng
  end.

(** [UEnum::GetValueByNameString]: the value of the entry of that name,
    [INDEX_NONE] when the enum has none. *)
Definition GetValueByNameString (eng : Engine) (E : string) (NameString : string) : Z :=
  default INDEX_NONE (snd <$> find (fun entry => String.eqb (fst entry) NameString) (EnumTable eng E)).

(** The object [Parent] the graph is rebuilt under. *)
Inductive ParentKind : Type := IsMaterial | IsMaterialFunction | IsOtherObject.

Record UParent : Type := {
  ParentName : string;
  Kind : ParentKind
}.

(** ** Observable effects *)

Inductive Event : Type :=
(** [UE_LOG(LogJson, Warning, "Missing support for expression type: ...")] *)
| EvMissingSupportLog (Type_ : string)
(** the dialog "Missing support for expression type: ..., please modify
    source to allow properties to be set." *)
| EvMissingSupportDialog (Type_ : string)
(** [AppendNotification(msg, "Material Graph", 2.0f, CS_Fail, true)] *)
| EvNotification (msg : string)
| EvLoadObject (descriptor : FJsonObject)
| EvHandleReference (ObjectPath : string)
| EvPostEditChange (property : string)
| EvRecompileMaterial
| EvPromptForCheckoutAndSave
| EvRecacheUniformExpressions.

Record Effects : Type := {
  (** the object paths [HandleReference] has recovered *)
  Recovered : list string;
  (** what happened, oldest first *)
  Log : list Event
}.

Definition emit (e : Event) (fx : Effects) : Effects :=
  {| Recovered := Recovered fx; Log := Log fx ++ [e] |}.

Definition recover (ObjectPath : string) (fx : Effects) : Effects :=
  {| Recovered := ObjectPath :: Recovered fx; Log := Log fx |}.

Inductive Fault : Type :=
| NullDereference
| OutOfBounds.

Inductive Outcome (A : Type) : Type :=
| Done (a : A)
| Crash (f : Fault).
Arguments Done {A} _.
Arguments Crash {A} _.

Definition bind {A B : Type} (m : Outcome A) (k : A -> Outcome B) : Outcome B :=
  match m with
  | Done a => k a
  | Crash f => Crash f
  end.

(** ** Expression objects *)

Record FFunctionExpressionInput (P : Type) : Type := {
  ExpressionInputId : string;
  Input : FExpressionInput P
}.
Arguments ExpressionInputId {P} _.
Arguments Input {P} _.

Record FFunctionExpressionOutput : Type := {
  ExpressionOutputId : string;
  Output : FExpressionOutput
}.

(** The value of one member of a struct that an array member holds
    ([FCustomInput], [FCustomOutput], [FCustomDefine], [FGrassInput],
    [FPhysicalMaterialInput], [FLayerBlendInput]). *)
Inductive Member (P : Type) : Type :=
| MNumber (z : Z)
| MString (s : string)
| MEnum (z : Z)
| MDecoded (o : FJsonObject)
| MAsset (a : option UObject)
| MInput (i : FExpressionInput P).
Arguments MNumber {P} _.
Arguments MString {P} _.
Arguments MEnum {P} _.
Arguments MDecoded {P} _.
Arguments MAsset {P} _.
Arguments MInput {P} _.

(** Such a struct: the members assigned since its default construction. *)
Abbreviation Struct P := (gmap string (Member P)).

(** The value of one member of an expression object. *)
Inductive FieldValue (P : Type) : Type :=
| VNumber (z : Z)
| VBool (b : bool)
| VString (s : string)                    (* FString, FName, FText, FGuid(text) *)
| VEnum (z : Z)                           (* static_cast<E>(z) *)
| VDecoded (o : FJsonObject)              (* an FMathUtilities decoder applied to o *)
| VAsset (a : option UObject)
| VOwner (owner : string)                 (* Expression->Function / ->Material *)
| VInput (i : FExpressionInput P)
| VInputArray (l : list (FExpressionInput P))
| VOutputs (l : list FExpressionOutput)
| VFunctionInputs (l : list (FFunctionExpressionInput P))
| VFunctionOutputs (l : list FFunctionExpressionOutput)
| VEnumerator (name : string)             (* the enumerator the source names *)
| VStrings (l : list string)
| VAddedStrings (l : list string)         (* what the array held, then l *)
| VAddedNulls (n : nat)                   (* what the array held, then n null pointers *)
| VStructs (l : list (Struct P))
| VAddedStructs (l : list (Struct P)).    (* what the array held, then l *)
Arguments VNumber {P} _.
Arguments VBool {P} _.
Arguments VString {P} _.
Arguments VEnum {P} _.
Arguments VDecoded {P} _.
Arguments VAsset {P} _.
Arguments VOwner {P} _.
Arguments VInput {P} _.
Arguments VInputArray {P} _.
Arguments VOutputs {P} _.
Arguments VFunctionInputs {P} _.
Arguments VFunctionOutputs {P} _.
Arguments VEnumerator {P} _.
Arguments VStrings {P} _.
Arguments VAddedStrings {P} _.
Arguments VAddedNulls {P} _.
Arguments VStructs {P} _.
Arguments VAddedStructs {P} _.

(** An expression object: its class and the members assigned since
    [NewObject]; a member that is not listed still has the value of the
    class default object. *)
Record UMaterialExpression (P : Type) : Type := {
  Class : option UClass;
  Fields : gmap string (FieldValue P)
}.
Arguments Class {P} _.
Arguments Fields {P} _.

Definition SetField {P : Type} (field : string) (v : FieldValue P)
    (e : UMaterialExpression P) : UMaterialExpression P :=
  {| Class := Class e; Fields := <[field := v]> (Fields e) |}.

(** [X->field = v] when the tested getter found [v]. *)
Definition SetFieldIf {P A : Type} (field : string) (mk : A -> FieldValue P)
    (found : option A) (e : UMaterialExpression P) : UMaterialExpression P :=
  match found with
  | Some a => SetField field (mk a) e
  | None => e
  end.

(** ** The statements that fill one struct of an array member

    [Object] is the JSON object of the array entry, [S] the struct under
    construction. *)
Inductive MemberStmt : Type :=
(** [if (Object->TryGetObjectField(key, Ptr)) { Name = GetExpressionName(Obj);
     if (CreatedExpressionMap.Contains(Name)) S.field = PopulateExpressionInput(Obj, *Find(Name)); }] *)
| MemberInputIfFound (field key : string)
(** [if (Object->TryGetStringField(key, V)) S.field = V], also through [FName(V)] *)
| MemberTryString (field key : string)
(** [if (Object->TryGetNumberField(key, V)) S.field = V] *)
| MemberTryNumber (field key : string)
(** [if (Object->TryGetStringField(key, V))
     S.field = static_cast<E>(StaticEnum<E>()->GetValueByNameString(V))] *)
| MemberTryEnum (E field key : string)
(** [if (Object->TryGetObjectField(key, Ptr)) S.field = FMathUtilities::ObjectToVector(Ptr->Get())] *)
| MemberTryDecoded (field key : string)
(** [S = FGrassInput(FName(Object->GetStringField(key)))] *)
| MemberName (field key : string)
(** [if (Object->TryGetObjectField(key, Ptr)) LoadObject(Ptr, S.field)] *)
| MemberLoad (field key : string).

(** ** The statements the kind handlers are made of

    Each constructor stands for one recurring statement of
    [PropagateExpressions] and [MaterialGraphNode_ExpressionWrapper]; the
    first argument is the member of the expression that is assigned, [key]
    the JSON key that is read. *)
Inductive Stmt : Type :=
(** [X->field = CreateExpressionInput(Properties, CreatedExpressionMap, key)] *)
| AssignInput (field key : string)
(** [if (Properties->TryGetObjectField(key, Ptr)) { Name = GetExpressionName(Obj);
     if (CreatedExpressionMap.Contains(Name)) X->field = PopulateExpressionInput(Obj, *Find(Name)); }] *)
| AssignInputIfFound (field key : string)
(** [if (T V; Properties->TryGetNumberField(key, V)) X->field = V] *)
| TryNumber (field key : string)
(** [if (bool V; Properties->TryGetBoolField(key, V)) X->field = V] *)
| TryBool (field key : string)
(** [if (FString V; Properties->TryGetStringField(key, V)) X->field = V],
    also through [FName(V)] or [FGuid(V)] *)
| TryString (field key : string)
(** [X->field = FGuid(Properties->GetStringField(key))] *)
| AssignGuid (field key : string)
(** [if (FString V; Properties->TryGetStringField(key, V))
     X->field = static_cast<E>(StaticEnum<E>()->GetValueByNameString(V))] *)
| TryEnum (E field key : string)
(** the same, followed by [Expression->Modify()] and
    [Expression->PostEditChangeProperty(...)] *)
| TryEnumAndNotify (E field key : string)
(** [if (Properties->TryGetObjectField(key, Ptr)) X->field = FMathUtilities::Decode(Ptr->Get())] *)
| TryDecoded (field key : string)
(** [if (Properties->TryGetObjectField("ChannelNames", Names))
     if (Names->TryGetObjectField(channel, C))
       X->ChannelNames.channel = FText::FromString(C->GetStringField("SourceString"))] *)
| TryChannelName (field channel : string)
(** [if (Properties->TryGetObjectField(key, Ptr)) LoadObject(Ptr, X->field)] *)
| LoadPlain (field key : string)
(** the load, then [AppendNotification(what + ObjectPath)] when the member
    is null *)
| LoadOrNotify (field key what : string)
(** the load, then, when the member is null,
    [if (!HandleReference(ObjectPath)) AppendNotification(what + ObjectPath);
     else LoadObject(Ptr, X->field)] *)
| LoadOrRecover (field key what : string)
(** the texture of [UMaterialExpressionTextureBase]: the load, the
    recompilation of a parent material, [PostEditChangeProperty] *)
| LoadAndRefresh (field key : string)
(** the loop of the three switches over a fixed-size array:
    [X->field[i] = Input] for the i-th entry of the array under [key] when
    it resolves *)
| InputsByIndex (bound : ArrayBound) (field key : string)
(** the same loop after [X->field.SetNumZeroed(Array->Num())] *)
| InputsResized (field key : string)
(** [X->field = CreateExpressionInput(Properties, CreatedExpressionMap, key);
     if (X->field.Expression == nullptr)
       X->field = CreateExpressionInput(Properties, CreatedExpressionMap, key')] *)
| AssignInputEither (field key key' : string)
(** the statement of [AssignInputIfFound] with the test
    [(Properties->TryGetObjectField(key, Ptr) || Properties->TryGetObjectField(key', Ptr))] *)
| AssignInputIfFoundEither (field key key' : string)
(** [X->field = b] *)
| AssignBool (field : string) (b : bool)
(** [if (Properties->TryGetStringField(key, V)) { E Value = X->field;
     if (V.EndsWith(name1)) Value = name1; else if (V.EndsWith(name2)) Value = name2; ...
     X->field = Value; }] *)
| TryEnumerator (field key : string) (names : list string)
(** [X->field.Empty()] or [X->field.SetNumZeroed(Array->Num())], then every
    entry's [AsString()], in order *)
| SetStrings (field key : string)
(** [X->field.Add(FGuid(Value->AsString()))] for each entry *)
| AddStrings (field key : string)
(** [if (Properties->TryGetObjectField(key, Ptr))
     for (Layer : Ptr->Get()->GetArrayField(sub)) X->field.Add(nullptr)] *)
| AddNulls (field key sub : string)
(** [TArray<S> A; for (V : Array) { if (V->IsNull()) continue; S s; ...; A.Add(s); }
     X->field = A] *)
| SetStructs (field key : string) (members : list MemberStmt)
(** [for (V : Array) { (if (V->IsNull()) continue;) S s; ...; X->field.Add(s); }],
    the test being there when [skipNull] *)
| AddStructs (skipNull : bool) (field key : string) (members : list MemberStmt)
(** [FunctionInputs.Add(PopulateFuncExpressionInput(...))] for each entry *)
| FunctionInputs (field key : string)
(** [FunctionOutputs.Add(PopulateFuncExpressionOutput(...))] for each entry *)
| FunctionOutputs (field key : string)
(** [Outputs.Add(PopulateExpressionOutput(...))] for each entry *)
| Outputs (field key : string)
(** [Expression->Function = FuncCasted] or [Expression->Material = MatCasted] *)
| SetOwner
(** [if (UMaterial* MatCasted = Cast<UMaterial>(Parent)) {
     MatCasted->RecacheUniformExpressions(true); MatCasted->UpdateCachedExpressionData(); }] *)
| RecacheWhenMaterial.

Section Statements.
Context {P : Type}.
Variable plugin : Plugin.
Variable eng : Engine.
Variable Parent : UParent.
Variable Properties : FJsonObject.
Variable CreatedExpressionMap : gmap FName P.

(** The wiring written out in place by many handlers: the input, when the
    key holds an object whose expression is in the map. *)
Definition FindExpressionInput (JsonProperties : FJsonObject) (key : string)
    : option (FExpressionInput P) :=
  match TryGetObjectField JsonProperties key with
  | Some Object_ =>
      let ExpressionName := GetExpressionName plugin Object_ (ExpressionKey plugin) in
      match CreatedExpressionMap !! ExpressionName with
      | Some Found =>
          Some (PopulateExpressionInput Object_ (Some Found) (DefaultInputType plugin))
      | None => None
      end
  | None => None
  end.

(** The same under the first of two keys that holds an object. *)
Definition FindExpressionInputEither (JsonProperties : FJsonObject) (key key' : string)
    : option (FExpressionInput P) :=
  match TryGetObjectField JsonProperties key with
  | Some _ => FindExpressionInput JsonProperties key
  | None => FindExpressionInput JsonProperties key'
  end.

(** [UMaterialGraph_Interface::PopulateFuncExpressionInput] *)
Definition PopulateFuncExpressionInput (JsonProperties : FJsonObject)
    : FFunctionExpressionInput P :=
  {| ExpressionInputId := default "" (TryGetStringField JsonProperties "ExpressionInputId");
     Input := default FExpressionInput_default (FindExpressionInput JsonProperties "Input") |}.

(** [UMaterialGraph_Interface::PopulateFuncExpressionOutput] *)
Definition PopulateFuncExpressionOutput (JsonProperties : FJsonObject)
    : FFunctionExpressionOutput :=
  {| ExpressionOutputId := default "" (TryGetStringField JsonProperties "ExpressionOutputId");
     Output := default FExpressionOutput_default
                 (PopulateExpressionOutput <$> TryGetObjectField JsonProperties "Output") |}.

(** The array member [field], as it stands: [Num] default-constructed
    inputs in an object that has not been written to. *)
Definition GetInputArray (Num : nat) (e : UMaterialExpression P) (field : string)
    : list (FExpressionInput P) :=
  match Fields e !! field with
  | Some (VInputArray l) => l
  | _ => replicate Num FExpressionInput_default
  end.

(** [TArray::SetNumZeroed] *)
Definition SetNumZeroed (n : nat) (l : list (FExpressionInput P))
    : list (FExpressionInput P) :=
  take n l ++ replicate (n - length l) FExpressionInput_default.

(** The loop of the switches from index [i] on, over an array of [Num]
    inputs: the index advances with every entry, the array is written only
    for an entry that resolves, and nothing checks the index against the
    size of the array. *)
Fixpoint WriteInputsByIndex (Num : nat) (field : string) (items : list FJsonValue) (i : nat)
    (e : UMaterialExpression P) : Outcome (UMaterialExpression P) :=
  match items with
  | [] => Done e
  | InputValue :: rest =>
      let InputObject := AsObject InputValue in
      let InputExpressionName := GetExpressionName plugin InputObject (ExpressionKey plugin) in
      match CreatedExpressionMap !! InputExpressionName with
      | Some Found =>
          let Input_ := PopulateExpressionInput InputObject (Some Found) (DefaultInputType plugin) in
          if decide (i < Num)%nat then
            WriteInputsByIndex Num field rest (S i)
              (SetField field (VInputArray (<[i := Input_]> (GetInputArray Num e field))) e)
          else Crash OutOfBounds
      | None => WriteInputsByIndex Num field rest (S i) e
      end
  end.

(** One statement on the struct [S] of the array entry [Object]. *)
Definition exec_member (Object_ : FJsonObject) (m : MemberStmt) (S_ : Struct P) (fx : Effects)
    : Struct P * Effects :=
  match m with
  | MemberInputIfFound field key =>
      match FindExpressionInput Object_ key with
      | Some Input_ => (<[field := MInput Input_]> S_, fx)
      | None => (S_, fx)
      end
  | MemberTryString field key =>
      match TryGetStringField Object_ key with
      | Some V => (<[field := MString V]> S_, fx)
      | None => (S_, fx)
      end
  | MemberTryNumber field key =>
      match TryGetNumberField Object_ key with
      | Some V => (<[field := MNumber V]> S_, fx)
      | None => (S_, fx)
      end
  | MemberTryEnum E field key =>
      match TryGetStringField Object_ key with
      | Some V => (<[field := MEnum (GetValueByNameString eng E V)]> S_, fx)
      | None => (S_, fx)
      end
  | MemberTryDecoded field key =>
      match TryGetObjectField Object_ key with
      | Some V => (<[field := MDecoded V]> S_, fx)
      | None => (S_, fx)
      end
  | MemberName field key =>
      (<[field := MString (GetStringField Object_ key)]> S_, fx)
  | MemberLoad field key =>
      match TryGetObjectField Object_ key with
      | Some descriptor =>
          (<[field := MAsset (LoadObject eng (Recovered fx) descriptor)]> S_,
           emit (EvLoadObject descriptor) fx)
      | None => (S_, fx)
      end
  end.

(** The struct of one entry: the member statements in order, on a
    default-constructed struct. *)
Fixpoint exec_members (Object_ : FJsonObject) (members : list MemberStmt)
    (S_ : Struct P) (fx : Effects) : Struct P * Effects :=
  match members with
  | [] => (S_, fx)
  | m :: rest =>
      let r := exec_member Object_ m S_ fx in
      exec_members Object_ rest (fst r) (snd r)
  end.

(** The structs of the entries of an array, in order. *)
Fixpoint MakeStructs (skipNull : bool) (members : list MemberStmt)
    (items : list FJsonValue) (fx : Effects) : list (Struct P) * Effects :=
  match items with
  | [] => ([], fx)
  | V :: rest =>
      if skipNull && IsNull V then MakeStructs skipNull members rest fx
      else
        let r := exec_members (AsObject V) members ∅ fx in
        let rs := MakeStructs skipNull members rest (snd r) in
        (fst r :: fst rs, snd rs)
  end.

(** [TArray::Add] on an array member, entry after entry. *)
Definition AddedStrings (old : option (FieldValue P)) (new : list string) : FieldValue P :=
  match old with
  | Some (VStrings l) => VStrings (l ++ new)
  | Some (VAddedStrings l) => VAddedStrings (l ++ new)
  | _ => VAddedStrings new
  end.

Definition AddedNulls (old : option (FieldValue P)) (n : nat) : FieldValue P :=
  match old with
  | Some (VAddedNulls m) => VAddedNulls (m + n)
  | _ => VAddedNulls n
  end.

Definition AddedStructs (old : option (FieldValue P)) (new : list (Struct P)) : FieldValue P :=
  match old with
  | Some (VStructs l) => VStructs (l ++ new)
  | Some (VAddedStructs l) => VAddedStructs (l ++ new)
  | _ => VAddedStructs new
  end.

(** The short identifier of a missing asset: the object path up to its
    first dot. *)
Definition ShortObjectPath (descriptor : FJsonObject) : string :=
  SplitLeftOfDot (GetStringField descriptor "ObjectPath").

Definition exec (s : Stmt) (e : UMaterialExpression P) (fx : Effects)
    : Outcome (UMaterialExpression P * Effects) :=
  match s with
  | AssignInput field key =>
      Done (SetField field (VInput (CreateExpressionInput plugin Properties CreatedExpressionMap key)) e, fx)
  | AssignInputIfFound field key =>
      Done (SetFieldIf field VInput (FindExpressionInput Properties key) e, fx)
  | TryNumber field key =>
      Done (SetFieldIf field VNumber (TryGetNumberField Properties key) e, fx)
  | TryBool field key =>
      Done (SetFieldIf field VBool (TryGetBoolField Properties key) e, fx)
  | TryString field key =>
      Done (SetFieldIf field VString (TryGetStringField Properties key) e, fx)
  | AssignGuid field key =>
      Done (SetField field (VString (GetStringField Properties key)) e, fx)
  | TryEnum E field key =>
      Done (SetFieldIf field (fun V => VEnum (GetValueByNameString eng E V))
              (TryGetStringField Properties key) e, fx)
  | TryEnumAndNotify E field key =>
      match TryGetStringField Properties key with
      | Some V =>
          Done (SetField field (VEnum (GetValueByNameString eng E V)) e,
                emit (EvPostEditChange field) fx)
      | None => Done (e, fx)
      end
  | TryDecoded field key =>
      Done (SetFieldIf field VDecoded (TryGetObjectField Properties key) e, fx)
  | TryChannelName field channel =>
      match TryGetObjectField Properties "ChannelNames" with
      | Some ChannelNames =>
          Done (SetFieldIf field (fun C => VString (GetStringField C "SourceString"))
                  (TryGetObjectField ChannelNames channel) e, fx)
      | None => Done (e, fx)
      end
  | LoadPlain field key =>
      match TryGetObjectField Properties key with
      | Some descriptor =>
          Done (SetField field (VAsset (LoadObject eng (Recovered fx) descriptor)) e,
                emit (EvLoadObject descriptor) fx)
      | None => Done (e, fx)
      end
  | LoadOrNotify field key what =>
      match TryGetObjectField Properties key with
      | Some descriptor =>
          let fx1 := emit (EvLoadObject descriptor) fx in
          match LoadObject eng (Recovered fx) descriptor with
          | Some asset => Done (SetField field (VAsset (Some asset)) e, fx1)
          | None =>
              Done (SetField field (VAsset None) e,
                    emit (EvNotification (what +:+ ShortObjectPath descriptor)) fx1)
          end
      | None => Done (e, fx)
      end
  | LoadOrRecover field key what =>
      match TryGetObjectField Properties key with
      | Some descriptor =>
          let fx1 := emit (EvLoadObject descriptor) fx in
          match LoadObject eng (Recovered fx) descriptor with
          | Some asset => Done (SetField field (VAsset (Some asset)) e, fx1)
          | None =>
              let ObjectPath := ShortObjectPath descriptor in
              let fx2 := emit (EvHandleReference ObjectPath) fx1 in
              if HandleReference eng ObjectPath then
                let fx3 := recover ObjectPath fx2 in
                Done (SetField field (VAsset (LoadObject eng (Recovered fx3) descriptor)) e,
                      emit (EvLoadObject descriptor) fx3)
              else
                Done (SetField field (VAsset None) e,
                      emit (EvNotification (what +:+ ObjectPath)) fx2)
          end
      | None => Done (e, fx)
      end
  | LoadAndRefresh field key =>
      match TryGetObjectField Properties key with
      | Some descriptor =>
          let e1 := SetField field (VAsset (LoadObject eng (Recovered fx) descriptor)) e in
          let fx1 := emit (EvLoadObject descriptor) fx in
          let fx2 :=
            match Kind Parent with
            | IsMaterial => emit EvPromptForCheckoutAndSave (emit EvRecompileMaterial fx1)
            | _ => fx1
            end in
          Done (e1, emit (EvPostEditChange field) fx2)
      | None => Done (e, fx)
      end
  | InputsByIndex bound field key =>
      match TryGetArrayField Properties key with
      | Some items =>
          bind (WriteInputsByIndex (NumOf eng bound) field items 0 e) (fun e1 => Done (e1, fx))
      | None => Done (e, fx)
      end
  | InputsResized field key =>
      match TryGetArrayField Properties key with
      | Some items =>
          let Num := length items in
          let e0 := SetField field (VInputArray (SetNumZeroed Num (GetInputArray 0 e field))) e in
          bind (WriteInputsByIndex Num field items 0 e0) (fun e1 => Done (e1, fx))
      | None => Done (e, fx)
      end
  | AssignInputEither field key key' =>
      let Input_ := CreateExpressionInput plugin Properties CreatedExpressionMap key in
      match Expression Input_ with
      | Some _ => Done (SetField field (VInput Input_) e, fx)
      | None =>
          Done (SetField field
                  (VInput (CreateExpressionInput plugin Properties CreatedExpressionMap key')) e, fx)
      end
  | AssignInputIfFoundEither field key key' =>
      Done (SetFieldIf field VInput (FindExpressionInputEither Properties key key') e, fx)
  | AssignBool field b =>
      Done (SetField field (VBool b) e, fx)
  | TryEnumerator field key names =>
      match TryGetStringField Properties key with
      | Some V => Done (SetFieldIf field VEnumerator (find (EndsWith V) names) e, fx)
      | None => Done (e, fx)
      end
  | SetStrings field key =>
      Done (SetFieldIf field (fun items => VStrings (AsString <$> items))
              (TryGetArrayField Properties key) e, fx)
  | AddStrings field key =>
      match TryGetArrayField Properties key with
      | Some items =>
          Done (SetField field (AddedStrings (Fields e !! field) (AsString <$> items)) e, fx)
      | None => Done (e, fx)
      end
  | AddNulls field key sub =>
      match TryGetObjectField Properties key with
      | Some Object_ =>
          Done (SetField field
                  (AddedNulls (Fields e !! field) (length (GetArrayField Object_ sub))) e, fx)
      | None => Done (e, fx)
      end
  | SetStructs field key members =>
      match TryGetArrayField Properties key with
      | Some items =>
          let r := MakeStructs true members items fx in
          Done (SetField field (VStructs (fst r)) e, snd r)
      | None => Done (e, fx)
      end
  | AddStructs skipNull field key members =>
      match TryGetArrayField Properties key with
      | Some items =>
          let r := MakeStructs skipNull members items fx in
          Done (SetField field (AddedStructs (Fields e !! field) (fst r)) e, snd r)
      | None => Done (e, fx)
      end
  | FunctionInputs field key =>
      Done (SetFieldIf field
              (fun items => VFunctionInputs ((fun V => PopulateFuncExpressionInput (AsObject V)) <$> items))
              (TryGetArrayField Properties key) e, fx)
  | FunctionOutputs field key =>
      Done (SetFieldIf field
              (fun items => VFunctionOutputs ((fun V => PopulateFuncExpressionOutput (AsObject V)) <$> items))
              (TryGetArrayField Properties key) e, fx)
  | Outputs field key =>
      Done (SetFieldIf field
              (fun items => VOutputs ((fun V => PopulateExpressionOutput (AsObject V)) <$> items))
              (TryGetArrayField Properties key) e, fx)
  | SetOwner =>
      match Kind Parent with
      | IsMaterialFunction => Done (SetField "Function" (VOwner (ParentName Parent)) e, fx)
      | IsMaterial => Done (SetField "Material" (VOwner (ParentName Parent)) e, fx)
      | IsOtherObject => Done (e, fx)
      end
  | RecacheWhenMaterial =>
      match Kind Parent with
      | IsMaterial => Done (e, emit EvRecacheUniformExpressions fx)
      | _ => Done (e, fx)
      end
  end.

(** The statements of one handler, in order. *)
Fixpoint exec_all (body : list Stmt) (e : UMaterialExpression P) (fx : Effects)
    : Outcome (UMaterialExpression P * Effects) :=
  match body with
  | [] => Done (e, fx)
  | s :: rest => bind (exec s e fx) (fun r => exec_all rest (fst r) (snd r))
  end.

End Statements.

(** ** The kind dispatch of [PropagateExpressions]

    The dispatch is a sequence of if / else-if chains on [Type->Type]: a
    first chain, two tests for the runtime virtual texture samples, and two
    more chains.  A kind may have a branch in more than one of them (the
    channel mask parameter has); a kind without a branch receives only the
    parent-class statements, the attachment and the wrapper.  The branch
    commented out in the source (the length) is not part of the chain. *)

Definition Chain1 (Type_ : FName) : list Stmt :=
  if String.eqb Type_ "MaterialExpressionFunctionOutput" then
    [TryString "OutputName" "OutputName"; TryString "Description" "Description";
     TryNumber "SortPriority" "SortPriority"; AssignInput "A" "A";
     TryBool "bLastPreviewed" "bLastPreviewed"; AssignGuid "Id" "ID"]
  else if String.eqb Type_ "MaterialExpressionStaticSwitchParameter" then
    [AssignInput "A" "A"; AssignInput "B" "B"; TryBool "DefaultValue" "DefaultValue"]
  else if String.eqb Type_ "MaterialExpressionFunctionInput" then
    [AssignInput "Preview" "Preview"; TryString "InputName" "InputName";
     TryString "Description" "Description"; AssignGuid "Id" "ID";
     TryEnum "EFunctionInputType" "InputType" "InputType";
     TryDecoded "PreviewValue" "PreviewValue";
     TryBool "bUsePreviewValueAsDefault" "bUsePreviewValueAsDefault";
     TryNumber "SortPriority" "SortPriority"]
  else if String.eqb Type_ "MaterialExpressionAbs" then [AssignInput "Input" "Input"]
  else if String.eqb Type_ "MaterialExpressionFrac" then [AssignInput "Input" "Input"]
  else if String.eqb Type_ "MaterialExpressionArcsine" then [AssignInput "Input" "Input"]
  else if String.eqb Type_ "MaterialExpressionSign" then [AssignInput "Input" "Input"]
  else if String.eqb Type_ "MaterialExpressionArcsineFast" then [AssignInput "Input" "Input"]
  else if String.eqb Type_ "MaterialExpressionConstant" then [TryNumber "R" "R"]
  else if String.eqb Type_ "MaterialExpressionAdd" then
    [AssignInput "A" "A"; AssignInput "B" "B";
     TryNumber "ConstA" "ConstA"; TryNumber "ConstB" "ConstB"]
  else if String.eqb Type_ "MaterialExpressionLinearInterpolate" then
    [AssignInput "A" "A"; AssignInput "B" "B"; AssignInput "Alpha" "Alpha";
     TryNumber "ConstA" "ConstA"; TryNumber "ConstB" "ConstB";
     TryNumber "ConstAlpha" "ConstAlpha"]
  else if String.eqb Type_ "MaterialExpressionAbsorptionMediumMaterialOutput" then
    [AssignInput "TransmittanceColor" "TransmittanceColor"]
  else if String.eqb Type_ "MaterialExpressionComponentMask" then
    [AssignInput "Input" "Input"; TryBool "R" "R"; TryBool "G" "G";
     TryBool "B" "B"; TryBool "A" "A"]
  else if String.eqb Type_ "MaterialExpressionConstant2Vector" then
    [TryNumber "R" "R"; TryNumber "G" "G"]
  else if String.eqb Type_ "MaterialExpressionConstant3Vector" then
    [TryDecoded "Constant" "Constant"]
  else if String.eqb Type_ "MaterialExpressionConstant4Vector" then
    [TryDecoded "Constant" "Constant"]
  else if String.eqb Type_ "MaterialExpressionConstantBiasScale" then
    [AssignInput "Input" "Input"; TryNumber "Bias" "Bias"; TryNumber "Scale" "Scale"]
  else if String.eqb Type_ "MaterialExpressionOneMinus" then [AssignInput "Input" "Input"]
  else if String.eqb Type_ "MaterialExpressionMultiply" then
    [AssignInput "A" "A"; AssignInput "B" "B";
     TryNumber "ConstA" "ConstA"; TryNumber "ConstB" "ConstB"]
  else [].

Definition RuntimeVirtualTextureSample (Type_ : FName) : list Stmt :=
  if String.eqb Type_ "MaterialExpressionRuntimeVirtualTextureSample"
     || String.eqb Type_ "MaterialExpressionRuntimeVirtualTextureSampleParameter" then
    [AssignInput "Coordinates" "Coordinates"; AssignInput "WorldPosition" "WorldPosition";
     AssignInput "MipValue" "MipValue";
     LoadOrNotify "VirtualTexture" "VirtualTexture" "Virtual Texture Sample Missing: ";
     TryEnum "ERuntimeVirtualTextureMaterialType" "MaterialType" "MaterialType";
     TryBool "bSinglePhysicalSpace" "bSinglePhysicalSpace";
     TryBool "bAdaptive" "bAdaptive";
     TryEnum "ERuntimeVirtualTextureMipValueMode" "MipValueMode" "MipValueMode";
     TryEnum "ERuntimeVirtualTextureTextureAddressMode" "TextureAddressMode" "TextureAddressMode"]
  else [].

Definition RuntimeVirtualTextureSampleParameter (Type_ : FName) : list Stmt :=
  if String.eqb Type_ "MaterialExpressionRuntimeVirtualTextureSampleParameter" then
    [TryString "ExpressionGUID" "ExpressionGUID"; TryString "ParameterName" "ParameterName";
     TryString "Group" "Group"; TryNumber "SortPriority" "SortPriority"]
  else [].

(** The chain that starts at the vector parameter. *)
Definition Chain2 (Type_ : FName) : list Stmt :=
  if String.eqb Type_ "MaterialExpressionVectorParameter"
     || String.eqb Type_ "MaterialExpressionChannelMaskParameter" then
    [TryDecoded "DefaultValue" "DefaultValue";
     TryBool "bUseCustomPrimitiveData" "bUseCustomPrimitiveData";
     TryNumber "PrimitiveDataIndex" "PrimitiveDataIndex";
     TryChannelName "ChannelNames.R" "R"; TryChannelName "ChannelNames.G" "G";
     TryChannelName "ChannelNames.B" "B"; TryChannelName "ChannelNames.A" "A"]
  else if String.eqb Type_ "MaterialExpressionMaterialFunctionCall" then
    [LoadOrRecover "MaterialFunction" "MaterialFunction" "Material Function Missing: ";
     FunctionInputs "FunctionInputs" "FunctionInputs";
     FunctionOutputs "FunctionOutputs" "FunctionOutputs"]
  else if String.eqb Type_ "MaterialExpressionMax" then
    [AssignInput "A" "A"; AssignInput "B" "B"; TryNumber "ConstA" "ConstA";
     TryNumber "ConstB" "ConstB"]
  else if String.eqb Type_ "MaterialExpressionTextureCoordinate" then
    [TryNumber "CoordinateIndex" "CoordinateIndex"; TryNumber "UTiling" "UTiling";
     TryNumber "VTiling" "VTiling"; TryBool "UnMirrorU" "UnMirrorU";
     TryBool "UnMirrorV" "UnMirrorV"]
  else if String.eqb Type_ "MaterialExpressionTime" then
    [TryBool "bIgnorePause" "bIgnorePause"; TryBool "bOverride_Period" "bOverride_Period";
     TryNumber "Period" "Period"]
  else if String.eqb Type_ "MaterialExpressionScalarParameter" then
    [TryNumber "DefaultValue" "DefaultValue";
     TryBool "bUseCustomPrimitiveData" "bUseCustomPrimitiveData";
     TryNumber "PrimitiveDataIndex" "PrimitiveDataIndex";
     TryNumber "SliderMin" "SliderMin"; TryNumber "SliderMax" "SliderMax"]
  else if String.eqb Type_ "MaterialExpressionPanner" then
    [AssignInput "Coordinate" "Coordinate"; AssignInput "Time" "Time";
     AssignInput "Speed" "Speed"; TryNumber "SpeedX" "SpeedX"; TryNumber "SpeedY" "SpeedY";
     TryNumber "ConstCoordinate" "ConstCoordinate";
     TryBool "bFractionalPart" "bFractionalPart"]
  else if String.eqb Type_ "MaterialExpressionNamedRerouteDeclaration" then
    [AssignInput "Input" "Input"; TryString "Name" "Name";
     TryDecoded "NodeColor" "NodeColor"; TryString "VariableGuid" "VariableGuid"]
  else if String.eqb Type_ "MaterialExpressionSceneTexture" then
    [AssignInput "Coordinates" "Coordinates"; TryBool "bFiltered" "bFiltered";
     TryEnum "ESceneTextureId" "SceneTextureId" "SceneTextureId"]
  else if String.eqb Type_ "MaterialExpressionReroute" then
    [AssignInput "Input" "Input"]
  else if String.eqb Type_ "MaterialExpressionDDX" then
    [AssignInput "Value" "Value"]
  else if String.eqb Type_ "MaterialExpressionDDY" then
    [AssignInput "Value" "Value"]
  else if String.eqb Type_ "MaterialExpressionSubtract" then
    [AssignInput "A" "A"; AssignInput "B" "B"; TryNumber "ConstA" "ConstA";
     TryNumber "ConstB" "ConstB"]
  else if String.eqb Type_ "MaterialExpressionSaturate" then
    [AssignInput "Input" "Input"]
  else if String.eqb Type_ "MaterialExpressionRotator" then
    [AssignInput "Coordinate" "Coordinate"; AssignInput "Time" "Time";
     TryNumber "CenterX" "CenterX"; TryNumber "CenterY" "CenterY";
     TryNumber "Speed" "Speed"; TryNumber "ConstCoordinate" "ConstCoordinate"]
  else if String.eqb Type_ "MaterialExpressionMin" then
    [AssignInput "A" "A"; AssignInput "B" "B"; TryNumber "ConstA" "ConstA";
     TryNumber "ConstB" "ConstB"]
  else if String.eqb Type_ "MaterialExpressionNaniteReplace" then
    [AssignInput "Default" "Default"; AssignInput "Nanite" "Nanite"]
  else if String.eqb Type_ "MaterialExpressionNamedRerouteUsage" then
    [LoadPlain "Declaration" "Declaration"; TryString "DeclarationGuid" "DeclarationGuid"]
  else if String.eqb Type_ "MaterialExpressionCollectionParameter" then
    [LoadOrRecover "Collection" "Collection" "Material Collection Missing: ";
     TryString "ParameterName" "ParameterName"; TryString "ParameterId" "ParameterId"]
  else if String.eqb Type_ "MaterialExpressionLandscapeVisibilityMask" then
    [TryString "ParameterName" "ParameterName"]
  else if String.eqb Type_ "MaterialExpressionSine" then
    [AssignInput "Input" "Input"; TryNumber "Period" "Period"]
  else if String.eqb Type_ "MaterialExpressionSmoothStep" then
    [AssignInputEither "Min" "Min" "min"; AssignInputEither "Max" "Max" "max";
     AssignInput "Value" "Value"; TryNumber "ConstMin" "ConstMin";
     TryNumber "ConstMax" "ConstMax"; TryNumber "ConstValue" "ConstValue"]
  else if String.eqb Type_ "MaterialExpressionAppendVector" then
    [AssignInput "A" "A"; AssignInput "B" "B"]
  else if String.eqb Type_ "MaterialExpressionDivide" then
    [AssignInput "A" "A"; AssignInput "B" "B"; TryNumber "ConstA" "ConstA";
     TryNumber "ConstB" "ConstB"]
  else if String.eqb Type_ "MaterialExpressionDistance" then
    [AssignInput "A" "A"; AssignInput "B" "B"]
  else if String.eqb Type_ "MaterialExpressionVectorNoise" then
    [AssignInput "Position" "Position";
     TryEnum "EVectorNoiseFunction" "NoiseFunction" "NoiseFunction";
     TryNumber "Quality" "Quality"; TryBool "bTiling" "bTiling";
     TryNumber "TileSize" "TileSize"]
  else if String.eqb Type_ "MaterialExpressionCrossProduct" then
    [AssignInput "A" "A"; AssignInput "B" "B"]
  else if String.eqb Type_ "MaterialExpressionTransform" then
    [TryEnum "EMaterialVectorCoordTransformSource" "TransformSourceType" "TransformSourceType";
     TryEnum "EMaterialVectorCoordTransform" "TransformType" "TransformType";
     AssignInput "Input" "Input"]
  else if String.eqb Type_ "MaterialExpressionVertexInterpolator" then
    [AssignInput "Input" "Input"]
  else if String.eqb Type_ "MaterialExpressionDepthFade" then
    [AssignInput "InOpacity" "InOpacity"; AssignInput "FadeDistance" "FadeDistance"]
  else if String.eqb Type_ "MaterialExpressionSceneDepth" then
    [AssignInput "Input" "Input";
     TryEnum "EMaterialSceneAttributeInputMode::Type" "InputMode" "InputMode";
     TryDecoded "ConstInput" "ConstInput"]
  else if String.eqb Type_ "MaterialExpressionDeriveNormalZ" then
    [AssignInput "InXY" "InXY"]
  else if String.eqb Type_ "MaterialExpressionQualitySwitch" then
    [AssignInput "Default" "Default";
     InputsByIndex EMaterialQualityLevel_Num "Inputs" "Inputs"]
  else if String.eqb Type_ "MaterialExpressionReflectionCapturePassSwitch" then
    [AssignInput "Default" "Default"; AssignInput "Reflection" "Reflection"]
  else if String.eqb Type_ "MaterialExpressionRotateAboutAxis" then
    [AssignInputIfFound "NormalizedRotationAxis" "NormalizedRotationAxis";
     AssignInputIfFound "RotationAngle" "RotationAngle";
     AssignInputIfFound "PivotPoint" "PivotPoint";
     AssignInputIfFound "Position" "Position"]
  else if String.eqb Type_ "MaterialExpressionNoise" then
    [AssignInputIfFound "Position" "Position";
     AssignInputIfFound "FilterWidth" "FilterWidth"; TryNumber "Scale" "Scale";
     TryNumber "Quality" "Quality";
     TryEnum "ENoiseFunction" "NoiseFunction" "NoiseFunction";
     TryBool "bTurbulence" "bTurbulence"; TryNumber "Levels" "Levels";
     TryNumber "OutputMin" "OutputMin"; TryNumber "OutputMax" "OutputMax";
     TryNumber "LevelScale" "LevelScale"; TryBool "bTiling" "bTiling";
     TryBool "RepeatSize" "RepeatSize"]
  else if String.eqb Type_ "MaterialExpressionBumpOffset" then
    [AssignInputIfFound "Coordinate" "Coordinate"; AssignInputIfFound "Height" "Height";
     AssignInputIfFound "HeightRatioInput" "HeightRatioInput"]
  else if String.eqb Type_ "MaterialExpressionSquareRoot" then
    [AssignInputIfFound "Input" "Input"]
  else if String.eqb Type_ "MaterialExpressionFresnel" then
    [AssignInputIfFound "ExponentIn" "ExponentIn";
     AssignInputIfFound "BaseReflectFractionIn" "BaseReflectFractionIn";
     AssignInputIfFound "Normal" "Normal"; TryNumber "Exponent" "Exponent";
     TryNumber "BaseReflectFraction" "BaseReflectFraction"]
  else if String.eqb Type_ "MaterialExpressionRayTracingQualitySwitch" then
    [AssignInputIfFound "Normal" "Normal"; AssignInputIfFound "RayTraced" "RayTraced"]
  else if String.eqb Type_ "MaterialExpressionMaterialProxyReplace" then
    [AssignInputIfFound "Realtime" "Realtime";
     AssignInputIfFound "MaterialProxy" "MaterialProxy"]
  else if String.eqb Type_ "MaterialExpressionShaderStageSwitch" then
    [AssignInputIfFound "PixelShader" "PixelShader";
     AssignInputIfFound "VertexShader" "VertexShader"]
  else if String.eqb Type_ "MaterialExpressionVirtualTextureFeatureSwitch" then
    [AssignInputIfFound "No" "No"; AssignInputIfFound "Yes" "Yes"]
  else if String.eqb Type_ "MaterialExpressionPreviousFrameSwitch" then
    [AssignInputIfFound "CurrentFrame" "CurrentFrame";
     AssignInputIfFound "PreviousFrame" "PreviousFrame"]
  else if String.eqb Type_ "MaterialExpressionShadowReplace" then
    [AssignInputIfFound "Default" "Default"; AssignInputIfFound "Shadow" "Shadow"]
  else if String.eqb Type_ "MaterialExpressionDistanceFieldsRenderingSwitch" then
    [AssignInputIfFound "No" "No"; AssignInputIfFound "Yes" "Yes"]
  else if String.eqb Type_ "MaterialExpressionMaterialAttributeLayers" then
    [AssignInputIfFound "Input" "Input";
     AddNulls "DefaultLayers.Layers" "DefaultLayers" "Layers"]
  else if String.eqb Type_ "MaterialExpressionSkyLightEnvMapSample" then
    [AssignInputIfFound "Direction" "Direction";
     AssignInputIfFound "Roughness" "Roughness"]
  else if String.eqb Type_ "MaterialExpressionReflectionVectorWS" then
    [AssignInputIfFound "CustomWorldNormal" "CustomWorldNormal";
     TryBool "bNormalizeCustomWorldNormal" "bNormalizeCustomWorldNormal"]
  else if String.eqb Type_ "MaterialExpressionGetMaterialAttributes" then
    [AssignInputIfFound "MaterialAttributes" "MaterialAttributes";
     AddStrings "AttributeGetTypes" "AttributeGetTypes"; Outputs "Outputs" "Outputs"]
  else if String.eqb Type_ "MaterialExpressionBreakMaterialAttributes" then
    [AssignInputIfFound "MaterialAttributes" "MaterialAttributes"]
  else if String.eqb Type_ "MaterialExpressionBlendMaterialAttributes" then
    [AssignInputIfFound "A" "A"; AssignInputIfFound "B" "B";
     AssignInputIfFound "Alpha" "Alpha";
     TryEnum "EMaterialAttributeBlend::Type" "PixelAttributeBlendType" "PixelAttributeBlendType";
     TryEnum "EMaterialAttributeBlend::Type" "VertexAttributeBlendType" "VertexAttributeBlendType"]
  else if String.eqb Type_ "MaterialExpressionMakeMaterialAttributes" then
    [AssignInputIfFound "BaseColor" "BaseColor"; AssignInputIfFound "Metallic" "Metallic";
     AssignInputIfFound "Specular" "Specular"; AssignInputIfFound "Roughness" "Roughness";
     AssignInputIfFound "Anisotropy" "Anisotropy";
     AssignInputIfFound "EmissiveColor" "EmissiveColor";
     AssignInputIfFound "Opacity" "Opacity";
     AssignInputIfFound "OpacityMask" "OpacityMask"; AssignInputIfFound "Normal" "Normal";
     AssignInputIfFound "Tangent" "Tangent";
     AssignInputIfFound "WorldPositionOffset" "WorldPositionOffset";
     AssignInputIfFound "SubsurfaceColor" "SubsurfaceColor";
     AssignInputIfFound "ClearCoat" "ClearCoat";
     AssignInputIfFound "ClearCoatRoughness" "ClearCoatRoughness";
     AssignInputIfFound "AmbientOcclusion" "AmbientOcclusion";
     AssignInputIfFound "Refraction" "Refraction";
     AssignInputIfFound "PixelDepthOffset" "PixelDepthOffset";
     AssignInputIfFound "ShadingModel" "ShadingModel"]
  else [].

(** The members of the structs the array members hold, in the order the
    loops assign them. *)
Definition FCustomInput_members : list MemberStmt :=
  [MemberInputIfFound "Input" "Input"; MemberTryString "InputName" "InputName"].

Definition FCustomOutput_members : list MemberStmt :=
  [MemberTryEnum "ECustomMaterialOutputType" "OutputType" "OutputType";
   MemberTryString "OutputName" "OutputName"].

Definition FCustomDefine_members : list MemberStmt :=
  [MemberTryString "DefineName" "DefineName"; MemberTryString "DefineValue" "DefineValue"].

Definition FGrassInput_members : list MemberStmt :=
  [MemberName "Name" "Name"; MemberLoad "GrassType" "GrassAsset";
   MemberInputIfFound "Input" "Input"].

Definition FPhysicalMaterialInput_members : list MemberStmt :=
  [MemberLoad "PhysicalMaterial" "PhysicalMaterial"; MemberInputIfFound "Input" "Input"].

Definition FLayerBlendInput_members : list MemberStmt :=
  [MemberTryString "LayerName" "LayerName";
   MemberTryEnum "ELandscapeLayerBlendType" "BlendType" "BlendType";
   MemberInputIfFound "LayerInput" "LayerInput";
   MemberInputIfFound "HeightInput" "HeightInput";
   MemberTryNumber "PreviewWeight" "PreviewWeight";
   MemberTryDecoded "ConstLayerInput" "ConstLayerInput";
   MemberTryNumber "ConstHeightInput" "ConstHeightInput"].

(** The chain that starts at the channel mask parameter. *)
Definition Chain3 (Type_ : FName) : list Stmt :=
  if String.eqb Type_ "MaterialExpressionChannelMaskParameter" then
    [AssignInputIfFound "Input" "Input";
     TryEnum "EChannelMaskParameterColor::Type" "MaskChannel" "MaskChannel"]
  else if String.eqb Type_ "MaterialExpressionStaticComponentMaskParameter" then
    [AssignInputIfFound "Input" "Input"; AssignBool "DefaultR" false;
     AssignBool "DefaultG" false; AssignBool "DefaultB" false; AssignBool "DefaultA" false;
     TryBool "DefaultR" "DefaultR"; TryBool "DefaultG" "DefaultG";
     TryBool "DefaultB" "DefaultB"; TryBool "DefaultA" "DefaultA"]
  else if String.eqb Type_ "MaterialExpressionShadingModel" then
    [TryEnum "EMaterialShadingModel" "ShadingModel" "ShadingModel"]
  else if String.eqb Type_ "MaterialExpressionViewProperty" then
    [TryEnum "EMaterialExposedViewProperty" "Property" "Property"]
  else if String.eqb Type_ "MaterialExpressionSetMaterialAttributes" then
    [InputsResized "Inputs" "Inputs"; SetStrings "AttributeSetTypes" "AttributeSetTypes"]
  else if String.eqb Type_ "MaterialExpressionStaticBool" then
    [TryBool "Value" "Value"]
  else if String.eqb Type_ "MaterialExpressionStep" then
    [AssignInputIfFound "Y" "Y"; AssignInputIfFound "X" "X"; TryNumber "ConstY" "ConstY";
     TryNumber "ConstX" "ConstX"]
  else if String.eqb Type_ "MaterialExpressionDotProduct" then
    [AssignInputIfFound "A" "A"; AssignInputIfFound "B" "B"]
  else if String.eqb Type_ "MaterialExpressionArctangent2Fast" then
    [AssignInputIfFound "Y" "Y"; AssignInputIfFound "X" "X"]
  else if String.eqb Type_ "MaterialExpressionArctangent2" then
    [AssignInputIfFound "Y" "Y"; AssignInputIfFound "X" "X"]
  else if String.eqb Type_ "MaterialExpressionArctangentFast" then
    [AssignInputIfFound "Input" "Input"]
  else if String.eqb Type_ "MaterialExpressionArctangent" then
    [AssignInputIfFound "Input" "Input"]
  else if String.eqb Type_ "MaterialExpressionStaticSwitch" then
    [TryBool "DefaultValue" "DefaultValue"; AssignInputIfFound "A" "A";
     AssignInputIfFound "B" "B"; AssignInputIfFound "Value" "Value"]
  else if String.eqb Type_ "MaterialExpressionPower" then
    [AssignInputIfFound "Base" "Base"; AssignInputIfFound "Exponent" "Exponent";
     TryNumber "ConstExponent" "ConstExponent"]
  else if String.eqb Type_ "MaterialExpressionRound" then
    [AssignInputIfFound "Input" "Input"]
  else if String.eqb Type_ "MaterialExpressionFloor" then
    [AssignInputIfFound "Input" "Input"]
  else if String.eqb Type_ "MaterialExpressionCustom" then
    [TryString "Code" "Code";
     TryEnum "ECustomMaterialOutputType" "OutputType" "OutputType";
     TryString "Description" "Description";
     SetStructs "Inputs" "Inputs" FCustomInput_members;
     SetStructs "AdditionalOutputs" "AdditionalOutputs" FCustomOutput_members;
     SetStructs "AdditionalDefines" "AdditionalDefines" FCustomDefine_members;
     SetStrings "IncludeFilePaths" "IncludeFilePaths"]
  else if String.eqb Type_ "MaterialExpressionCeil" then
    [AssignInputIfFound "Input" "Input"]
  else if String.eqb Type_ "MaterialExpressionIf" then
    [AssignInputIfFound "A" "A"; AssignInputIfFound "B" "B";
     AssignInputIfFound "AGreaterThanB" "AGreaterThanB";
     AssignInputIfFound "AEqualsB" "AEqualsB";
     AssignInputIfFound "ALessThanB" "ALessThanB";
     TryNumber "EqualsThreshold" "EqualsThreshold"; TryNumber "ConstB" "ConstB"]
  else if String.eqb Type_ "MaterialExpressionCosine" then
    [AssignInputIfFound "Input" "Input"; TryNumber "Period" "Period"]
  else if String.eqb Type_ "MaterialExpressionDesaturation" then
    [AssignInputIfFound "Input" "Input"; AssignInputIfFound "Fraction" "Fraction";
     TryDecoded "LuminanceFactors" "LuminanceFactors"]
  else if String.eqb Type_ "MaterialExpressionClamp" then
    [AssignInputIfFound "Input" "Input"; AssignInputIfFoundEither "Min" "min" "Min";
     AssignInputIfFoundEither "Max" "max" "Max";
     TryEnumerator "ClampMode" "ClampMode" ["CMODE_Clamp"; "CMODE_ClampMin"; "CMODE_ClampMax"];
     TryNumber "MinDefault" "MinDefault"; TryNumber "MaxDefault" "MaxDefault"]
  else if String.eqb Type_ "MaterialExpressionTransformPosition" then
    [AssignInputIfFound "Input" "Input";
     TryEnum "EMaterialPositionTransformSource" "TransformSourceType" "TransformSourceType";
     TryEnum "EMaterialPositionTransformSource" "TransformType" "TransformType"]
  else if String.eqb Type_ "MaterialExpressionSphereMask" then
    [AssignInputIfFound "A" "A"; AssignInputIfFound "B" "B";
     AssignInputIfFound "Radius" "Radius"; AssignInputIfFound "Hardness" "Hardness";
     TryNumber "AttenuationRadius" "AttenuationRadius";
     TryNumber "HardnessPercent" "HardnessPercent"]
  else if String.eqb Type_ "MaterialExpressionCurveAtlasRowParameter" then
    [LoadPlain "Curve" "Curve"; LoadPlain "Atlas" "Atlas";
     AssignInputIfFound "InputTime" "InputTime"]
  else if String.eqb Type_ "MaterialExpressionFmod" then
    [AssignInputIfFound "A" "A"; AssignInputIfFound "B" "B"]
  else if String.eqb Type_ "MaterialExpressionTextureProperty" then
    [AssignInputIfFound "TextureObject" "TextureObject";
     TryEnumerator "Property" "Property" ["TMTM_TextureSize"; "TMTM_TexelSize"]]
  else if String.eqb Type_ "MaterialExpressionWorldPosition" then
    [TryEnum "EWorldPositionIncludedOffsets"
       "WorldPositionShaderOffset" "WorldPositionShaderOffset"]
  else if String.eqb Type_ "MaterialExpressionNormalize" then
    [AssignInputIfFound "VectorInput" "VectorInput"]
  else if String.eqb Type_ "MaterialExpressionDynamicParameter" then
    [SetStrings "ParamNames" "ParamNames"; TryDecoded "DefaultValue" "DefaultValue";
     TryNumber "ParameterIndex" "ParameterIndex"]
  else if String.eqb Type_ "MaterialExpressionFeatureLevelSwitch" then
    [AssignInputIfFound "Default" "Default";
     InputsByIndex ERHIFeatureLevel_Num "Inputs" "Inputs"]
  else if String.eqb Type_ "MaterialExpressionShadingPathSwitch" then
    [AssignInputIfFound "Default" "Default";
     InputsByIndex ERHIShadingPath_Num "Inputs" "Inputs"]
  else if String.eqb Type_ "MaterialExpressionSkyAtmosphereLightDirection" then
    [TryNumber "LightIndex" "LightIndex"]
  else if String.eqb Type_ "MaterialExpressionStaticBoolParameter" then
    [TryBool "DefaultValue" "DefaultValue"]
  else if String.eqb Type_ "MaterialExpressionSkyAtmosphereLightDiskLuminance" then
    [TryNumber "LightIndex" "LightIndex"]
  else if String.eqb Type_ "MaterialExpressionSkyAtmosphereAerialPerspective" then
    [AssignInputIfFound "WorldPosition" "WorldPosition"]
  else if String.eqb Type_ "MaterialExpressionSkyAtmosphereLightIlluminance" then
    [AssignInputIfFound "WorldPosition" "WorldPosition"]
  else if String.eqb Type_ "MaterialExpressionTruncate" then
    [AssignInputIfFound "Input" "Input"]
  else if String.eqb Type_ "MaterialExpressionLandscapeGrassOutput" then
    [AddStructs true "GrassTypes" "GrassTypes" FGrassInput_members]
  else if String.eqb Type_ "MaterialExpressionLandscapeLayerSample" then
    [TryString "ParameterName" "ParameterName"; TryNumber "PreviewWeight" "PreviewWeight"]
  else if String.eqb Type_ "MaterialExpressionLandscapePhysicalMaterialOutput" then
    [AddStructs false "Inputs" "Inputs" FPhysicalMaterialInput_members]
  else if String.eqb Type_ "MaterialExpressionLandscapeLayerCoords" then
    [TryEnum "ETerrainCoordMappingType" "MappingType" "MappingType";
     TryEnum "ELandscapeCustomizedCoordType" "CustomUVType" "CustomUVType";
     TryNumber "MappingScale" "MappingScale";
     TryNumber "MappingRotation" "MappingRotation"; TryNumber "MappingPanU" "MappingPanU";
     TryNumber "MappingPanV" "MappingPanV"]
  else if String.eqb Type_ "MaterialExpressionLandscapeLayerSwitch" then
    [AssignInputIfFound "LayerUsed" "LayerUsed";
     AssignInputIfFound "LayerNotUsed" "LayerNotUsed";
     TryString "ParameterName" "ParameterName"; TryBool "PreviewUsed" "PreviewUsed"]
  else if String.eqb Type_ "MaterialExpressionLandscapeLayerWeight" then
    [AssignInputIfFound "Base" "Base"; AssignInputIfFound "Layer" "Layer";
     TryString "ParameterName" "ParameterName"; TryNumber "PreviewWeight" "PreviewWeight";
     TryDecoded "ConstBase" "ConstBase"]
  else if String.eqb Type_ "MaterialExpressionLandscapeLayerBlend" then
    [AddStructs true "Layers" "Layers" FLayerBlendInput_members]
  else if String.eqb Type_ "MaterialExpressionTextureSampleParameterSubUV" then
    [TryBool "bBlend" "bBlend"]
  else [].

Definition KindStatements (Type_ : FName) : list Stmt :=
  Chain1 Type_ ++ RuntimeVirtualTextureSample Type_
  ++ RuntimeVirtualTextureSampleParameter Type_ ++ Chain2 Type_ ++ Chain3 Type_.

(** [Cast<T>(Expression)] is not null. *)
Definition CastSucceeds (eng : Engine) (Class_ : option UClass) (T : string) : bool :=
  match Class_ with
  | Some c => IsChildOf eng c T
  | None => false
  end.

(** The "Parent Classes" part of [PropagateExpressions]. *)
Definition ParentClassStatements (eng : Engine) (Class_ : option UClass) : list Stmt :=
  (if CastSucceeds eng Class_ "MaterialExpressionTextureSample" then
     [TryEnum "ETextureMipValueMode" "MipValueMode" "MipValueMode";
      TryEnum "ESamplerSourceMode" "SamplerSource" "SamplerSource";
      TryBool "AutomaticViewMipBias" "AutomaticViewMipBias";
      TryNumber "ConstCoordinate" "ConstCoordinate";
      TryNumber "ConstMipValue" "ConstMipValue";
      AssignInputIfFound "Coordinates" "Coordinates";
      AssignInputIfFound "TextureObject" "TextureObject";
      AssignInputIfFound "MipValue" "MipValue";
      AssignInputIfFound "CoordinatesDX" "CoordinatesDX";
      AssignInputIfFound "CoordinatesDY" "CoordinatesDY";
      AssignInputIfFound "AutomaticViewMipBiasValue" "AutomaticViewMipBiasValue"]
   else [])
  ++
  (if CastSucceeds eng Class_ "MaterialExpressionTextureSampleParameter" then
     [TryString "ParameterName" "ParameterName"; TryString "ExpressionGUID" "ExpressionGUID";
      TryString "Group" "Group"; TryNumber "SortPriority" "SortPriority";
      TryChannelName "ChannelNames.R" "R"; TryChannelName "ChannelNames.G" "G";
      TryChannelName "ChannelNames.B" "B"; TryChannelName "ChannelNames.A" "A"]
   else []).

(** [UMaterialGraph_Interface::MaterialGraphNode_ExpressionWrapper] *)
Definition MaterialGraphNode_ExpressionWrapper (eng : Engine) (Class_ : option UClass)
    : list Stmt :=
  [TryNumber "MaterialExpressionEditorX" "MaterialExpressionEditorX";
   TryNumber "MaterialExpressionEditorY" "MaterialExpressionEditorY";
   TryString "MaterialExpressionGuid" "MaterialExpressionGuid";
   SetOwner;
   TryString "Desc" "Desc";
   TryBool "bCommentBubbleVisible" "bCommentBubbleVisible";
   TryBool "bCollapsed" "bCollapsed";
   TryBool "bRealtimePreview" "bRealtimePreview";
   TryBool "bShowOutputNameOnPin" "bShowOutputNameOnPin";
   Outputs "Outputs" "Outputs"]
  ++
  (if CastSucceeds eng Class_ "MaterialExpressionParameter" then
     [TryString "ExpressionGUID" "ExpressionGUID"; TryString "ParameterName" "ParameterName";
      TryString "Group" "Group"; TryNumber "SortPriority" "SortPriority"]
   else [])
  ++
  (if CastSucceeds eng Class_ "MaterialExpressionTextureBase" then
     [TryEnumAndNotify "EMaterialSamplerType" "SamplerType" "SamplerType";
      LoadAndRefresh "Texture" "Texture";
      TryBool "IsDefaultMeshpaintTexture" "IsDefaultMeshpaintTexture";
      RecacheWhenMaterial]
   else []).

(** ** The passes *)

(** [FImportData(Type, Outer, Json)] *)
Record FImportData : Type := {
  Type_ : FName;
  Outer : FName;
  Json : FJsonObject
}.

(** The out-parameters and the result of [FindEditorOnlyData]. *)
Record Partition : Type := {
  EditorOnlyData : option FJsonObject;
  OutExports : gmap FName FImportData;
  ExpressionNames : list FName
}.

(** The body of the loop of [FindEditorOnlyData] for one export. *)
Definition FindEditorOnlyData_step (Type_ Outer : string) (acc : Partition)
    (Value : FJsonValue) : Partition :=
  let Object_ := AsObject Value in
  let ExType := GetStringField Object_ "Type" in
  let Name := GetStringField Object_ "Name" in
  if String.eqb ExType (Type_ +:+ "EditorOnlyData") then
    {| EditorOnlyData := Some Object_;
       OutExports := OutExports acc;
       ExpressionNames := ExpressionNames acc |}
  else
    {| EditorOnlyData := EditorOnlyData acc;
       OutExports := <[Name := {| Type_ := ExType; Outer := Outer; Json := Object_ |}]> (OutExports acc);
       ExpressionNames := ExpressionNames acc ++ [Name] |}.

(** [UMaterialGraph_Interface::FindEditorOnlyData] over the exports it
    iterates ([FilterExportsByOuter(Outer)] or [AllJsonObjects], both kept
    by the importer base class), starting from the out-parameters as the
    caller hands them in. *)
Definition FindEditorOnlyData (Exports_ : list FJsonValue) (Type_ Outer : string)
    (OutExports0 : gmap FName FImportData) (ExpressionNames0 : list FName) : Partition :=
  foldl (FindEditorOnlyData_step Type_ Outer)
    {| EditorOnlyData := None; OutExports := OutExports0; ExpressionNames := ExpressionNames0 |}
    Exports_.

(** The expressions made under [Parent], the expression collection of
    [Parent], and the effects so far.  An expression is stored under the
    name [NewObject] was asked to give it. *)
Record World (P : Type) : Type := {
  Objects : gmap FName (UMaterialExpression P);
  ExpressionCollection : list P;
  Fx : Effects
}.
Arguments Objects {P} _.
Arguments ExpressionCollection {P} _.
Arguments Fx {P} _.

Definition World_empty {P : Type} : World P :=
  {| Objects := ∅; ExpressionCollection := [];
     Fx := {| Recovered := []; Log := [] |} |}.

Section Passes.
Context {P : Type}.
Variable plugin : Plugin.
Variable eng : Engine.
(** [NewObject<UMaterialExpression>(Parent, Class, Name, RF_Transactional)]:
    the address of the object, null when the engine makes none. *)
Variable NewObject : option UClass -> FName -> option P.
Variable Parent : UParent.

(** The class [CreateEmptyExpression] looks up: Engine first, then
    Landscape, then InterchangeImport. *)
Definition FindExpressionClass (Type_ : FName) : option UClass :=
  match FindObject_UClass eng ("/Script/Engine." +:+ Type_) with
  | Some c => Some c
  | None =>
      match FindObject_UClass eng ("/Script/Landscape." +:+ Type_) with
      | Some c => Some c
      | None => FindObject_UClass eng ("/Script/InterchangeImport." +:+ Type_)
      end
  end.

(** What [CreateEmptyExpression] reports before it constructs. *)
Definition MissingSupportEvents (Type_ : FName) : list Event :=
  if bool_decide (Type_ ∈ Expressions plugin) then []
  else if String.eqb Type_ "" then [EvMissingSupportLog Type_]
  else [EvMissingSupportLog Type_; EvMissingSupportDialog Type_].

(** [UMaterialGraph_Interface::CreateEmptyExpression]: the pointer
    returned, and what was reported. *)
Definition CreateEmptyExpression (Name : FName) (Type_ : FName)
    : option P * list Event :=
  if bool_decide (Type_ ∈ IgnoredExpressions plugin) then (None, [])
  else (NewObject (FindExpressionClass Type_) Name, MissingSupportEvents Type_).

(** The pass of [ConstructExpressions]: the map under construction and the
    world the new objects live in. *)
Definition ConstructExpressions_step (Outer_ : string) (Exports : gmap FName FImportData)
    (acc : gmap FName P * World P) (Name : FName) : gmap FName P * World P :=
  let '(CreatedExpressionMap, w) := acc in
  (* the scan of Exports for Key == Name with the wanted Outer; keys of a
     TMap are unique *)
  match Exports !! Name with
  | Some data =>
      if String.eqb (Outer data) Outer_ then
        let '(Ex, reported) := CreateEmptyExpression Name (Type_ data) in
        let fx := {| Recovered := Recovered (Fx w); Log := Log (Fx w) ++ reported |} in
        match Ex with
        | Some Found =>
            (<[Name := Found]> CreatedExpressionMap,
             {| Objects := <[Name := {| Class := FindExpressionClass (Type_ data); Fields := ∅ |}]> (Objects w);
                ExpressionCollection := ExpressionCollection w;
                Fx := fx |})
        | None =>
            (CreatedExpressionMap,
             {| Objects := Objects w; ExpressionCollection := ExpressionCollection w; Fx := fx |})
        end
      else acc
  | None => acc
  end.

(** [UMaterialGraph_Interface::ConstructExpressions] *)
Definition ConstructExpressions (Outer_ : string) (ExpressionNames : list FName)
    (Exports : gmap FName FImportData) (w : World P) : gmap FName P * World P :=
  foldl (ConstructExpressions_step Outer_ Exports) (∅, w) ExpressionNames.

(** The expression is handed to the collection of [Parent]. *)
Definition Attach (bSubgraph : bool) (Expression : P) (collection : list P) : list P :=
  if bSubgraph then collection
  else
    match Kind Parent with
    | IsMaterial | IsMaterialFunction => collection ++ [Expression]
    | IsOtherObject => collection
    end.

(** The [Outer] test of [PropagateExpressions]. *)
Definition SkippedByOuter (bCheckOuter : bool) (data : FImportData) : bool :=
  bCheckOuter &&
  match TryGetStringField (Json data) "Outer" with
  | Some Outer_ => negb (String.eqb Outer_ (ParentName Parent))
  | None => false
  end.

(** The body of the loop of [PropagateExpressions] for one name.  A handler
    uses the pointer its cast of [Expression] gives without a test; the
    object was made of the class found under the name of its kind, and that
    the cast then gives the object is the engine's. *)
Definition PropagateExpressions_step (Exports : gmap FName FImportData)
    (CreatedExpressionMap : gmap FName P) (bCheckOuter bSubgraph : bool)
    (Name : FName) (w : World P) : Outcome (World P) :=
  match Exports !! Name with
  | None => Crash NullDereference
  | Some data =>
      let Properties := GetObjectField (Json data) "Properties" in
      match CreatedExpressionMap !! Name with
      | None => Done w
      | Some Expression =>
          if SkippedByOuter bCheckOuter data then Done w
          else
            match Objects w !! Name with
            | None => Crash NullDereference
            | Some e =>
                let run := exec_all plugin eng Parent Properties CreatedExpressionMap in
                bind (run (KindStatements (Type_ data) ++ ParentClassStatements eng (Class e)) e (Fx w))
                  (fun r1 =>
                bind (run (MaterialGraphNode_ExpressionWrapper eng (Class e)) (fst r1) (snd r1))
                  (fun r2 =>
                Done {| Objects := <[Name := fst r2]> (Objects w);
                        ExpressionCollection := Attach bSubgraph Expression (ExpressionCollection w);
                        Fx := snd r2 |}))
            end
      end
  end.

(** [UMaterialGraph_Interface::PropagateExpressions] *)
Fixpoint PropagateExpressions (ExpressionNames : list FName)
    (Exports : gmap FName FImportData) (CreatedExpressionMap : gmap FName P)
    (bCheckOuter bSubgraph : bool) (w : World P) : Outcome (World P) :=
  match ExpressionNames with
  | [] => Done w
  | Name :: rest =>
      bind (PropagateExpressions_step Exports CreatedExpressionMap bCheckOuter bSubgraph Name w)
        (PropagateExpressions rest Exports CreatedExpressionMap bCheckOuter bSubgraph)
  end.

End Passes.

(** The three passes over one list of exports, each fed the results of the
    one before: partition, construction, propagation (which also attaches).
    The importers that call them are not part of the sources; the order is
    that of the calls' data flow, and [Outer] is the name of [Parent]. *)
Definition ThreePasses {P : Type} (plugin : Plugin) (eng : Engine)
    (NewObject : option UClass -> FName -> option P) (Parent : UParent)
    (Type_ : string) (Exports_ : list FJsonValue) (bCheckOuter bSubgraph : bool)
    : Partition * gmap FName P * Outcome (World P) :=
  let part := FindEditorOnlyData Exports_ Type_ (ParentName Parent) ∅ [] in
  let built :=
    ConstructExpressions plugin eng NewObject (ParentName Parent)
      (ExpressionNames part) (OutExports part) World_empty in
  (part, fst built,
   PropagateExpressions plugin eng Parent (ExpressionNames part) (OutExports part)
     (fst built) bCheckOuter bSubgraph (snd built)).

(** ** Reading a graph through a renaming of its pointers

    [rename f] replaces every expression pointer [p] by [f p]; with [f] the
    name of the object behind the pointer it is the graph compared by name
    rather than by instance. *)

Definition rename_input {P Q : Type} (f : P -> Q) (i : FExpressionInput P)
    : FExpressionInput Q :=
  {| Expression := f <$> Expression i; OutputIndex := OutputIndex i;
     InputName := InputName i; Mask := Mask i; MaskR := MaskR i;
     MaskG := MaskG i; MaskB := MaskB i; MaskA := MaskA i |}.

Definition rename_function_input {P Q : Type} (f : P -> Q)
    (i : FFunctionExpressionInput P) : FFunctionExpressionInput Q :=
  {| ExpressionInputId := ExpressionInputId i; Input := rename_input f (Input i) |}.

Definition rename_member {P Q : Type} (f : P -> Q) (m : Member P) : Member Q :=
  match m with
  | MNumber z => MNumber z
  | MString s => MString s
  | MEnum z => MEnum z
  | MDecoded o => MDecoded o
  | MAsset a => MAsset a
  | MInput i => MInput (rename_input f i)
  end.

Definition rename_struct {P Q : Type} (f : P -> Q) (s : Struct P) : Struct Q :=
  rename_member f <$> s.

Definition rename_value {P Q : Type} (f : P -> Q) (v : FieldValue P) : FieldValue Q :=
  match v with
  | VNumber z => VNumber z
  | VBool b => VBool b
  | VString s => VString s
  | VEnum z => VEnum z
  | VDecoded o => VDecoded o
  | VAsset a => VAsset a
  | VOwner o => VOwner o
  | VInput i => VInput (rename_input f i)
  | VInputArray l => VInputArray (rename_input f <$> l)
  | VOutputs l => VOutputs l
  | VFunctionInputs l => VFunctionInputs (rename_function_input f <$> l)
  | VFunctionOutputs l => VFunctionOutputs l
  | VEnumerator name => VEnumerator name
  | VStrings l => VStrings l
  | VAddedStrings l => VAddedStrings l
  | VAddedNulls n => VAddedNulls n
  | VStructs l => VStructs (rename_struct f <$> l)
  | VAddedStructs l => VAddedStructs (rename_struct f <$> l)
  end.

Definition rename_expression {P Q : Type} (f : P -> Q) (e : UMaterialExpression P)
    : UMaterialExpression Q :=
  {| Class := Class e; Fields := rename_value f <$> Fields e |}.

Definition rename_world {P Q : Type} (f : P -> Q) (w : World P) : World Q :=
  {| Objects := rename_expression f <$> Objects w;
     ExpressionCollection := f <$> ExpressionCollection w;
     Fx := Fx w |}.

Definition map_outcome {A B : Type} (f : A -> B) (r : Outcome A) : Outcome B :=
  match r with
  | Done a => Done (f a)
  | Crash c => Crash c
  end.

(** ** Where the inputs of an expression point *)

(** The expression inputs a member holds. *)
Definition member_inputs {P : Type} (m : Member P) : list (FExpressionInput P) :=
  match m with
  | MInput i => [i]
  | _ => []
  end.

Definition struct_inputs {P : Type} (s : Struct P) : list (FExpressionInput P) :=
  (map_to_list s).*2 ≫= member_inputs.

Definition inputs_of {P : Type} (v : FieldValue P) : list (FExpressionInput P) :=
  match v with
  | VInput i => [i]
  | VInputArray l => l
  | VFunctionInputs l => Input <$> l
  | VStructs l => l ≫= struct_inputs
  | VAddedStructs l => l ≫= struct_inputs
  | _ => []
  end.

(** The input is not wired, or wired to an expression of the map. *)
Definition TargetCreated {P : Type} (CreatedExpressionMap : gmap FName P)
    (i : FExpressionInput P) : Prop :=
  forall p, Expression i = Some p -> exists Name, CreatedExpressionMap !! Name = Some p.

(** Every input of every member of the expression is. *)
Definition ExpressionWired {P : Type} (CreatedExpressionMap : gmap FName P)
    (e : UMaterialExpression P) : Prop :=
  forall field v i, Fields e !! field = Some v -> i ∈ inputs_of v ->
    TargetCreated CreatedExpressionMap i.

(** The same for the struct of an array member. *)
Definition StructWired {P : Type} (CreatedExpressionMap : gmap FName P) (S_ : Struct P)
    : Prop :=
  forall i, i ∈ struct_inputs S_ -> TargetCreated CreatedExpressionMap i.

Definition WorldWired {P : Type} (CreatedExpressionMap : gmap FName P) (w : World P) : Prop :=
  forall Name e, Objects w !! Name = Some e -> ExpressionWired CreatedExpressionMap e.

(** Every expression of the map has its object in the world. *)
Definition Backed {P : Type} (M : gmap FName P) (w : World P) : Prop :=
  forall Name p, M !! Name = Some p -> is_Some (Objects w !! Name).

(** ** Vocabulary for the statements about the passes *)

(** The export is the editor-only data of a unit of kind [Type_]. *)
Definition IsEditorOnlyData (Type_ : string) (Value : FJsonValue) : bool :=
  String.eqb (GetStringField (AsObject Value) "Type") (Type_ +:+ "EditorOnlyData").

Definition ExportName (Value : FJsonValue) : FName :=
  GetStringField (AsObject Value) "Name".

Definition ImportDataOf (Outer_ : string) (Value : FJsonValue) : FImportData :=
  {| Type_ := GetStringField (AsObject Value) "Type"; Outer := Outer_;
     Json := AsObject Value |}.

(** The exports that are expressions, in the order of the list. *)
Definition NodeExports (Type_ : string) (Exports_ : list FJsonValue) : list FJsonValue :=
  filter (fun Value => IsEditorOnlyData Type_ Value = false) Exports_.

Definition EditorOnlyExports (Type_ : string) (Exports_ : list FJsonValue) : list FJsonValue :=
  filter (fun Value => IsEditorOnlyData Type_ Value = true) Exports_.

(** What [ConstructExpressions] makes of one name: the pointer that enters
    the map and the object behind it, nothing when the name is skipped. *)
Definition Constructed {P : Type} (plugin : Plugin) (eng : Engine)
    (NewObject : option UClass -> FName -> option P) (Outer_ : string)
    (Exports : gmap FName FImportData) (Name : FName)
    : option (P * UMaterialExpression P) :=
  match Exports !! Name with
  | Some data =>
      if String.eqb (Outer data) Outer_ then
        match fst (CreateEmptyExpression plugin eng NewObject Name (Type_ data)) with
        | Some Found =>
            Some (Found, {| Class := FindExpressionClass eng (Type_ data); Fields := ∅ |})
        | None => None
        end
      else None
  | None => None
  end.

(** The pointer [PropagateExpressions] hands to the collection for one
    name, when it gets that far. *)
Definition Visited {P : Type} (Parent : UParent) (Exports : gmap FName FImportData)
    (M : gmap FName P) (bCheckOuter : bool) (Name : FName) : option P :=
  match Exports !! Name with
  | Some data => if SkippedByOuter Parent bCheckOuter data then None else M !! Name
  | None => None
  end.

(** What [CreateEmptyExpression] reports while [ConstructExpressions] is
    at one name. *)
Definition Reported {P : Type} (plugin : Plugin) (eng : Engine)
    (NewObject : option UClass -> FName -> option P) (Outer_ : string)
    (Exports : gmap FName FImportData) (Name : FName) : list Event :=
  match Exports !! Name with
  | Some data =>
      if String.eqb (Outer data) Outer_
      then snd (CreateEmptyExpression plugin eng NewObject Name (Type_ data))
      else []
  | None => []
  end.

(** What [ConstructExpressions] over [names] makes of the name [n]. *)
Definition Made {P : Type} (plugin : Plugin) (eng : Engine)
    (NewObject : option UClass -> FName -> option P) (Outer_ : string)
    (Exports : gmap FName FImportData) (names : list FName) (n : FName)
    : option (P * UMaterialExpression P) :=
  if bool_decide (n ∈ names)
  then Constructed plugin eng NewObject Outer_ Exports n
  else None.

(** What the loop of the quality switch writes for the entry at position
    [j] of the array: the input, when the entry resolves. *)
Definition WrittenAt {P : Type} (plugin : Plugin) (M : gmap FName P)
    (items : list FJsonValue) (j : nat) : option (FExpressionInput P) :=
  match items !! j with
  | Some InputValue =>
      match M !! GetExpressionName plugin (AsObject InputValue) (ExpressionKey plugin) with
      | Some Found =>
          Some (PopulateExpressionInput (AsObject InputValue) (Some Found)
                  (DefaultInputType plugin))
      | None => None
      end
  | None => None
  end.

(** The statement is the one that calls the recovery hook. *)
Definition CallsHook (s : Stmt) : bool :=
  match s with
  | LoadOrRecover _ _ _ => true
  | _ => false
  end.

(** Between [fx] and [fx'] the recovery hook has not been called: nothing
    was recovered and the log has no call of [HandleReference] that it did
    not have. *)
Definition NoNewHook (fx fx' : Effects) : Prop :=
  Recovered fx' = Recovered fx
  /\ forall ObjectPath, EvHandleReference ObjectPath ∈ Log fx' ->
                        EvHandleReference ObjectPath ∈ Log fx.

(** * More of the translation unit *)

(** ** The members a statement assigns *)

(** The members of the expression a statement may assign; no statement
    assigns another one. *)
Definition Writes (s : Stmt) : list string :=
  match s with
  | AssignInput field _ | AssignInputIfFound field _ | TryNumber field _
  | TryBool field _ | TryString field _ | AssignGuid field _
  | TryEnum _ field _ | TryEnumAndNotify _ field _ | TryDecoded field _
  | TryChannelName field _ | LoadPlain field _ | LoadOrNotify field _ _
  | LoadOrRecover field _ _ | LoadAndRefresh field _ | InputsByIndex _ field _
  | InputsResized field _ | AssignInputEither field _ _
  | AssignInputIfFoundEither field _ _ | AssignBool field _
  | TryEnumerator field _ _ | SetStrings field _ | AddStrings field _
  | AddNulls field _ _ | SetStructs field _ _ | AddStructs _ field _ _
  | FunctionInputs field _ | FunctionOutputs field _ | Outputs field _ => [field]
  | SetOwner => ["Function"; "Material"]
  | RecacheWhenMaterial => []
  end.

(** The statement is the loop of a switch over a fixed-size array. *)
Definition IsIndexedLoop (s : Stmt) : bool :=
  match s with
  | InputsByIndex _ _ _ => true
  | _ => false
  end.

(** The statement matches the end of the text against names listed in the
    handler. *)
Definition IsEnumerator (s : Stmt) : bool :=
  match s with
  | TryEnumerator _ _ _ => true
  | _ => false
  end.

(** The three kinds whose handler has that loop, with the size of their
    array. *)
Definition SwitchKinds : list (FName * ArrayBound) :=
  [("MaterialExpressionQualitySwitch", EMaterialQualityLevel_Num);
   ("MaterialExpressionFeatureLevelSwitch", ERHIFeatureLevel_Num);
   ("MaterialExpressionShadingPathSwitch", ERHIShadingPath_Num)].

(** The member that points back to [Parent]. *)
Definition OwnerField (Parent : UParent) : option string :=
  match Kind Parent with
  | IsMaterial => Some "Material"
  | IsMaterialFunction => Some "Function"
  | IsOtherObject => None
  end.

(** The expression named [Name] points back to [Parent]. *)
Definition Owned {P : Type} (Parent : UParent) (w : World P) (Name : FName) : Prop :=
  match OwnerField Parent with
  | Some field =>
      exists e, Objects w !! Name = Some e
                /\ Fields e !! field = Some (VOwner (ParentName Parent))
  | None => True
  end.

(** ** The comments of the graph *)

(** What [MaterialGraphNode_ConstructComments] assigns on a comment before
    it hands it to the wrapper. *)
Definition CommentStatements : list Stmt :=
  [TryNumber "SizeX" "SizeX"; TryNumber "SizeY" "SizeY"; TryString "Text" "Text";
   TryDecoded "CommentColor" "CommentColor"; TryNumber "FontSize" "FontSize"].

Section Comments.
Context {P : Type}.
Variable plugin : Plugin.
Variable eng : Engine.
(** [UMaterialExpressionComment::StaticClass()] *)
Variable CommentClass : UClass.
(** [NewObject<UMaterialExpressionComment>(Parent, StaticClass(), ExportName,
    RF_Transactional)]: with the static class the engine always answers
    with an object. *)
Variable NewComment : FName -> P.
Variable Parent : UParent.

(** [GetExpressionCollection().AddComment(MatComment)], on a material
    function or else on a material. *)
Definition AddComment (MatComment : P) (EditorComments : list P) : list P :=
  match Kind Parent with
  | IsMaterialFunction | IsMaterial => EditorComments ++ [MatComment]
  | IsOtherObject => EditorComments
  end.

(** The export a comment entry refers to. *)
Definition CommentExportName (ExpressionComment : FJsonValue) : FName :=
  GetExportNameOfSubobject plugin (GetStringField (AsObject ExpressionComment) "ObjectName").

(** The body of the loop of [MaterialGraphNode_ConstructComments] for one
    entry: the world, and the comments of the expression collection. *)
Definition ConstructComments_step (Exports : gmap FName FImportData)
    (ExpressionComment : FJsonValue) (acc : World P * list P)
    : Outcome (World P * list P) :=
  if IsNull ExpressionComment then Done acc
  else
    let ExportName := CommentExportName ExpressionComment in
    match Exports !! ExportName with
    | None => Crash NullDereference
    | Some data =>
        let Comment := GetObjectField (Json data) "Properties" in
        let MatComment := NewComment ExportName in
        bind (exec_all plugin eng Parent Comment (∅ : gmap FName P)
                (CommentStatements
                 ++ MaterialGraphNode_ExpressionWrapper eng (Some CommentClass))
                {| Class := Some CommentClass; Fields := ∅ |} (Fx (fst acc)))
          (fun r =>
             Done ({| Objects := <[ExportName := fst r]> (Objects (fst acc));
                      ExpressionCollection := ExpressionCollection (fst acc);
                      Fx := snd r |},
                   AddComment MatComment (snd acc)))
    end.

Fixpoint ConstructComments_loop (Exports : gmap FName FImportData)
    (StringExpressionComments : list FJsonValue) (acc : World P * list P)
    : Outcome (World P * list P) :=
  match StringExpressionComments with
  | [] => Done acc
  | ExpressionComment :: rest =>
      bind (ConstructComments_step Exports ExpressionComment acc)
        (ConstructComments_loop Exports rest)
  end.

(** [UMaterialGraph_Interface::MaterialGraphNode_ConstructComments] *)
Definition MaterialGraphNode_ConstructComments (Json_ : FJsonObject)
    (Exports : gmap FName FImportData) (acc : World P * list P)
    : Outcome (World P * list P) :=
  match TryGetArrayField Json_ "EditorComments" with
  | Some StringExpressionComments =>
      ConstructComments_loop Exports StringExpressionComments acc
  | None => Done acc
  end.

End Comments.

(** The entries of [EditorComments] that are comments, in order. *)
Definition CommentEntries (Json_ : FJsonObject) : list FJsonValue :=
  filter (fun V => IsNull V = false) (GetArrayField Json_ "EditorComments").

(** * Asset utilities (Private/Utilities/AssetUtilities.cpp) *)

(** ** The operations of [FString] the file uses *)

(** [ESearchCase::Type].  Every search of the file is made with
    [IgnoreCase]: the calls of [Split] name it, the calls of [StartsWith]
    and [Replace] leave it to the default of their declaration, which is
    [IgnoreCase] as well. *)
Inductive ESearchCase : Type := CaseSensitive | IgnoreCase.

(** [FChar::ToLower] on the letters A to Z; the letters of other alphabets
    are not modelled. *)
Definition ToLower (c : ascii) : ascii :=
  let n := nat_of_ascii c in
  if (65 <=? n)%nat && (n <=? 90)%nat then ascii_of_nat (n + 32) else c.

(** Two characters are the same for a search. *)
Definition SameChar (SearchCase : ESearchCase) (a b : ascii) : bool :=
  match SearchCase with
  | CaseSensitive => Ascii.eqb a b
  | IgnoreCase => Ascii.eqb (ToLower a) (ToLower b)
  end.

(** The text [s] begins with the text [sub]. *)
Fixpoint BeginsWith (SearchCase : ESearchCase) (sub s : string) : bool :=
  match sub with
  | EmptyString => true
  | String a sub' =>
      match s with
      | EmptyString => false
      | String b s' => SameChar SearchCase a b && BeginsWith SearchCase sub' s'
      end
  end.

(** [FString::StartsWith(InPrefix)]: false for an empty prefix. *)
Definition StartsWith (s prefix : string) : bool :=
  negb (String.eqb prefix "") && BeginsWith IgnoreCase prefix s.

(** [FString::Mid(n)]: the text from position [n] on. *)
Fixpoint Mid (n : nat) (s : string) : string :=
  match n, s with
  | O, _ => s
  | S k, String _ rest => Mid k rest
  | S _, EmptyString => EmptyString
  end.

(** The text left and right of the first occurrence of [sub]. *)
Fixpoint SplitFromStart (SearchCase : ESearchCase) (sub s : string)
    : option (string * string) :=
  if BeginsWith SearchCase sub s then Some (EmptyString, Mid (String.length sub) s)
  else
    match s with
    | EmptyString => None
    | String c rest =>
        (fun lr => (String c (fst lr), snd lr)) <$> SplitFromStart SearchCase sub rest
    end.

(** The text left and right of the last occurrence of [sub]. *)
Fixpoint SplitFromEnd (SearchCase : ESearchCase) (sub s : string)
    : option (string * string) :=
  match s with
  | EmptyString =>
      if BeginsWith SearchCase sub s then Some (EmptyString, EmptyString) else None
  | String c rest =>
      match SplitFromEnd SearchCase sub rest with
      | Some lr => Some (String c (fst lr), snd lr)
      | None =>
          if BeginsWith SearchCase sub s
          then Some (EmptyString, Mid (String.length sub) s)
          else None
      end
  end.

Inductive ESearchDir : Type := FromStart | FromEnd.

(** [FString::Split(InS, &Left, &Right, SearchCase, SearchDir)]: nothing
    when [InS] is empty or does not occur; the out-parameters then keep
    their values. *)
Definition Split (s InS : string) (SearchCase : ESearchCase) (SearchDir : ESearchDir)
    : option (string * string) :=
  if String.eqb InS "" then None
  else
    match SearchDir with
    | FromStart => SplitFromStart SearchCase InS s
    | FromEnd => SplitFromEnd SearchCase InS s
    end.

(** [FString::Replace(From, To)]: every occurrence of [From] found from
    left to right, the search resuming after the text replaced; [skip] is
    the number of characters of a found occurrence still to pass over. *)
Fixpoint Replace_from (From To : string) (skip : nat) (s : string) : string :=
  match s with
  | EmptyString => EmptyString
  | String c rest =>
      match skip with
      | S k => Replace_from From To k rest
      | O =>
          if BeginsWith IgnoreCase From s
          then To +:+ Replace_from From To (String.length From - 1) rest
          else String c (Replace_from From To 0 rest)
      end
  end.

Definition Replace (s From To : string) : string :=
  if String.eqb From "" then s else Replace_from From To 0 s.

(** ** [FAssetUtilities::CreateAssetPackage] *)

(** The path of the package, and the plugin reported missing if one was. *)
Record PackagePath : Type := {
  PathWithGame : string;
  PluginMissing : option string
}.

Section CreateAssetPackage.
(** [GetDefault<UJsonAsAssetSettings>()->ExportDirectory.Path] *)
Variable ExportDirectory : string.
(** [IPluginManager::Get().FindPlugin(PluginName) != nullptr] *)
Variable FindPlugin : string -> bool.

(** The path [CreateAssetPackage(Name, OutputPath, OutOutermostPkg)] hands
    to [CreatePackage], with the notification "Plugin Missing: ..." it
    raises on the way. *)
Definition CreateAssetPackage_path (Name OutputPath : string) : PackagePath :=
  if negb (StartsWith OutputPath "/Game/") && negb (StartsWith OutputPath "/Plugins/") then
    let ModifiablePath := "" in
    let ModifiablePath :=
      match Split OutputPath (ExportDirectory +:+ "/") IgnoreCase FromStart with
      | Some lr => snd lr
      | None => ModifiablePath
      end in
    let ModifiablePath :=
      match Split ModifiablePath "/" IgnoreCase FromStart with
      | Some lr => snd lr
      | None => ModifiablePath
      end in
    let ModifiablePath :=
      match Split ModifiablePath "/" IgnoreCase FromEnd with
      | Some lr => fst lr
      | None => ModifiablePath
      end in
    let bIsPlugin := StartsWith ModifiablePath "Plugins" in
    let ModifiablePath :=
      if bIsPlugin
      then Replace (Replace (Replace ModifiablePath "Plugins/" "") "GameFeatures/" "")
             "Content/" ""
      else Replace ModifiablePath "Content" "Game" in
    let ModifiablePath := "/" +:+ ModifiablePath +:+ "/" in
    if bIsPlugin then
      let PluginName := "" in
      let PluginName :=
        match Split ModifiablePath "/" IgnoreCase FromStart with
        | Some lr => snd lr
        | None => PluginName
        end in
      let PluginName :=
        match Split PluginName "/" IgnoreCase FromStart with
        | Some lr => fst lr
        | None => PluginName
        end in
      if FindPlugin PluginName
      then {| PathWithGame := ModifiablePath +:+ Name; PluginMissing := None |}
      else {| PathWithGame := "/Game/" +:+ Name; PluginMissing := Some PluginName |}
    else {| PathWithGame := ModifiablePath +:+ Name; PluginMissing := None |}
  else
    let ModifiablePath := OutputPath in
    let ModifiablePath :=
      match Split ModifiablePath "/" IgnoreCase FromEnd with
      | Some lr => fst lr
      | None => ModifiablePath
      end in
    let ModifiablePath := ModifiablePath +:+ "/" in
    {| PathWithGame := ModifiablePath +:+ Name; PluginMissing := None |}.

End CreateAssetPackage.

(** ** [Construct_TypeTexture], [API_RequestExports] and [ConstructAsset] *)

(** A C++ pointer variable: declared and never assigned, null, or the
    address of an object. *)
Inductive Pointer (A : Type) : Type :=
| Indeterminate
| Nullptr
| Pointing (a : A).
Arguments Indeterminate {A}.
Arguments Nullptr {A}.
Arguments Pointing {A} _.

(** [TArray::IsEmpty] *)
Definition IsEmpty {A : Type} (l : list A) : bool :=
  match l with [] => true | _ :: _ => false end.

Definition of_option {A : Type} (o : option A) : Pointer A :=
  match o with Some a => Pointing a | None => Nullptr end.

(** What [IHttpResponse] gives: [GetContent] and [GetContentAsString]. *)
Record HttpResponse : Type := {
  GetContent : list Z;
  GetContentAsString : string
}.

(** What the functions do to the editor, in the order they do it. *)
Inductive AssetEvent (UTexture : Type) : Type :=
| Requested (URL : string)
| PackageCreated (PackagePath : string)
| AssetCreated (Texture : UTexture)
| SetDirtyFlag (PackagePath : string)
| PostEditChange (Texture : UTexture)
| AddToRoot (Texture : UTexture)
| ExportsHandled (Response : list FJsonValue) (PackagePath : string).
Arguments Requested {UTexture} _.
Arguments PackageCreated {UTexture} _.
Arguments AssetCreated {UTexture} _.
Arguments SetDirtyFlag {UTexture} _.
Arguments PostEditChange {UTexture} _.
Arguments AddToRoot {UTexture} _.
Arguments ExportsHandled {UTexture} _ _.

(** [UTextureImporters]: each import leaves in its out-parameter [Texture],
    null before the call, the texture it made, or leaves it null. *)
Record UTextureImporters (UTexture : Type) : Type := {
  ImportTexture2D : list Z -> FJsonObject -> option UTexture;
  ImportTextureCube : list Z -> FJsonObject -> option UTexture;
  ImportRenderTarget2D : FJsonObject -> option UTexture
}.
Arguments ImportTexture2D {UTexture} _ _ _.
Arguments ImportTextureCube {UTexture} _ _ _.
Arguments ImportRenderTarget2D {UTexture} _ _.

(** [Path.Split(".", &PackagePath, &AssetName)]: both stay empty when the
    path has no dot. *)
Definition SplitPath (Path : string) : string * string :=
  default ("", "") (Split Path "." IgnoreCase FromStart).

Section ConstructAsset.
Variables UTexture T : Type.
(** [FRemoteUtilities::ExecuteRequestSync], by the URL of the request;
    [None] is the response that is not valid. *)
Variable ExecuteRequestSync : string -> option HttpResponse.
(** [FJsonSerializer::Deserialize] into an array of values. *)
Variable Deserialize : string -> option (list FJsonValue).
(** [new UTextureImporters(AssetName, Path, JsonObject, Package, OutermostPkg)],
    the package given by its path. *)
Variable NewTextureImporters : string -> string -> FJsonObject -> string -> UTextureImporters UTexture.
(** [Texture->MarkPackageDirty()] *)
Variable MarkPackageDirty : UTexture -> bool.
(** [Cast<T>(Texture)] on a texture. *)
Variable Cast : UTexture -> option T.
(** [IImporter::HandleExports(Response, PackagePath, true)] *)
Variable HandleExports : list FJsonValue -> string -> bool.
(** [StaticLoadObject(T::StaticClass(), nullptr, *Path)], cast to [T]. *)
Variable StaticLoadObject : string -> option T.

Definition export_url (Path : string) : string :=
  "http://localhost:1500/api/v1/export?path=" +:+ Path.

Definition raw_export_url (Path : string) : string :=
  "http://localhost:1500/api/v1/export?raw=true&path=" +:+ Path.

(** [Construct_TypeTexture(Path, OutTexture)]: what was done, and the value
    returned with the value [OutTexture] holds afterwards.  [JsonArray[0]]
    is [TArray::operator[]], whose range check stops the program for an
    index past the end. *)
Definition Construct_TypeTexture (Path : string) (OutTexture : Pointer UTexture)
  : list (AssetEvent UTexture) * Outcome (bool * Pointer UTexture) :=
  let log := [Requested (export_url Path)] in
  match ExecuteRequestSync (export_url Path) with
  | None => (log, Done (false, OutTexture))
  | Some HttpResponse_ =>
      let Data := GetContent HttpResponse_ in
      let PackagePath := fst (SplitPath Path) in
      let AssetName := snd (SplitPath Path) in
      let log := log ++ [Requested (raw_export_url Path)] in
      match ExecuteRequestSync (raw_export_url Path) with
      | None => (log, Done (false, OutTexture))
      | Some NewResponse =>
          match Deserialize (GetContentAsString NewResponse) with
          | Some JsonArray =>
              let log := log ++ [PackageCreated PackagePath] in
              (* JsonArray[0] *)
              match JsonArray !! 0%nat with
              | None => (log, Crash OutOfBounds)
              | Some First =>
                  let Importer :=
                    NewTextureImporters AssetName Path (AsObject First) PackagePath in
                  if IsEmpty JsonArray then (log, Done (false, OutTexture))
                  else
                    let FinalJsonObject := AsObject First in
                    let Texture := None in
                    let Texture :=
                      if String.eqb (GetStringField FinalJsonObject "Type") "Texture2D"
                      then ImportTexture2D Importer Data
                             (GetObjectField FinalJsonObject "Properties")
                      else Texture in
                    let Texture :=
                      if String.eqb (GetStringField FinalJsonObject "Type") "TextureCube"
                      then ImportTextureCube Importer Data FinalJsonObject
                      else Texture in
                    let Texture :=
                      if String.eqb (GetStringField FinalJsonObject "Type")
                           "TextureRenderTarget2D"
                      then ImportRenderTarget2D Importer
                             (GetObjectField FinalJsonObject "Properties")
                      else Texture in
                    match Texture with
                    | None => (log, Done (false, OutTexture))
                    | Some Texture =>
                        let log := log ++ [AssetCreated Texture] in
                        if negb (MarkPackageDirty Texture)
                        then (log, Done (false, OutTexture))
                        else
                          (log ++ [SetDirtyFlag PackagePath; PostEditChange Texture;
                                   AddToRoot Texture],
                           Done (true, Pointing Texture))
                    end
              end
          | None => (log, Done (true, OutTexture))
          end
      end
  end.

(** [API_RequestExports(Path)] *)
Definition API_RequestExports (Path : string) : list FJsonValue :=
  match ExecuteRequestSync (raw_export_url Path) with
  | None => []
  | Some NewResponse =>
      match Deserialize (GetContentAsString NewResponse) with
      | Some JsonArray => JsonArray
      | None => []
      end
  end.

(** The types [ConstructAsset] accepts, as its condition lists them. *)
Definition SupportedTypes : list string :=
  ["Texture2D"; "TextureCube"; "TextureRenderTarget2D"; "MaterialParameterCollection";
   "CurveFloat"; "CurveVector"; "CurveLinearColorAtlas"; "CurveLinearColor";
   "PhysicalMaterial"; "SubsurfaceProfile"; "LandscapeGrassType";
   "MaterialInstanceConstant"; "ReverbEffect"; "SoundAttenuation"; "SoundConcurrency";
   "DataTable"; "SubsurfaceProfile"; "MaterialFunction"].

Definition TextureTypes : list string :=
  ["Texture2D"; "TextureRenderTarget2D"; "TextureCube"].

(** [Cast<T>] on the value of a pointer variable; of a variable never
    assigned nothing is known. *)
Definition CastPointer (Texture : Pointer UTexture) : Pointer T :=
  match Texture with
  | Indeterminate => Indeterminate
  | Nullptr => Nullptr
  | Pointing t => of_option (Cast t)
  end.

(** [ConstructAsset<T>(Path, Type, OutObject, bSuccess)]: what was done,
    and the value returned with the values [OutObject] and [bSuccess] hold
    afterwards.  The object of [Response[0]] is always there, see
    [AsObject], so the test on it is not a branch. *)
Definition ConstructAsset (Path Type_ : string) (OutObject : Pointer T) (bSuccess : bool)
  : list (AssetEvent UTexture) * Outcome (bool * Pointer T * bool) :=
  if existsb (String.eqb Type_) SupportedTypes then
    if existsb (String.eqb Type_) TextureTypes then
      (* UTexture* Texture; *)
      let Texture := Indeterminate in
      match Construct_TypeTexture Path Texture with
      | (log, Crash f) => (log, Crash f)
      | (log, Done (bSuccess, Texture)) =>
          let OutObject := if bSuccess then CastPointer Texture else OutObject in
          (log, Done (true, OutObject, bSuccess))
      end
    else
      let Response := API_RequestExports Path in
      let log := [Requested (raw_export_url Path)] in
      if IsEmpty Response then (log, Done (true, OutObject, bSuccess))
      else
        let PackagePath := fst (SplitPath Path) in
        let log := log ++ [PackageCreated PackagePath] in
        let bSuccess := HandleExports Response PackagePath in
        let log := log ++ [ExportsHandled Response PackagePath] in
        let OutObject := of_option (StaticLoadObject Path) in
        (log, Done (true, OutObject, bSuccess))
  else ([], Done (false, OutObject, bSuccess)).

End ConstructAsset.
(** ** A concrete plugin, engine and parent, for the examples *)

Module Sample.

Fixpoint after_char (c : ascii) (s : string) : option string :=
  match s with
  | EmptyString => None
  | String a rest => if Ascii.eqb a c then Some rest else after_char c rest
  end.

Fixpoint remove_char (c : ascii) (s : string) : string :=
  match s with
  | EmptyString => EmptyString
  | String a rest =>
      if Ascii.eqb a c then remove_char c rest else String a (remove_char c rest)
  end.

(** An export name out of a package index such as
    [MaterialExpressionConstant'M_Test:N2']: the text after the first
    apostrophe and the first colon, apostrophes removed. *)
Definition SubobjectName (PackageIndex : string) : FName :=
  let Name := default "" (after_char "'"%char PackageIndex) in
  let Name := default Name (after_char ":"%char Name) in
  remove_char "'"%char Name.

Definition plugin : Plugin :=
  {| ExpressionKey := "Expression";
     DefaultInputType := "Default";
     GetExportNameOfSubobject := SubobjectName;
     IgnoredExpressions := ["MaterialExpressionComposite"; "MaterialExpressionPinBase"];
     Expressions :=
       ["MaterialExpressionAdd"; "MaterialExpressionConstant";
        "MaterialExpressionQualitySwitch"; "MaterialExpressionTextureSample";
        "MaterialExpressionMaterialFunctionCall"; "MaterialExpressionCollectionParameter";
        "MaterialExpressionRuntimeVirtualTextureSample"; "MaterialExpressionLength"] |}.

Definition ancestors (c : UClass) : list string :=
  if String.eqb c "/Script/Engine.MaterialExpressionTextureSample" then
    ["MaterialExpressionTextureSample"; "MaterialExpressionTextureBase"]
  else if String.eqb c "/Script/Engine.MaterialExpressionTextureSampleParameterSubUV" then
    ["MaterialExpressionTextureSampleParameter"; "MaterialExpressionTextureSample";
     "MaterialExpressionTextureBase"]
  else if String.eqb c "/Script/Engine.MaterialExpressionCollectionParameter" then []
  else [].

(** An engine that has the classes of [classes], in which an asset loads
    once its path has been recovered, and which can recover one function. *)
Definition engine_with (classes : list string) : Engine :=
  {| FindObject_UClass := fun path => if bool_decide (path ∈ classes) then Some path else None;
     IsChildOf := fun c T => bool_decide (T ∈ ancestors c);
     LoadObject := fun recovered descriptor =>
       if bool_decide (ShortObjectPath descriptor ∈ recovered)
       then Some (GetStringField descriptor "ObjectPath") else None;
     HandleReference := fun ObjectPath => String.eqb ObjectPath "/Game/Functions/MF_Blend";
     EnumTable := fun E =>
       if String.eqb E "ETextureMipValueMode" then
         [("TMVM_None", 0); ("TMVM_MipLevel", 1); ("TMVM_MipBias", 2); ("TMVM_Derivative", 3)]
       else if String.eqb E "ERuntimeVirtualTextureMipValueMode" then
         [("RVTMVM_None", 0); ("RVTMVM_MipLevel", 1); ("RVTMVM_MipBias", 2)]
       else [];
     QualityLevelNum := 4;
     FeatureLevelNum := 5;
     ShadingPathNum := 3 |}.

Definition engine : Engine :=
  engine_with
    ["/Script/Engine.MaterialExpressionAdd"; "/Script/Engine.MaterialExpressionConstant";
     "/Script/Engine.MaterialExpressionQualitySwitch";
     "/Script/Engine.MaterialExpressionTextureSample";
     "/Script/Engine.MaterialExpressionMaterialFunctionCall";
     "/Script/Engine.MaterialExpressionCollectionParameter";
     "/Script/Engine.MaterialExpressionRuntimeVirtualTextureSample";
     "/Script/Engine.MaterialExpressionSobol";
     "/Script/Engine.Add"; "/Script/Engine.Constant"].

(** Expression pointers of a graph whose objects start at [base]: the
    object of a name lives at the address paired with it. *)
Definition NewObject_at (base : nat) (Class_ : option UClass) (Name : FName)
    : option (nat * FName) :=
  match Class_ with
  | Some _ => Some (base, Name)
  | None => None
  end.

Definition material : UParent := {| ParentName := "M_Test"; Kind := IsMaterial |}.

Definition export (Name Type_ : string) (Properties : FJsonObject) : FJsonValue :=
  JObject [("Type", JString Type_); ("Name", JString Name);
           ("Properties", JObject Properties)].

(** Scenario A as the specification writes it. *)
Definition scenario_A_literal : list FJsonValue :=
  [export "N1" "Add"
     [("A", JObject [("ObjectName", JString "N2")]); ("B", JObject []);
      ("ConstA", JNumber 0); ("ConstB", JNumber 5)];
   export "N2" "Constant" [("R", JNumber 3)]].

(** Scenario A with the kind tags the dispatch compares with and the
    reference in the flat [ExpressionName] encoding. *)
Definition scenario_A : list FJsonValue :=
  [export "N1" "MaterialExpressionAdd"
     [("A", JObject [("ExpressionName", JString "N2")]); ("B", JObject []);
      ("ConstA", JNumber 0); ("ConstB", JNumber 5)];
   export "N2" "MaterialExpressionConstant" [("R", JNumber 3)]].

(** An input that refers to an expression [N9], with the literal fields of
    a constant beside the reference and in the bag around it. *)
Definition bag_with_literals (use : bool) (value : Z) : FJsonObject :=
  [("A", JObject [("Expression",
                   JObject [("ObjectName", JString "MaterialExpressionConstant'M_Test:N9'")]);
                  ("UseConstant", JBool use); ("Constant", JNumber value)]);
   ("UseConstant", JBool use); ("Constant", JNumber value)].

(** A texture sample whose mip value mode currently is [TMVM_None]. *)
Definition texture_sample : UMaterialExpression (nat * FName) :=
  {| Class := Some "/Script/Engine.MaterialExpressionTextureSample";
     Fields := {["MipValueMode" := VEnum 0]} |}.

Definition no_effects : Effects := {| Recovered := []; Log := [] |}.

Definition fresh (Class_ : string) : UMaterialExpression (nat * FName) :=
  {| Class := Some Class_; Fields := ∅ |}.

End Sample.
(** * Facts about the embedding *)

(** Case analysis on everything the run [H] of a statement branches on. *)
Ltac split_run H :=
  repeat match type of H with
         | match ?x with _ => _ end = _ => destruct x eqn:?
         | (if ?x then _ else _) = _ => destruct x eqn:?
         end.

(** Membership in a list that is written out. *)
Ltac in_list := repeat ((by left) || right).

Create HintDb wiring.

(** ** The wiring engine *)

Section WiringFacts.
Context {P : Type}.
Variable plugin : Plugin.

Lemma PopulateExpressionInput_Expression (JsonProperties : FJsonObject)
    (Target : option P) (T : string) :
  Expression (PopulateExpressionInput JsonProperties Target T) = Target.
Proof.
  unfold PopulateExpressionInput, PopulateExpressionInput_cast.
  repeat case_match; reflexivity.
Qed.

(** The base part does not depend on the variant. *)
Lemma PopulateExpressionInput_variant (JsonProperties : FJsonObject)
    (Target : option P) (T : string) :
  PopulateExpressionInput JsonProperties Target T = PopulateInputBase JsonProperties Target.
Proof.
  unfold PopulateExpressionInput, PopulateExpressionInput_cast.
  repeat case_match; reflexivity.
Qed.

Lemma CreateExpressionInput_found (JsonProperties Object_ : FJsonObject)
    (M : gmap FName P) (PropertyName : string) (p : P) :
  TryGetObjectField JsonProperties PropertyName = Some Object_ ->
  M !! GetExpressionName plugin Object_ (ExpressionKey plugin) = Some p ->
  CreateExpressionInput plugin JsonProperties M PropertyName
  = PopulateExpressionInput Object_ (Some p) (DefaultInputType plugin).
Proof. intros Hobj Hfound. unfold CreateExpressionInput. by rewrite Hobj, Hfound. Qed.

Lemma CreateExpressionInput_unresolved (JsonProperties Object_ : FJsonObject)
    (M : gmap FName P) (PropertyName : string) :
  TryGetObjectField JsonProperties PropertyName = Some Object_ ->
  M !! GetExpressionName plugin Object_ (ExpressionKey plugin) = None ->
  CreateExpressionInput plugin JsonProperties M PropertyName = FExpressionInput_default.
Proof. intros Hobj Hnone. unfold CreateExpressionInput. by rewrite Hobj, Hnone. Qed.

Lemma CreateExpressionInput_no_object (JsonProperties : FJsonObject)
    (M : gmap FName P) (PropertyName : string) :
  TryGetObjectField JsonProperties PropertyName = None ->
  CreateExpressionInput plugin JsonProperties M PropertyName = FExpressionInput_default.
Proof. intros Hobj. unfold CreateExpressionInput. by rewrite Hobj. Qed.

Lemma TargetCreated_default (M : gmap FName P) :
  TargetCreated M FExpressionInput_default.
Proof. intros p Hp. discriminate Hp. Qed.

Lemma TargetCreated_populate (M : gmap FName P) (Object_ : FJsonObject)
    (Name : FName) (p : P) (T : string) :
  M !! Name = Some p ->
  TargetCreated M (PopulateExpressionInput Object_ (Some p) T).
Proof.
  intros Hfound q Hq. rewrite PopulateExpressionInput_Expression in Hq.
  injection Hq as <-. by exists Name.
Qed.

Lemma TargetCreated_CreateExpressionInput (JsonProperties : FJsonObject)
    (M : gmap FName P) (PropertyName : string) :
  TargetCreated M (CreateExpressionInput plugin JsonProperties M PropertyName).
Proof.
  unfold CreateExpressionInput.
  destruct (TryGetObjectField JsonProperties PropertyName) as [Object_|];
    [|apply TargetCreated_default].
  destruct (M !! _) as [p|] eqn:Hfound; [|apply TargetCreated_default].
  by eapply TargetCreated_populate.
Qed.

Lemma FindExpressionInput_Some (M : gmap FName P) (JsonProperties : FJsonObject)
    (key : string) (i : FExpressionInput P) :
  FindExpressionInput plugin M JsonProperties key = Some i -> TargetCreated M i.
Proof.
  unfold FindExpressionInput.
  destruct (TryGetObjectField JsonProperties key) as [Object_|]; [|done].
  destruct (M !! _) as [p|] eqn:Hfound; [|done].
  intros [= <-]. by eapply TargetCreated_populate.
Qed.

End WiringFacts.

#[export] Hint Resolve TargetCreated_default TargetCreated_CreateExpressionInput : wiring.
#[export] Hint Resolve TargetCreated_populate FindExpressionInput_Some : wiring.

(** ** The loop of the switches over an array of [Num] inputs *)

Section QualitySwitchFacts.
Context {P : Type}.
Variable plugin : Plugin.
Variable M : gmap FName P.
Variable Num : nat.
Variable field : string.

Lemma WriteInputsByIndex_in_bounds (items : list FJsonValue) :
  forall (i : nat) (e : UMaterialExpression P),
  (i + length items <= Num)%nat ->
  exists e', WriteInputsByIndex plugin M Num field items i e = Done e'.
Proof.
  induction items as [|InputValue rest IH]; intros i e Hlen; simpl; [by eexists|].
  simpl in Hlen.
  destruct (M !! _); [|apply IH; lia].
  destruct (decide (i < Num)%nat); [apply IH|]; lia.
Qed.

Lemma WriteInputsByIndex_out_of_bounds (items : list FJsonValue) :
  forall (i j : nat) (e : UMaterialExpression P),
  (Num <= i + j)%nat ->
  is_Some (WrittenAt plugin M items j) ->
  WriteInputsByIndex plugin M Num field items i e = Crash OutOfBounds.
Proof.
  induction items as [|InputValue rest IH]; intros i j e Hij [x Hx].
  - unfold WrittenAt in Hx. by rewrite lookup_nil in Hx.
  - simpl. destruct j as [|j].
    + unfold WrittenAt in Hx. simpl in Hx.
      destruct (M !! _); [|done].
      destruct (decide (i < Num)%nat); [lia|done].
    + assert (is_Some (WrittenAt plugin M rest j)) as Hrest by (by exists x).
      destruct (M !! _).
      * destruct (decide (i < Num)%nat); [|done].
        apply (IH (S i) j); [lia|done].
      * apply (IH (S i) j); [lia|done].
Qed.

Lemma GetInputArray_SetField (e : UMaterialExpression P) (l : list (FExpressionInput P)) :
  GetInputArray Num (SetField field (VInputArray l) e) field = l.
Proof. unfold GetInputArray. simpl. by rewrite lookup_insert_eq. Qed.

Lemma WriteInputsByIndex_content (items : list FJsonValue) :
  forall (i : nat) (e e' : UMaterialExpression P) (k : nat),
  length (GetInputArray Num e field) = Num ->
  WriteInputsByIndex plugin M Num field items i e = Done e' ->
  length (GetInputArray Num e' field) = Num
  /\ GetInputArray Num e' field !! (i + k)%nat
     = match WrittenAt plugin M items k with
       | Some x => Some x
       | None => GetInputArray Num e field !! (i + k)%nat
       end
  /\ (forall j, (j < i)%nat ->
        GetInputArray Num e' field !! j = GetInputArray Num e field !! j).
Proof.
  induction items as [|InputValue rest IH]; intros i e e' k Hlen Hrun; simpl in Hrun.
  - injection Hrun as <-. unfold WrittenAt. by rewrite lookup_nil.
  - destruct (M !! GetExpressionName plugin (AsObject InputValue) (ExpressionKey plugin))
      as [Found|] eqn:Hfound.
    + destruct (decide (i < Num)%nat) as [Hi|]; [|done].
      set (e1 := SetField field (VInputArray _) e) in Hrun.
      assert (length (GetInputArray Num e1 field) = Num) as Hlen1.
      { unfold e1. by rewrite GetInputArray_SetField, length_insert. }
      destruct k as [|k].
      * destruct (IH (S i) e1 e' 0%nat Hlen1 Hrun) as (Hl & _ & Hbefore).
        split; [done|]. split.
        -- rewrite Nat.add_0_r, (Hbefore i) by lia. unfold WrittenAt. simpl.
           rewrite Hfound. unfold e1. rewrite GetInputArray_SetField.
           apply list_lookup_insert_eq. lia.
        -- intros j Hj. rewrite (Hbefore j) by lia. unfold e1.
           rewrite GetInputArray_SetField. apply list_lookup_insert_ne. lia.
      * destruct (IH (S i) e1 e' k Hlen1 Hrun) as (Hl & Hat & Hbefore).
        split; [done|]. split.
        -- replace (i + S k)%nat with (S i + k)%nat by lia. rewrite Hat.
           unfold WrittenAt. simpl. fold (WrittenAt plugin M rest k).
           destruct (WrittenAt plugin M rest k); [done|].
           unfold e1. rewrite GetInputArray_SetField. apply list_lookup_insert_ne. lia.
        -- intros j Hj. rewrite (Hbefore j) by lia. unfold e1.
           rewrite GetInputArray_SetField. apply list_lookup_insert_ne. lia.
    + destruct k as [|k].
      * destruct (IH (S i) e e' 0%nat Hlen Hrun) as (Hl & _ & Hbefore).
        split; [done|]. split.
        -- rewrite Nat.add_0_r, (Hbefore i) by lia. unfold WrittenAt. simpl.
           by rewrite Hfound.
        -- intros j Hj. apply Hbefore. lia.
      * destruct (IH (S i) e e' k Hlen Hrun) as (Hl & Hat & Hbefore).
        split; [done|]. split.
        -- replace (i + S k)%nat with (S i + k)%nat by lia. rewrite Hat.
           unfold WrittenAt. simpl. by fold (WrittenAt plugin M rest k).
        -- intros j Hj. apply Hbefore. lia.
Qed.

End QualitySwitchFacts.

(** ** Statements keep the inputs of an expression inside the map *)

Section WiredFacts.
Context {P : Type}.
Variable plugin : Plugin.
Variable eng : Engine.
Variable Parent : UParent.
Variable Properties : FJsonObject.
Variable M : gmap FName P.

Lemma SetField_wired (field : string) (v : FieldValue P) (e : UMaterialExpression P) :
  ExpressionWired M e ->
  (forall i, i ∈ inputs_of v -> TargetCreated M i) ->
  ExpressionWired M (SetField field v e).
Proof.
  intros He Hv field' v' i Hlook Hi. simpl in Hlook.
  destruct (decide (field = field')) as [->|Hne].
  - rewrite lookup_insert_eq in Hlook. injection Hlook as <-. by apply Hv.
  - rewrite lookup_insert_ne in Hlook by done. by eapply He.
Qed.

Lemma SetFieldIf_plain {A : Type} (field : string) (mk : A -> FieldValue P)
    (found : option A) (e : UMaterialExpression P) :
  ExpressionWired M e ->
  (forall a, inputs_of (mk a) = []) ->
  ExpressionWired M (SetFieldIf field mk found e).
Proof.
  intros He Hmk. destruct found as [a|]; simpl; [|done].
  apply SetField_wired; [done|]. intros i Hi. rewrite Hmk in Hi. by apply elem_of_nil in Hi.
Qed.

Lemma GetInputArray_wired (Num : nat) (e : UMaterialExpression P) (field : string)
    (i : FExpressionInput P) :
  ExpressionWired M e -> i ∈ GetInputArray Num e field -> TargetCreated M i.
Proof.
  intros He. unfold GetInputArray.
  destruct (Fields e !! field) as [v|] eqn:Hlook.
  - destruct v; try (intros [-> _]%elem_of_replicate; apply TargetCreated_default).
    intros Hi. by eapply He.
  - intros [-> _]%elem_of_replicate. apply TargetCreated_default.
Qed.

Lemma WriteInputsByIndex_wired (Num : nat) (field : string) (items : list FJsonValue) :
  forall (i : nat) (e e' : UMaterialExpression P),
  ExpressionWired M e ->
  WriteInputsByIndex plugin M Num field items i e = Done e' ->
  ExpressionWired M e'.
Proof.
  induction items as [|InputValue rest IH]; intros i e e' He Hrun; simpl in Hrun.
  - by injection Hrun as <-.
  - destruct (M !! _) as [p|] eqn:Hfound; [|by eapply IH].
    destruct (decide (i < Num)%nat); [|done].
    eapply IH; [|exact Hrun].
    apply SetField_wired; [done|]. simpl. intros x Hx.
    apply list_elem_of_lookup in Hx as [j Hj].
    destruct (decide (i = j)) as [->|Hne].
    + assert (j < length (GetInputArray Num e field))%nat as Hlt.
      { apply lookup_lt_Some in Hj. by rewrite length_insert in Hj. }
      rewrite list_lookup_insert_eq in Hj by done.
      injection Hj as <-. by eapply TargetCreated_populate.
    + rewrite list_lookup_insert_ne in Hj by done.
      eapply GetInputArray_wired; [done|]. by eapply list_elem_of_lookup_2.
Qed.

Lemma SetNumZeroed_wired (n : nat) (l : list (FExpressionInput P)) (i : FExpressionInput P) :
  (forall x, x ∈ l -> TargetCreated M x) -> i ∈ SetNumZeroed n l -> TargetCreated M i.
Proof.
  intros Hl [Hi|Hi]%elem_of_app.
  - apply Hl. by eapply subseteq_take.
  - apply elem_of_replicate_inv in Hi as ->. apply TargetCreated_default.
Qed.

(** The inputs of a struct are those of its members. *)
Lemma struct_inputs_spec (S_ : Struct P) (i : FExpressionInput P) :
  i ∈ struct_inputs S_ <-> exists k, S_ !! k = Some (MInput i).
Proof.
  unfold struct_inputs. rewrite list_elem_of_bind. split.
  - intros (m & Hi & Hm). apply list_elem_of_fmap in Hm as [[k m'] [-> Hkm]].
    apply elem_of_map_to_list in Hkm.
    destruct m'; simpl in Hi; try (by apply elem_of_nil in Hi).
    apply list_elem_of_singleton in Hi as ->. by exists k.
  - intros [k Hk]. exists (MInput i). split; [by apply list_elem_of_singleton|].
    apply list_elem_of_fmap. exists (k, MInput i). split; [done|].
    by apply elem_of_map_to_list.
Qed.

Lemma StructWired_empty : StructWired M ∅.
Proof. intros i [k Hk]%struct_inputs_spec. by rewrite lookup_empty in Hk. Qed.

Lemma StructWired_insert (field : string) (m : Member P) (S_ : Struct P) :
  StructWired M S_ ->
  (forall i, m = MInput i -> TargetCreated M i) ->
  StructWired M (<[field := m]> S_).
Proof.
  intros HS Hm i [k Hk]%struct_inputs_spec.
  destruct (decide (field = k)) as [->|Hne].
  - rewrite lookup_insert_eq in Hk. injection Hk as ->. by apply Hm.
  - rewrite lookup_insert_ne in Hk by done. apply HS, struct_inputs_spec. by exists k.
Qed.

Lemma exec_member_wired (Object_ : FJsonObject) (m : MemberStmt) (S_ : Struct P) (fx : Effects) :
  StructWired M S_ -> StructWired M (fst (exec_member plugin eng M Object_ m S_ fx)).
Proof.
  intros HS.
  destruct m; simpl;
    repeat match goal with
           | |- context [match ?x with _ => _ end] => destruct x eqn:?
           end;
    simpl; try done;
    apply StructWired_insert; try done; try discriminate.
  intros i [= <-]. eauto with wiring.
Qed.

Lemma exec_members_wired (Object_ : FJsonObject) (members : list MemberStmt) :
  forall (S_ : Struct P) (fx : Effects),
  StructWired M S_ -> StructWired M (fst (exec_members plugin eng M Object_ members S_ fx)).
Proof.
  induction members as [|m rest IH]; intros S_ fx HS; simpl; [done|].
  by apply IH, exec_member_wired.
Qed.

Lemma MakeStructs_wired (skipNull : bool) (members : list MemberStmt)
    (items : list FJsonValue) :
  forall (fx : Effects) (i : FExpressionInput P),
  i ∈ fst (MakeStructs plugin eng M skipNull members items fx) ≫= struct_inputs ->
  TargetCreated M i.
Proof.
  induction items as [|V rest IH]; intros fx i Hi; simpl in Hi.
  - by apply elem_of_nil in Hi.
  - destruct (skipNull && IsNull V); [by eapply IH|].
    simpl in Hi. apply elem_of_app in Hi as [Hi|Hi]; [|by eapply IH].
    revert Hi. apply (exec_members_wired _ _ ∅), StructWired_empty.
Qed.

Lemma AddedStructs_wired (e : UMaterialExpression P) (field : string)
    (new : list (Struct P)) (i : FExpressionInput P) :
  ExpressionWired M e ->
  (forall x, x ∈ new ≫= struct_inputs -> TargetCreated M x) ->
  i ∈ inputs_of (AddedStructs (Fields e !! field) new) -> TargetCreated M i.
Proof.
  intros He Hnew. unfold AddedStructs.
  destruct (Fields e !! field) as [v|] eqn:Hlook; [|by apply Hnew].
  destruct v; simpl; try (by apply Hnew);
    rewrite bind_app; intros [Hi|Hi]%elem_of_app;
    try (by apply Hnew); by eapply He.
Qed.

Lemma exec_wired (s : Stmt) (e e' : UMaterialExpression P) (fx fx' : Effects) :
  ExpressionWired M e ->
  exec plugin eng Parent Properties M s e fx = Done (e', fx') ->
  ExpressionWired M e'.
Proof.
  intros He Hrun.
  destruct s; simpl in Hrun;
    split_run Hrun;
    try discriminate; try (injection Hrun as <- <-);
    try done;
    try (apply SetFieldIf_plain; [done|done]);
    try (apply SetField_wired; [done|by intros i Hi%elem_of_nil]).
  - (* AssignInput *)
    apply SetField_wired; [done|]. intros i ->%list_elem_of_singleton.
    auto with wiring.
  - (* AssignInputIfFound *)
    destruct (FindExpressionInput plugin M Properties key) as [i|] eqn:Hfind; simpl; [|done].
    apply SetField_wired; [done|]. intros ? ->%list_elem_of_singleton.
    eauto with wiring.
  - (* InputsByIndex *)
    unfold bind in Hrun.
    destruct (WriteInputsByIndex plugin M _ field l 0 e) as [e1|] eqn:Hloop; [|done].
    injection Hrun as <- <-. by eapply WriteInputsByIndex_wired.
  - (* InputsResized *)
    unfold bind in Hrun.
    destruct (WriteInputsByIndex plugin M _ field l 0 _) as [e1|] eqn:Hloop; [|done].
    injection Hrun as <- <-. eapply WriteInputsByIndex_wired; [|exact Hloop].
    apply SetField_wired; [done|]. simpl. intros i.
    apply SetNumZeroed_wired. intros x. by apply GetInputArray_wired.
  - (* AssignInputEither, the first key *)
    apply SetField_wired; [done|]. intros i ->%list_elem_of_singleton.
    auto with wiring.
  - (* AssignInputEither, the second key *)
    apply SetField_wired; [done|]. intros i ->%list_elem_of_singleton.
    auto with wiring.
  - (* AssignInputIfFoundEither *)
    unfold FindExpressionInputEither.
    destruct (TryGetObjectField Properties key);
      (destruct (FindExpressionInput plugin M Properties _) as [i|] eqn:Hfind; simpl; [|done]);
      (apply SetField_wired; [done|]; intros ? ->%list_elem_of_singleton);
      eauto with wiring.
  - (* AddStrings *)
    apply SetField_wired; [done|]. unfold AddedStrings.
    intros i Hi. repeat case_match; by apply elem_of_nil in Hi.
  - (* AddNulls *)
    apply SetField_wired; [done|]. unfold AddedNulls.
    intros i Hi. repeat case_match; by apply elem_of_nil in Hi.
  - (* SetStructs *)
    apply SetField_wired; [done|]. simpl. apply MakeStructs_wired.
  - (* AddStructs *)
    apply SetField_wired; [done|]. intros i.
    apply AddedStructs_wired; [done|]. apply MakeStructs_wired.
  - (* FunctionInputs *)
    destruct (TryGetArrayField Properties key) as [items|]; simpl; [|done].
    apply SetField_wired; [done|]. simpl. intros i Hi.
    apply list_elem_of_fmap in Hi as [fi [-> Hfi]].
    apply list_elem_of_fmap in Hfi as [V [-> _]]. simpl.
    destruct (FindExpressionInput plugin M (AsObject V) "Input") as [i|] eqn:Hfind; simpl.
    + eauto with wiring.
    + auto with wiring.
Qed.

Lemma exec_all_wired (body : list Stmt) :
  forall (e e' : UMaterialExpression P) (fx fx' : Effects),
  ExpressionWired M e ->
  exec_all plugin eng Parent Properties M body e fx = Done (e', fx') ->
  ExpressionWired M e'.
Proof.
  induction body as [|s rest IH]; intros e e' fx fx' He Hrun; simpl in Hrun.
  - by injection Hrun as <- <-.
  - destruct (exec plugin eng Parent Properties M s e fx) as [[e1 fx1]|] eqn:Hs; [|done].
    simpl in Hrun. eapply IH; [|exact Hrun]. by eapply exec_wired.
Qed.

End WiredFacts.

(** ** Faults: only a switch over a fixed-size array can leave its array *)

Section FaultFacts.
Context {P : Type}.
Variable plugin : Plugin.
Variable eng : Engine.
Variable Parent : UParent.

Lemma WriteInputsByIndex_fault (M : gmap FName P) (Num : nat) (field : string)
    (items : list FJsonValue) :
  forall (i : nat) (e : UMaterialExpression P) (f : Fault),
  WriteInputsByIndex plugin M Num field items i e = Crash f -> f = OutOfBounds.
Proof.
  induction items as [|InputValue rest IH]; intros i e f Hrun; simpl in Hrun; [done|].
  destruct (M !! _); [|by eapply IH].
  destruct (decide (i < Num)%nat); [by eapply IH|].
  by injection Hrun as <-.
Qed.

Lemma exec_fault (Properties : FJsonObject) (M : gmap FName P) (s : Stmt)
    (e : UMaterialExpression P) (fx : Effects) (f : Fault) :
  exec plugin eng Parent Properties M s e fx = Crash f ->
  f = OutOfBounds /\ exists bound field key, s = InputsByIndex bound field key.
Proof.
  intros Hrun.
  destruct s; simpl in Hrun;
    split_run Hrun;
    try discriminate.
  - (* InputsByIndex *)
    unfold bind in Hrun.
    destruct (WriteInputsByIndex plugin M _ field l 0 e) eqn:Hloop; [done|].
    injection Hrun as <-. split; [by eapply WriteInputsByIndex_fault|by eexists _, _, _].
  - (* InputsResized: the array has been given the size of the loop *)
    exfalso. unfold bind in Hrun.
    match type of Hrun with
    | context [WriteInputsByIndex plugin M ?n field l 0 ?e0] =>
        destruct (WriteInputsByIndex_in_bounds plugin M n field l 0 e0) as [e1 He1];
          [simpl; lia|rewrite He1 in Hrun]
    end.
    done.
Qed.

Lemma exec_all_fault (Properties : FJsonObject) (M : gmap FName P) (body : list Stmt) :
  forall (e : UMaterialExpression P) (fx : Effects) (f : Fault),
  exec_all plugin eng Parent Properties M body e fx = Crash f -> f = OutOfBounds.
Proof.
  induction body as [|s rest IH]; intros e fx f Hrun; simpl in Hrun; [done|].
  destruct (exec plugin eng Parent Properties M s e fx) as [[e1 fx1]|f1] eqn:Hs; simpl in Hrun.
  - by eapply IH.
  - injection Hrun as <-. by eapply exec_fault.
Qed.

(** A body without the loop over a fixed-size array runs to its end. *)
Lemma exec_all_total (Properties : FJsonObject) (M : gmap FName P) (body : list Stmt) :
  (forall bound field key, InputsByIndex bound field key ∉ body) ->
  forall (e : UMaterialExpression P) (fx : Effects),
  exists r, exec_all plugin eng Parent Properties M body e fx = Done r.
Proof.
  induction body as [|s rest IH]; intros Hbody e fx; simpl; [by eexists|].
  destruct (exec plugin eng Parent Properties M s e fx) as [[e1 fx1]|f1] eqn:Hs; simpl.
  - apply IH. intros bound field key Hin. apply (Hbody bound field key). by right.
  - apply exec_fault in Hs as [_ (bound & field & key & ->)].
    exfalso. apply (Hbody bound field key). by left.
Qed.

Lemma PropagateExpressions_step_backed (Exports : gmap FName FImportData)
    (M : gmap FName P) (bCheckOuter bSubgraph : bool) (Name : FName) (w w' : World P) :
  Backed M w ->
  PropagateExpressions_step plugin eng Parent Exports M bCheckOuter bSubgraph Name w = Done w' ->
  Backed M w'.
Proof.
  intros Hb Hstep. unfold PropagateExpressions_step in Hstep.
  destruct (Exports !! Name) as [data|]; [|done].
  destruct (M !! Name) as [Expression_|]; [|by injection Hstep as <-].
  destruct (SkippedByOuter Parent bCheckOuter data); [by injection Hstep as <-|].
  destruct (Objects w !! Name) as [e|]; [|done].
  unfold bind in Hstep.
  destruct (exec_all _ _ _ _ _ _ _ _) as [r1|]; [|done].
  destruct (exec_all _ _ _ _ _ _ _ _) as [r2|]; [|done].
  injection Hstep as <-. intros n p Hn. simpl.
  destruct (decide (Name = n)) as [->|Hne].
  - rewrite lookup_insert_eq. by eexists.
  - rewrite lookup_insert_ne by done. by eapply Hb.
Qed.

Lemma PropagateExpressions_step_fault (Exports : gmap FName FImportData)
    (M : gmap FName P) (bCheckOuter bSubgraph : bool) (Name : FName) (w : World P) (f : Fault) :
  is_Some (Exports !! Name) ->
  Backed M w ->
  PropagateExpressions_step plugin eng Parent Exports M bCheckOuter bSubgraph Name w = Crash f ->
  f = OutOfBounds.
Proof.
  intros [data Hdata] Hb Hstep. unfold PropagateExpressions_step in Hstep.
  rewrite Hdata in Hstep.
  destruct (M !! Name) as [Expression_|] eqn:HM; [|done].
  destruct (SkippedByOuter Parent bCheckOuter data); [done|].
  destruct (Hb _ _ HM) as [e He]. rewrite He in Hstep.
  unfold bind in Hstep.
  destruct (exec_all _ _ _ _ _ _ _ _) as [r1|f1] eqn:H1.
  - destruct (exec_all _ _ _ _ _ _ (fst r1) _) as [r2|f2] eqn:H2; [done|].
    injection Hstep as <-. by eapply exec_all_fault.
  - injection Hstep as <-. by eapply exec_all_fault.
Qed.

Lemma PropagateExpressions_fault (Exports : gmap FName FImportData)
    (M : gmap FName P) (bCheckOuter bSubgraph : bool) (names : list FName) :
  forall (w : World P) (f : Fault),
  (forall Name, Name ∈ names -> is_Some (Exports !! Name)) ->
  Backed M w ->
  PropagateExpressions plugin eng Parent names Exports M bCheckOuter bSubgraph w = Crash f ->
  f = OutOfBounds.
Proof.
  induction names as [|Name rest IH]; intros w f Hnames Hb Hrun; simpl in Hrun; [done|].
  destruct (PropagateExpressions_step _ _ _ _ _ _ _ _ _) as [w1|f1] eqn:Hstep; simpl in Hrun.
  - eapply IH; [| |exact Hrun].
    + intros n Hn. apply Hnames. by right.
    + by eapply PropagateExpressions_step_backed.
  - injection Hrun as <-. eapply PropagateExpressions_step_fault; [| |exact Hstep]; [|done].
    apply Hnames. by left.
Qed.

Lemma PropagateExpressions_step_wired (Exports : gmap FName FImportData)
    (M : gmap FName P) (bCheckOuter bSubgraph : bool) (Name : FName) (w w' : World P) :
  WorldWired M w ->
  PropagateExpressions_step plugin eng Parent Exports M bCheckOuter bSubgraph Name w = Done w' ->
  WorldWired M w'.
Proof.
  intros Hw Hstep. unfold PropagateExpressions_step in Hstep.
  destruct (Exports !! Name) as [data|]; [|done].
  destruct (M !! Name) as [Expression_|]; [|by injection Hstep as <-].
  destruct (SkippedByOuter Parent bCheckOuter data); [by injection Hstep as <-|].
  destruct (Objects w !! Name) as [e|] eqn:He; [|done].
  unfold bind in Hstep.
  destruct (exec_all _ _ _ _ _ _ _ _) as [[e1 fx1]|] eqn:H1; [|done].
  destruct (exec_all _ _ _ _ _ (MaterialGraphNode_ExpressionWrapper _ _) _ _)
    as [[e2 fx2]|] eqn:H2; [|done].
  injection Hstep as <-. intros n en Hn. simpl in Hn.
  destruct (decide (Name = n)) as [->|Hne].
  - rewrite lookup_insert_eq in Hn. injection Hn as <-.
    eapply exec_all_wired; [|exact H2]. eapply exec_all_wired; [|exact H1]. by eapply Hw.
  - rewrite lookup_insert_ne in Hn by done. by eapply Hw.
Qed.

Lemma PropagateExpressions_wired (Exports : gmap FName FImportData)
    (M : gmap FName P) (bCheckOuter bSubgraph : bool) (names : list FName) :
  forall (w w' : World P),
  WorldWired M w ->
  PropagateExpressions plugin eng Parent names Exports M bCheckOuter bSubgraph w = Done w' ->
  WorldWired M w'.
Proof.
  induction names as [|Name rest IH]; intros w w' Hw Hrun; simpl in Hrun.
  - by injection Hrun as <-.
  - destruct (PropagateExpressions_step _ _ _ _ _ _ _ _ _) as [w1|] eqn:Hstep; [|done].
    simpl in Hrun. eapply IH; [|exact Hrun]. by eapply PropagateExpressions_step_wired.
Qed.

End FaultFacts.

(** ** The recovery hook is called by one statement only *)

Section HookFacts.
Context {P : Type}.
Variable plugin : Plugin.
Variable eng : Engine.
Variable Parent : UParent.
Variable M : gmap FName P.

Lemma NoNewHook_refl (fx : Effects) : NoNewHook fx fx.
Proof. by split. Qed.

Lemma NoNewHook_emit (ev : Event) (fx fx' : Effects) :
  (forall ObjectPath, ev <> EvHandleReference ObjectPath) ->
  NoNewHook fx fx' -> NoNewHook fx (emit ev fx').
Proof.
  intros Hev [Hrec Hlog]. split; [done|]. simpl.
  intros ObjectPath [Hin|Hin]%elem_of_app; [by apply Hlog|].
  apply list_elem_of_singleton in Hin. by destruct (Hev ObjectPath).
Qed.

Lemma NoNewHook_trans (fx1 fx2 fx3 : Effects) :
  NoNewHook fx1 fx2 -> NoNewHook fx2 fx3 -> NoNewHook fx1 fx3.
Proof.
  intros [Hrec1 Hlog1] [Hrec2 Hlog2]. split; [congruence|].
  intros ObjectPath Hin. by apply Hlog1, Hlog2.
Qed.

Ltac no_new_hook :=
  repeat first [apply NoNewHook_refl | apply NoNewHook_emit; [by intros ?|]].

Lemma exec_member_hook (Object_ : FJsonObject) (m : MemberStmt) (S_ : Struct P) (fx : Effects) :
  NoNewHook fx (snd (exec_member plugin eng M Object_ m S_ fx)).
Proof. destruct m; simpl; repeat case_match; simpl; no_new_hook. Qed.

Lemma exec_members_hook (Object_ : FJsonObject) (members : list MemberStmt) :
  forall (S_ : Struct P) (fx : Effects),
  NoNewHook fx (snd (exec_members plugin eng M Object_ members S_ fx)).
Proof.
  induction members as [|m rest IH]; intros S_ fx; simpl; [apply NoNewHook_refl|].
  eapply NoNewHook_trans; [apply exec_member_hook|apply IH].
Qed.

Lemma MakeStructs_hook (skipNull : bool) (members : list MemberStmt)
    (items : list FJsonValue) :
  forall fx : Effects,
  NoNewHook fx (snd (MakeStructs plugin eng M skipNull members items fx)).
Proof.
  induction items as [|V rest IH]; intros fx; simpl; [apply NoNewHook_refl|].
  destruct (skipNull && IsNull V); [apply IH|]. simpl.
  eapply NoNewHook_trans; [apply exec_members_hook|apply IH].
Qed.

(** Every statement but [LoadOrRecover] leaves the hook alone. *)
Lemma exec_hook (Properties : FJsonObject) (s : Stmt) (e e' : UMaterialExpression P)
    (fx fx' : Effects) :
  (forall field key what, s <> LoadOrRecover field key what) ->
  exec plugin eng Parent Properties M s e fx = Done (e', fx') ->
  NoNewHook fx fx'.
Proof.
  intros Hs Hrun.
  destruct s; try (by destruct (Hs field key what));
    simpl in Hrun; unfold bind in Hrun;
    split_run Hrun;
    try discriminate; injection Hrun as <- <-;
    repeat case_match;
    no_new_hook;
    apply MakeStructs_hook.
Qed.

(** The two statements of the dispatch that call the hook. *)
Lemma elem_of_if (s : Stmt) (b : bool) (body rest : list Stmt) :
  s ∈ (if b then body else rest) -> (b = true /\ s ∈ body) \/ s ∈ rest.
Proof. destruct b; [by left|by right]. Qed.

Lemma no_hook_in_body (body : list Stmt) (field key what : string) :
  forallb (fun s => negb (CallsHook s)) body = true ->
  LoadOrRecover field key what ∈ body -> False.
Proof.
  intros Hall Hin. apply list_elem_of_In in Hin.
  by apply (proj1 (forallb_forall _ _) Hall) in Hin.
Qed.

Ltac find_in_body H :=
  first [ exfalso; exact (no_hook_in_body _ _ _ _ eq_refl H)
        | repeat (apply elem_of_cons in H as [H|H]; [try discriminate H|]);
          try (by apply elem_of_nil in H) ].

Ltac find_in_chain H :=
  repeat (apply elem_of_if in H as [[? H]|H]; [find_in_body H|]);
  find_in_body H.

Lemma LoadOrRecover_sites (Type_ : FName) (Class_ : option UClass) (field key what : string) :
  LoadOrRecover field key what
    ∈ KindStatements Type_ ++ ParentClassStatements eng Class_
      ++ MaterialGraphNode_ExpressionWrapper eng Class_ ->
  (Type_ = "MaterialExpressionMaterialFunctionCall"
   /\ field = "MaterialFunction" /\ key = "MaterialFunction")
  \/ (Type_ = "MaterialExpressionCollectionParameter"
      /\ field = "Collection" /\ key = "Collection").
Proof.
  unfold KindStatements, ParentClassStatements, MaterialGraphNode_ExpressionWrapper.
  rewrite !elem_of_app.
  intros [[H|[H|[H|[H|H]]]]|[[H|H]|[H|[H|H]]]].
  - unfold Chain1 in H. find_in_chain H.
  - unfold RuntimeVirtualTextureSample in H. find_in_chain H.
  - unfold RuntimeVirtualTextureSampleParameter in H. find_in_chain H.
  - unfold Chain2 in H. find_in_chain H.
    + left. injection H as -> -> ->. by match goal with Hb : _ = true |- _ =>
        apply String.eqb_eq in Hb end.
    + right. injection H as -> -> ->. by match goal with Hb : _ = true |- _ =>
        apply String.eqb_eq in Hb end.
  - unfold Chain3 in H. find_in_chain H.
  - find_in_chain H.
  - find_in_chain H.
  - find_in_chain H.
  - find_in_chain H.
  - find_in_chain H.
Qed.

End HookFacts.

(** ** The partition of the exports *)

Section PartitionFacts.
Variable Type_ Outer_ : string.

Lemma FindEditorOnlyData_step_editor (acc : Partition) (Value : FJsonValue) :
  IsEditorOnlyData Type_ Value = true ->
  FindEditorOnlyData_step Type_ Outer_ acc Value
  = {| EditorOnlyData := Some (AsObject Value); OutExports := OutExports acc;
       ExpressionNames := ExpressionNames acc |}.
Proof.
  unfold IsEditorOnlyData, FindEditorOnlyData_step. by intros ->.
Qed.

Lemma FindEditorOnlyData_step_node (acc : Partition) (Value : FJsonValue) :
  IsEditorOnlyData Type_ Value = false ->
  FindEditorOnlyData_step Type_ Outer_ acc Value
  = {| EditorOnlyData := EditorOnlyData acc;
       OutExports := <[ExportName Value := ImportDataOf Outer_ Value]> (OutExports acc);
       ExpressionNames := ExpressionNames acc ++ [ExportName Value] |}.
Proof.
  unfold IsEditorOnlyData, FindEditorOnlyData_step. by intros ->.
Qed.

Lemma NodeExports_cons (Value : FJsonValue) (rest : list FJsonValue) :
  NodeExports Type_ (Value :: rest)
  = if IsEditorOnlyData Type_ Value then NodeExports Type_ rest
    else Value :: NodeExports Type_ rest.
Proof.
  unfold NodeExports. destruct (IsEditorOnlyData Type_ Value) eqn:Hkind.
  - by rewrite filter_cons_False by (rewrite Hkind; done).
  - by rewrite filter_cons_True by done.
Qed.

Lemma EditorOnlyExports_cons (Value : FJsonValue) (rest : list FJsonValue) :
  EditorOnlyExports Type_ (Value :: rest)
  = if IsEditorOnlyData Type_ Value then Value :: EditorOnlyExports Type_ rest
    else EditorOnlyExports Type_ rest.
Proof.
  unfold EditorOnlyExports. destruct (IsEditorOnlyData Type_ Value) eqn:Hkind.
  - by rewrite filter_cons_True by done.
  - by rewrite filter_cons_False by (rewrite Hkind; done).
Qed.

Lemma last_cons_match {A B : Type} (f : A -> B) (x : A) (l : list A) (d : option B) :
  match last (x :: l) with Some v => Some (f v) | None => d end
  = match last l with Some v => Some (f v) | None => Some (f x) end.
Proof. rewrite last_cons. by destruct (last l). Qed.

Lemma partition_fold (Exports_ : list FJsonValue) :
  forall acc : Partition,
  let result := foldl (FindEditorOnlyData_step Type_ Outer_) acc Exports_ in
  ExpressionNames result
    = ExpressionNames acc ++ (ExportName <$> NodeExports Type_ Exports_)
  /\ OutExports result
    = foldl (fun m Value => <[ExportName Value := ImportDataOf Outer_ Value]> m)
        (OutExports acc) (NodeExports Type_ Exports_)
  /\ EditorOnlyData result
    = match last (EditorOnlyExports Type_ Exports_) with
      | Some Value => Some (AsObject Value)
      | None => EditorOnlyData acc
      end.
Proof.
  induction Exports_ as [|Value rest IH]; intros acc.
  - simpl. by rewrite app_nil_r.
  - cbn [foldl]. cbv zeta.
    destruct (IH (FindEditorOnlyData_step Type_ Outer_ acc Value)) as (Hn & He & Hd).
    cbv zeta in Hn, He, Hd. rewrite Hn, He, Hd. clear Hn He Hd IH.
    rewrite NodeExports_cons, EditorOnlyExports_cons.
    destruct (IsEditorOnlyData Type_ Value) eqn:Hkind.
    + rewrite (FindEditorOnlyData_step_editor acc Value Hkind). cbn [ExpressionNames OutExports EditorOnlyData].
      split; [done|]. split; [done|]. by rewrite last_cons_match.
    + rewrite (FindEditorOnlyData_step_node acc Value Hkind). cbn [ExpressionNames OutExports EditorOnlyData].
      rewrite fmap_cons. cbn [foldl]. by rewrite <- app_assoc.
Qed.

Lemma index_dom (records : list FJsonValue) :
  forall m : gmap FName FImportData,
  dom (foldl (fun m Value => <[ExportName Value := ImportDataOf Outer_ Value]> m) m records)
  = dom m ∪ list_to_set (ExportName <$> records).
Proof.
  induction records as [|Value rest IH]; intros m; simpl.
  - set_solver.
  - rewrite IH, dom_insert_L. set_solver.
Qed.

(** Every name of the ordered names is a key of the index. *)
Lemma partition_names_indexed (Exports_ : list FJsonValue) (Name : FName) :
  let part := FindEditorOnlyData Exports_ Type_ Outer_ ∅ [] in
  Name ∈ ExpressionNames part -> is_Some (OutExports part !! Name).
Proof.
  cbv zeta. unfold FindEditorOnlyData.
  destruct (partition_fold Exports_
              {| EditorOnlyData := None; OutExports := ∅; ExpressionNames := [] |})
    as (Hn & He & _).
  cbv zeta in Hn, He. rewrite Hn, He. cbn [ExpressionNames OutExports]. intros Hin.
  apply elem_of_dom. rewrite index_dom. set_solver.
Qed.

End PartitionFacts.

(** ** The construction of the empty expressions *)

Section ConstructFacts.
Context {P : Type}.
Variable plugin : Plugin.
Variable eng : Engine.
Variable NewObject : option UClass -> FName -> option P.
Variable Outer_ : string.
Variable Exports : gmap FName FImportData.

Local Abbreviation step := (ConstructExpressions_step plugin eng NewObject Outer_ Exports).
Local Abbreviation made := (Constructed plugin eng NewObject Outer_ Exports).
Local Abbreviation reported := (Reported plugin eng NewObject Outer_ Exports).

Lemma ConstructExpressions_step_eq (M : gmap FName P) (w : World P) (Name : FName) :
  step (M, w) Name
  = (match made Name with Some (p, _) => <[Name := p]> M | None => M end,
     {| Objects := match made Name with
                   | Some (_, e) => <[Name := e]> (Objects w)
                   | None => Objects w
                   end;
        ExpressionCollection := ExpressionCollection w;
        Fx := {| Recovered := Recovered (Fx w); Log := Log (Fx w) ++ reported Name |} |}).
Proof.
  unfold ConstructExpressions_step, Constructed, Reported.
  destruct (Exports !! Name) as [data|].
  - destruct (String.eqb (Outer data) Outer_).
    + destruct (CreateEmptyExpression plugin eng NewObject Name (Type_ data)) as [[Found|] events];
        reflexivity.
    + rewrite app_nil_r. by destruct w as [? ? []].
  - rewrite app_nil_r. by destruct w as [? ? []].
Qed.

Lemma construct_fold (names : list FName) :
  forall (M0 : gmap FName P) (w0 : World P),
  let built := foldl step (M0, w0) names in
  (forall n, fst built !! n
     = match Made plugin eng NewObject Outer_ Exports names n with
       | Some (p, _) => Some p
       | None => M0 !! n
       end)
  /\ (forall n, Objects (snd built) !! n
     = match Made plugin eng NewObject Outer_ Exports names n with
       | Some (_, e) => Some e
       | None => Objects w0 !! n
       end)
  /\ ExpressionCollection (snd built) = ExpressionCollection w0
  /\ Recovered (Fx (snd built)) = Recovered (Fx w0)
  /\ Log (Fx (snd built)) = Log (Fx w0) ++ concat (reported <$> names).
Proof.
  induction names as [|x l IH]; intros M0 w0.
  - cbn. rewrite app_nil_r. repeat split; done.
  - cbn [foldl]. cbv zeta. rewrite ConstructExpressions_step_eq.
    match goal with |- context [foldl step (?M1, ?w1) l] => destruct (IH M1 w1) as (HM & HO & HC & HR & HL) end.
    cbv zeta in HM, HO, HC, HR, HL.
    split; [|split; [|split; [|split]]].
    + intros n. rewrite HM. unfold Made.
      destruct (decide (n ∈ l)) as [Hin|Hin].
      * rewrite !bool_decide_eq_true_2 by (done || by right).
        destruct (made n) as [[p e]|] eqn:Hn; [done|].
        destruct (decide (x = n)) as [->|Hne]; [by rewrite Hn|].
        destruct (made x) as [[px ex]|]; [by rewrite lookup_insert_ne|done].
      * rewrite (bool_decide_eq_false_2 (n ∈ l)) by done.
        destruct (decide (x = n)) as [->|Hne].
        -- rewrite bool_decide_eq_true_2 by left.
           destruct (made n) as [[p e]|]; [by rewrite lookup_insert_eq|done].
        -- rewrite bool_decide_eq_false_2 by (intros [->|?]%elem_of_cons; done).
           destruct (made x) as [[px ex]|]; [by rewrite lookup_insert_ne|done].
    + intros n. rewrite HO. unfold Made. cbn [Objects].
      destruct (decide (n ∈ l)) as [Hin|Hin].
      * rewrite !bool_decide_eq_true_2 by (done || by right).
        destruct (made n) as [[p e]|] eqn:Hn; [done|].
        destruct (decide (x = n)) as [->|Hne]; [by rewrite Hn|].
        destruct (made x) as [[px ex]|]; [by rewrite lookup_insert_ne|done].
      * rewrite (bool_decide_eq_false_2 (n ∈ l)) by done.
        destruct (decide (x = n)) as [->|Hne].
        -- rewrite bool_decide_eq_true_2 by left.
           destruct (made n) as [[p e]|]; [by rewrite lookup_insert_eq|done].
        -- rewrite bool_decide_eq_false_2 by (intros [->|?]%elem_of_cons; done).
           destruct (made x) as [[px ex]|]; [by rewrite lookup_insert_ne|done].
    + by rewrite HC.
    + by rewrite HR.
    + rewrite HL. cbn. by rewrite <- app_assoc.
Qed.

Lemma ConstructExpressions_lookup (names : list FName) (w0 : World P) (n : FName) :
  fst (ConstructExpressions plugin eng NewObject Outer_ names Exports w0) !! n
  = fst <$> Made plugin eng NewObject Outer_ Exports names n.
Proof.
  unfold ConstructExpressions.
  destruct (construct_fold names ∅ w0) as (HM & _). cbv zeta in HM. rewrite HM.
  by destruct (Made _ _ _ _ _ _ _) as [[p e]|].
Qed.

Lemma ConstructExpressions_objects (names : list FName) (w0 : World P) (n : FName) :
  Objects (snd (ConstructExpressions plugin eng NewObject Outer_ names Exports w0)) !! n
  = match Made plugin eng NewObject Outer_ Exports names n with
    | Some (_, e) => Some e
    | None => Objects w0 !! n
    end.
Proof.
  unfold ConstructExpressions.
  destruct (construct_fold names ∅ w0) as (_ & HO & _). cbv zeta in HO. by rewrite HO.
Qed.

Lemma ConstructExpressions_backed (names : list FName) (w0 : World P) :
  Backed (fst (ConstructExpressions plugin eng NewObject Outer_ names Exports w0))
         (snd (ConstructExpressions plugin eng NewObject Outer_ names Exports w0)).
Proof.
  intros n p Hn. rewrite ConstructExpressions_lookup in Hn.
  rewrite ConstructExpressions_objects.
  destruct (Made _ _ _ _ _ _ _) as [[q e]|]; [by eexists|done].
Qed.

Lemma Constructed_fresh (n : FName) (p : P) (e : UMaterialExpression P) :
  Constructed plugin eng NewObject Outer_ Exports n = Some (p, e) -> Fields e = ∅.
Proof.
  unfold Constructed. intros H. repeat case_match; try done. by injection H as <- <-.
Qed.

Lemma ConstructExpressions_wired (names : list FName) (M : gmap FName P) :
  WorldWired M (snd (ConstructExpressions plugin eng NewObject Outer_ names Exports World_empty)).
Proof.
  intros n e Hn. rewrite ConstructExpressions_objects in Hn.
  unfold Made in Hn. destruct (bool_decide (n ∈ names)).
  - destruct (made n) as [[p e']|] eqn:Hmade; [|done].
    injection Hn as <-. apply Constructed_fresh in Hmade.
    intros field v i Hfield. by rewrite Hmade in Hfield.
  - done.
Qed.

Lemma Made_permutation (names names' : list FName) (n : FName) :
  names' ≡ₚ names ->
  Made plugin eng NewObject Outer_ Exports names' n
  = Made plugin eng NewObject Outer_ Exports names n.
Proof.
  intros Hperm. unfold Made.
  destruct (decide (n ∈ names)) as [Hin|Hin].
  - rewrite !bool_decide_eq_true_2; [done|done|by rewrite Hperm].
  - rewrite !bool_decide_eq_false_2; [done|done|by rewrite Hperm].
Qed.

End ConstructFacts.

Lemma index_size (Outer_ : string) (records : list FJsonValue) :
  NoDup (ExportName <$> records) ->
  size (foldl (fun m Value => <[ExportName Value := ImportDataOf Outer_ Value]> m)
          (∅ : gmap FName FImportData) records)
  = length records.
Proof.
  intros Hnodup. rewrite <- size_dom, index_dom, dom_empty_L, (left_id_L ∅ (∪)).
  rewrite size_list_to_set by done. by rewrite length_fmap.
Qed.

(** ** The lookup of an enum value by its name *)

Section EnumFacts.
Variable eng : Engine.

Lemma GetValueByNameString_unknown (E NameString : string) :
  NameString ∉ (fst <$> EnumTable eng E) ->
  GetValueByNameString eng E NameString = INDEX_NONE.
Proof.
  unfold GetValueByNameString. intros Hnot.
  destruct (find _ _) as [[name value]|] eqn:Hfind; [|done].
  exfalso. apply Hnot.
  apply find_some in Hfind as [Hin Heq]. simpl in Heq.
  apply String.eqb_eq in Heq as ->.
  apply list_elem_of_fmap. exists (NameString, value). split; [done|].
  by apply list_elem_of_In.
Qed.

Lemma GetValueByNameString_known (E NameString : string) :
  NameString ∈ (fst <$> EnumTable eng E) ->
  (NameString, GetValueByNameString eng E NameString) ∈ EnumTable eng E.
Proof.
  unfold GetValueByNameString. intros Hin.
  destruct (find _ _) as [[name value]|] eqn:Hfind.
  - apply find_some in Hfind as [Hin' Heq]. simpl in Heq.
    apply String.eqb_eq in Heq as ->. simpl. by apply list_elem_of_In.
  - exfalso. apply list_elem_of_fmap in Hin as [[name value] [-> Hentry]].
    apply list_elem_of_In in Hentry.
    apply (find_none _ _ Hfind) in Hentry. simpl in Hentry.
    by rewrite String.eqb_refl in Hentry.
Qed.

End EnumFacts.

(** ** Names without an expression are passed over *)

Section SkipFacts.
Context {P : Type}.
Variable plugin : Plugin.
Variable eng : Engine.
Variable Parent : UParent.
Variable Exports : gmap FName FImportData.
Variable M : gmap FName P.
Variable bCheckOuter bSubgraph : bool.




End SkipFacts.

(** ** The order of the expression collection *)

Section OrderFacts.
Context {P : Type}.
Variable plugin : Plugin.
Variable eng : Engine.
Variable Parent : UParent.
Variable Exports : gmap FName FImportData.
Variable M : gmap FName P.
Variable bCheckOuter bSubgraph : bool.

Lemma PropagateExpressions_step_collection (Name : FName) (w w' : World P) :
  PropagateExpressions_step plugin eng Parent Exports M bCheckOuter bSubgraph Name w = Done w' ->
  ExpressionCollection w'
  = match Visited Parent Exports M bCheckOuter Name with
    | Some p => Attach Parent bSubgraph p (ExpressionCollection w)
    | None => ExpressionCollection w
    end.
Proof.
  unfold PropagateExpressions_step, Visited. intros Hstep.
  destruct (Exports !! Name) as [data|]; [|done].
  destruct (M !! Name) as [Expression_|].
  - destruct (SkippedByOuter Parent bCheckOuter data); [by injection Hstep as <-|].
    destruct (Objects w !! Name) as [e|]; [|done].
    unfold bind in Hstep.
    destruct (exec_all _ _ _ _ _ _ _ _) as [r1|]; [|done].
    destruct (exec_all _ _ _ _ _ _ _ _) as [r2|]; [|done].
    by injection Hstep as <-.
  - injection Hstep as <-. by destruct (SkippedByOuter Parent bCheckOuter data).
Qed.

Lemma PropagateExpressions_collection (names : list FName) :
  forall w w' : World P,
  PropagateExpressions plugin eng Parent names Exports M bCheckOuter bSubgraph w = Done w' ->
  ExpressionCollection w'
  = foldl (fun collection p => Attach Parent bSubgraph p collection)
      (ExpressionCollection w) (omap (Visited Parent Exports M bCheckOuter) names).
Proof.
  induction names as [|Name rest IH]; intros w w' Hrun; simpl in Hrun.
  - by injection Hrun as <-.
  - destruct (PropagateExpressions_step _ _ _ _ _ _ _ _ _) as [w1|] eqn:Hstep; [|done].
    simpl in Hrun. rewrite (IH _ _ Hrun).
    rewrite (PropagateExpressions_step_collection _ _ _ Hstep). cbn [omap list_omap].
    by destruct (Visited Parent Exports M bCheckOuter Name).
Qed.

Lemma Attach_all (ps collection : list P) :
  bSubgraph = false ->
  Kind Parent <> IsOtherObject ->
  foldl (fun collection p => Attach Parent bSubgraph p collection) collection ps
  = collection ++ ps.
Proof.
  intros -> Hkind. revert collection.
  induction ps as [|p rest IH]; intros collection; simpl; [by rewrite app_nil_r|].
  rewrite IH. unfold Attach. destruct (Kind Parent); [| |done]; by rewrite <- app_assoc.
Qed.

End OrderFacts.

(** ** Renaming the pointers commutes with the passes *)

Section RenamingFacts.
Context {P Q : Type}.
Variable f : P -> Q.
Variable plugin : Plugin.
Variable eng : Engine.
Variable Parent : UParent.

Lemma PopulateExpressionInput_rename (JsonProperties : FJsonObject) (Target : option P)
    (T : string) :
  PopulateExpressionInput JsonProperties (f <$> Target) T
  = rename_input f (PopulateExpressionInput JsonProperties Target T).
Proof. by rewrite !PopulateExpressionInput_variant. Qed.

Lemma CreateExpressionInput_rename (JsonProperties : FJsonObject) (M : gmap FName P)
    (PropertyName : string) :
  CreateExpressionInput plugin JsonProperties (f <$> M) PropertyName
  = rename_input f (CreateExpressionInput plugin JsonProperties M PropertyName).
Proof.
  unfold CreateExpressionInput.
  destruct (TryGetObjectField JsonProperties PropertyName) as [Object_|]; [|done].
  rewrite lookup_fmap. destruct (M !! _) as [p|]; simpl; [|done].
  apply (PopulateExpressionInput_rename _ (Some p)).
Qed.

Lemma FindExpressionInput_rename (M : gmap FName P) (JsonProperties : FJsonObject)
    (key : string) :
  FindExpressionInput plugin (f <$> M) JsonProperties key
  = rename_input f <$> FindExpressionInput plugin M JsonProperties key.
Proof.
  unfold FindExpressionInput.
  destruct (TryGetObjectField JsonProperties key) as [Object_|]; [|done].
  rewrite lookup_fmap. destruct (M !! _) as [p|]; simpl; [|done].
  f_equal. apply (PopulateExpressionInput_rename _ (Some p)).
Qed.

Lemma SetField_rename (field : string) (v : FieldValue P) (e : UMaterialExpression P) :
  rename_expression f (SetField field v e)
  = SetField field (rename_value f v) (rename_expression f e).
Proof. unfold rename_expression, SetField. simpl. by rewrite fmap_insert. Qed.

Lemma SetFieldIf_rename {A : Type} (field : string) (mk : A -> FieldValue P)
    (mk' : A -> FieldValue Q) (found : option A) (e : UMaterialExpression P) :
  (forall a, rename_value f (mk a) = mk' a) ->
  rename_expression f (SetFieldIf field mk found e)
  = SetFieldIf field mk' found (rename_expression f e).
Proof.
  intros Hmk. destruct found as [a|]; simpl; [|done]. by rewrite SetField_rename, Hmk.
Qed.

Lemma GetInputArray_rename (Num : nat) (e : UMaterialExpression P) (field : string) :
  GetInputArray Num (rename_expression f e) field
  = rename_input f <$> GetInputArray Num e field.
Proof.
  unfold GetInputArray. simpl. rewrite lookup_fmap.
  destruct (Fields e !! field) as [v|]; simpl.
  - destruct v; simpl; try (by rewrite fmap_replicate). done.
  - by rewrite fmap_replicate.
Qed.

Lemma WriteInputsByIndex_rename (M : gmap FName P) (Num : nat) (field : string)
    (items : list FJsonValue) :
  forall (i : nat) (e : UMaterialExpression P),
  WriteInputsByIndex plugin (f <$> M) Num field items i (rename_expression f e)
  = map_outcome (rename_expression f) (WriteInputsByIndex plugin M Num field items i e).
Proof.
  induction items as [|InputValue rest IH]; intros i e; simpl; [done|].
  rewrite lookup_fmap. destruct (M !! _) as [p|]; simpl; [|apply IH].
  destruct (decide (i < Num)%nat); [|done].
  rewrite <- IH. f_equal.
  rewrite SetField_rename. simpl.
  rewrite GetInputArray_rename, list_fmap_insert.
  by rewrite (PopulateExpressionInput_rename _ (Some p)).
Qed.

Lemma PopulateFuncExpressionInput_rename (M : gmap FName P) (JsonProperties : FJsonObject) :
  PopulateFuncExpressionInput plugin (f <$> M) JsonProperties
  = rename_function_input f (PopulateFuncExpressionInput plugin M JsonProperties).
Proof.
  unfold PopulateFuncExpressionInput, rename_function_input. simpl.
  rewrite FindExpressionInput_rename.
  by destruct (FindExpressionInput plugin M JsonProperties "Input").
Qed.

Lemma FindExpressionInputEither_rename (M : gmap FName P) (JsonProperties : FJsonObject)
    (key key' : string) :
  FindExpressionInputEither plugin (f <$> M) JsonProperties key key'
  = rename_input f <$> FindExpressionInputEither plugin M JsonProperties key key'.
Proof.
  unfold FindExpressionInputEither.
  destruct (TryGetObjectField JsonProperties key); apply FindExpressionInput_rename.
Qed.

Lemma SetNumZeroed_rename (n : nat) (l : list (FExpressionInput P)) :
  SetNumZeroed n (rename_input f <$> l) = rename_input f <$> SetNumZeroed n l.
Proof.
  unfold SetNumZeroed. by rewrite fmap_app, fmap_take, fmap_replicate, length_fmap.
Qed.

Lemma exec_member_rename (M : gmap FName P) (Object_ : FJsonObject) (m : MemberStmt)
    (S_ : Struct P) (fx : Effects) :
  exec_member plugin eng (f <$> M) Object_ m (rename_struct f S_) fx
  = (rename_struct f (fst (exec_member plugin eng M Object_ m S_ fx)),
     snd (exec_member plugin eng M Object_ m S_ fx)).
Proof.
  unfold rename_struct.
  destruct m; simpl; rewrite ?FindExpressionInput_rename;
    repeat case_match; simplify_eq/=; by rewrite ?fmap_insert.
Qed.

Lemma exec_members_rename (M : gmap FName P) (Object_ : FJsonObject)
    (members : list MemberStmt) :
  forall (S_ : Struct P) (fx : Effects),
  exec_members plugin eng (f <$> M) Object_ members (rename_struct f S_) fx
  = (rename_struct f (fst (exec_members plugin eng M Object_ members S_ fx)),
     snd (exec_members plugin eng M Object_ members S_ fx)).
Proof.
  induction members as [|m rest IH]; intros S_ fx; simpl; [done|].
  rewrite exec_member_rename. simpl. apply IH.
Qed.

Lemma rename_struct_empty : rename_struct f (∅ : Struct P) = ∅.
Proof. unfold rename_struct. apply fmap_empty. Qed.

Lemma MakeStructs_rename (M : gmap FName P) (skipNull : bool) (members : list MemberStmt)
    (items : list FJsonValue) :
  forall (fx : Effects),
  MakeStructs plugin eng (f <$> M) skipNull members items fx
  = (rename_struct f <$> fst (MakeStructs plugin eng M skipNull members items fx),
     snd (MakeStructs plugin eng M skipNull members items fx)).
Proof.
  induction items as [|V rest IH]; intros fx; simpl; [done|].
  destruct (skipNull && IsNull V); [apply IH|].
  rewrite <- rename_struct_empty, exec_members_rename. simpl. by rewrite IH.
Qed.

Lemma AddedStrings_rename (old : option (FieldValue P)) (new : list string) :
  AddedStrings (rename_value f <$> old) new = rename_value f (AddedStrings old new).
Proof. by destruct old as [[]|]. Qed.

Lemma AddedNulls_rename (old : option (FieldValue P)) (n : nat) :
  AddedNulls (rename_value f <$> old) n = rename_value f (AddedNulls old n).
Proof. by destruct old as [[]|]. Qed.

Lemma AddedStructs_rename (old : option (FieldValue P)) (new : list (Struct P)) :
  AddedStructs (rename_value f <$> old) (rename_struct f <$> new)
  = rename_value f (AddedStructs old new).
Proof. destruct old as [[]|]; simpl; by rewrite ?fmap_app. Qed.

Lemma exec_rename (Properties : FJsonObject) (M : gmap FName P) (s : Stmt)
    (e : UMaterialExpression P) (fx : Effects) :
  exec plugin eng Parent Properties (f <$> M) s (rename_expression f e) fx
  = map_outcome (fun r => (rename_expression f (fst r), snd r))
      (exec plugin eng Parent Properties M s e fx).
Proof.
  destruct s as [field key|field key|field key|field key|field key|field key
                |E field key|E field key|field key|field channel|field key
                |field key what|field key what|field key|bound field key|field key
                |field key key'|field key key'|field b|field key names|field key
                |field key|field key sub|field key members
                |skipNull field key members|field key|field key|field key| |];
    simpl.
  - (* AssignInput *)
    by rewrite SetField_rename, CreateExpressionInput_rename.
  - (* AssignInputIfFound *)
    rewrite FindExpressionInput_rename.
    by destruct (FindExpressionInput plugin M Properties key); simpl;
      rewrite ?SetField_rename.
  - by rewrite (SetFieldIf_rename _ _ _ _ _ (fun _ => eq_refl)).
  - by rewrite (SetFieldIf_rename _ _ _ _ _ (fun _ => eq_refl)).
  - by rewrite (SetFieldIf_rename _ _ _ _ _ (fun _ => eq_refl)).
  - by rewrite SetField_rename.
  - by rewrite (SetFieldIf_rename _ _ _ _ _ (fun _ => eq_refl)).
  - by repeat case_match; simpl; rewrite ?SetField_rename.
  - by rewrite (SetFieldIf_rename _ _ _ _ _ (fun _ => eq_refl)).
  - by repeat case_match; simpl;
      rewrite ?(SetFieldIf_rename _ _ _ _ _ (fun _ => eq_refl)).
  - by repeat case_match; simpl; rewrite ?SetField_rename.
  - by repeat case_match; simpl; rewrite ?SetField_rename.
  - by repeat case_match; simpl; rewrite ?SetField_rename.
  - by repeat case_match; simpl; rewrite ?SetField_rename.
  - (* InputsByIndex *)
    destruct (TryGetArrayField Properties key) as [items|]; [|done]. simpl.
    rewrite WriteInputsByIndex_rename.
    by destruct (WriteInputsByIndex plugin M _ field items 0 e).
  - (* InputsResized *)
    destruct (TryGetArrayField Properties key) as [items|]; [|done]. simpl.
    rewrite GetInputArray_rename, SetNumZeroed_rename.
    change (VInputArray (rename_input f <$> ?l)) with (rename_value f (VInputArray l)).
    rewrite <- SetField_rename, WriteInputsByIndex_rename.
    by destruct (WriteInputsByIndex plugin M _ field items 0 _).
  - (* AssignInputEither *)
    rewrite !CreateExpressionInput_rename.
    destruct (CreateExpressionInput plugin Properties M key) as [[p|] ? ? ? ? ? ? ?];
      simpl; by rewrite SetField_rename.
  - (* AssignInputIfFoundEither *)
    rewrite FindExpressionInputEither_rename.
    by destruct (FindExpressionInputEither plugin M Properties key key'); simpl;
      rewrite ?SetField_rename.
  - (* AssignBool *)
    by rewrite SetField_rename.
  - (* TryEnumerator *)
    destruct (TryGetStringField Properties key) as [V|]; [|done]. simpl.
    by rewrite (SetFieldIf_rename _ _ _ _ _ (fun _ => eq_refl)).
  - (* SetStrings *)
    by rewrite (SetFieldIf_rename _ _ _ _ _ (fun _ => eq_refl)).
  - (* AddStrings *)
    destruct (TryGetArrayField Properties key) as [items|]; [|done]. simpl.
    by rewrite SetField_rename, lookup_fmap, AddedStrings_rename.
  - (* AddNulls *)
    destruct (TryGetObjectField Properties key) as [Object_|]; [|done]. simpl.
    by rewrite SetField_rename, lookup_fmap, AddedNulls_rename.
  - (* SetStructs *)
    destruct (TryGetArrayField Properties key) as [items|]; [|done]. simpl.
    by rewrite MakeStructs_rename, SetField_rename.
  - (* AddStructs *)
    destruct (TryGetArrayField Properties key) as [items|]; [|done]. simpl.
    rewrite MakeStructs_rename. cbn [fst snd].
    by rewrite SetField_rename, lookup_fmap, AddedStructs_rename.
  - (* FunctionInputs *)
    destruct (TryGetArrayField Properties key) as [items|]; simpl; [|done].
    rewrite SetField_rename. simpl. rewrite <- list_fmap_compose.
    rewrite (list_fmap_ext
               (fun V => PopulateFuncExpressionInput plugin (f <$> M) (AsObject V))
               (rename_function_input f
                  ∘ (fun V => PopulateFuncExpressionInput plugin M (AsObject V))) items);
      [done|].
    intros ? V _. simpl. apply PopulateFuncExpressionInput_rename.
  - by rewrite (SetFieldIf_rename _ _ _ _ _ (fun _ => eq_refl)).
  - by rewrite (SetFieldIf_rename _ _ _ _ _ (fun _ => eq_refl)).
  - by repeat case_match; simpl; rewrite ?SetField_rename.
  - by repeat case_match.
Qed.

Lemma exec_all_rename (Properties : FJsonObject) (M : gmap FName P) (body : list Stmt) :
  forall (e : UMaterialExpression P) (fx : Effects),
  exec_all plugin eng Parent Properties (f <$> M) body (rename_expression f e) fx
  = map_outcome (fun r => (rename_expression f (fst r), snd r))
      (exec_all plugin eng Parent Properties M body e fx).
Proof.
  induction body as [|s rest IH]; intros e fx; simpl; [done|].
  rewrite exec_rename.
  destruct (exec plugin eng Parent Properties M s e fx) as [[e1 fx1]|]; simpl; [apply IH|done].
Qed.

Lemma Attach_rename (bSubgraph : bool) (p : P) (collection : list P) :
  f <$> Attach Parent bSubgraph p collection
  = Attach Parent bSubgraph (f p) (f <$> collection).
Proof.
  unfold Attach. destruct bSubgraph; [done|].
  destruct (Kind Parent); by rewrite ?fmap_app.
Qed.

Lemma PropagateExpressions_step_rename (Exports : gmap FName FImportData)
    (M : gmap FName P) (bCheckOuter bSubgraph : bool) (Name : FName) (w : World P) :
  PropagateExpressions_step plugin eng Parent Exports (f <$> M) bCheckOuter bSubgraph Name
    (rename_world f w)
  = map_outcome (rename_world f)
      (PropagateExpressions_step plugin eng Parent Exports M bCheckOuter bSubgraph Name w).
Proof.
  unfold PropagateExpressions_step.
  destruct (Exports !! Name) as [data|]; [|done].
  rewrite lookup_fmap. destruct (M !! Name) as [Expression_|]; [|done].
  change (f <$> Some Expression_) with (Some (f Expression_)). cbv beta iota.
  destruct (SkippedByOuter Parent bCheckOuter data); [done|].
  change (Objects (rename_world f w)) with (rename_expression f <$> Objects w).
  change (Fx (rename_world f w)) with (Fx w).
  change (ExpressionCollection (rename_world f w)) with (f <$> ExpressionCollection w).
  rewrite lookup_fmap. destruct (Objects w !! Name) as [e|]; [|done].
  change (rename_expression f <$> Some e) with (Some (rename_expression f e)).
  cbv beta iota.
  change (Class (rename_expression f e)) with (Class e).
  rewrite exec_all_rename.
  destruct (exec_all plugin eng Parent _ M _ e (Fx w)) as [[e1 fx1]|]; [|done].
  cbn [map_outcome bind fst snd].
  rewrite exec_all_rename.
  destruct (exec_all plugin eng Parent _ M _ e1 fx1) as [[e2 fx2]|]; [|done].
  cbn [map_outcome bind fst snd]. unfold rename_world.
  cbn [Objects ExpressionCollection Fx].
  by rewrite fmap_insert, Attach_rename.
Qed.

Lemma PropagateExpressions_rename (Exports : gmap FName FImportData)
    (M : gmap FName P) (bCheckOuter bSubgraph : bool) (names : list FName) :
  forall w : World P,
  PropagateExpressions plugin eng Parent names Exports (f <$> M) bCheckOuter bSubgraph
    (rename_world f w)
  = map_outcome (rename_world f)
      (PropagateExpressions plugin eng Parent names Exports M bCheckOuter bSubgraph w).
Proof.
  induction names as [|Name rest IH]; intros w; simpl; [done|].
  rewrite PropagateExpressions_step_rename.
  destruct (PropagateExpressions_step _ _ _ _ _ _ _ _ _) as [w1|]; simpl; [apply IH|done].
Qed.

Lemma rename_fresh (Class_ : option UClass) :
  rename_expression f {| Class := Class_; Fields := ∅ |}
  = {| Class := Class_; Fields := ∅ |}.
Proof. unfold rename_expression. cbn [Class Fields]. by rewrite fmap_empty. Qed.

Lemma ConstructExpressions_step_rename (NewObject : option UClass -> FName -> option P)
    (NewObject' : option UClass -> FName -> option Q)
    (Outer_ : string) (Exports : gmap FName FImportData)
    (M : gmap FName P) (w : World P) (Name : FName) :
  (forall c n, NewObject' c n = f <$> NewObject c n) ->
  ConstructExpressions_step plugin eng NewObject' Outer_ Exports (f <$> M, rename_world f w) Name
  = (f <$> fst (ConstructExpressions_step plugin eng NewObject Outer_ Exports (M, w) Name),
     rename_world f (snd (ConstructExpressions_step plugin eng NewObject Outer_ Exports (M, w) Name))).
Proof.
  intros Hnew. unfold ConstructExpressions_step, CreateEmptyExpression.
  destruct (Exports !! Name) as [data|]; [|done].
  destruct (String.eqb (Outer data) Outer_); [|done].
  destruct (bool_decide _); [done|].
  rewrite Hnew. destruct (NewObject _ Name) as [Found|]; [|done].
  change (f <$> Some Found) with (Some (f Found)). cbv beta iota.
  cbn [fst snd]. unfold rename_world. cbn [Objects ExpressionCollection Fx].
  by rewrite !fmap_insert, rename_fresh.
Qed.

Lemma ConstructExpressions_fold_rename (NewObject : option UClass -> FName -> option P)
    (NewObject' : option UClass -> FName -> option Q)
    (Outer_ : string) (Exports : gmap FName FImportData) (names : list FName) :
  (forall c n, NewObject' c n = f <$> NewObject c n) ->
  forall (M : gmap FName P) (w : World P),
  foldl (ConstructExpressions_step plugin eng NewObject' Outer_ Exports)
    (f <$> M, rename_world f w) names
  = (f <$> fst (foldl (ConstructExpressions_step plugin eng NewObject Outer_ Exports) (M, w) names),
     rename_world f
       (snd (foldl (ConstructExpressions_step plugin eng NewObject Outer_ Exports) (M, w) names))).
Proof.
  intros Hnew. induction names as [|Name rest IH]; intros M w; cbn [foldl]; [done|].
  rewrite (ConstructExpressions_step_rename NewObject) by done.
  destruct (ConstructExpressions_step plugin eng NewObject Outer_ Exports (M, w) Name)
    as [M1 w1]. apply IH.
Qed.

Lemma ConstructExpressions_rename (NewObject : option UClass -> FName -> option P)
    (NewObject' : option UClass -> FName -> option Q)
    (Outer_ : string) (Exports : gmap FName FImportData) (names : list FName) :
  (forall c n, NewObject' c n = f <$> NewObject c n) ->
  ConstructExpressions plugin eng NewObject' Outer_ names Exports World_empty
  = (f <$> fst (ConstructExpressions plugin eng NewObject Outer_ names Exports World_empty),
     rename_world f
       (snd (ConstructExpressions plugin eng NewObject Outer_ names Exports World_empty))).
Proof.
  intros Hnew. unfold ConstructExpressions.
  rewrite <- (ConstructExpressions_fold_rename NewObject NewObject') by done.
  by rewrite fmap_empty.
Qed.

End RenamingFacts.

(** ** The index of the exports *)

(** The entry of a name is the record of the last export of that name. *)
Lemma index_last (Outer_ : string) (records : list FJsonValue) :
  forall (m : gmap FName FImportData) (Name : FName),
  foldl (fun m Value => <[ExportName Value := ImportDataOf Outer_ Value]> m) m records !! Name
  = match last (filter (fun Value => ExportName Value = Name) records) with
    | Some Value => Some (ImportDataOf Outer_ Value)
    | None => m !! Name
    end.
Proof.
  induction records as [|Value rest IH]; intros m Name; [done|].
  cbn [foldl]. rewrite IH. rewrite filter_cons.
  destruct (decide (ExportName Value = Name)) as [Heq|Hne].
  - rewrite last_cons. destruct (last (filter _ rest)); [done|].
    by rewrite <- Heq, lookup_insert_eq.
  - destruct (last (filter _ rest)); [done|]. by rewrite lookup_insert_ne.
Qed.

(** The index has one entry for each name that occurs. *)
Lemma index_size_distinct (Outer_ : string) (records : list FJsonValue) :
  size (foldl (fun m Value => <[ExportName Value := ImportDataOf Outer_ Value]> m)
          (∅ : gmap FName FImportData) records)
  = length (remove_dups (ExportName <$> records)).
Proof.
  rewrite <- size_dom, index_dom, dom_empty_L, (left_id_L ∅ (∪)).
  rewrite <- (size_list_to_set (C := gset FName) (remove_dups _)) by apply NoDup_remove_dups.
  f_equal. apply set_eq. intros x. by rewrite !elem_of_list_to_set, elem_of_remove_dups.
Qed.

(** ** The statements that read an enum by the end of its text *)

Section EnumeratorFacts.
Variable eng : Engine.

Lemma no_enumerator_in_body (body : list Stmt) (field key : string) (names : list string) :
  forallb (fun s => negb (IsEnumerator s)) body = true ->
  TryEnumerator field key names ∈ body -> False.
Proof.
  intros Hall Hin. apply list_elem_of_In in Hin.
  by apply (proj1 (forallb_forall _ _) Hall) in Hin.
Qed.

Ltac find_enumerator_in_body H :=
  first [ exfalso; exact (no_enumerator_in_body _ _ _ _ eq_refl H)
        | repeat (apply elem_of_cons in H as [H|H]; [try discriminate H|]);
          try (by apply elem_of_nil in H) ].

Ltac find_enumerator_in_chain H :=
  repeat (apply elem_of_if in H as [[? H]|H]; [find_enumerator_in_body H|]);
  find_enumerator_in_body H.

(** The two handlers that have such a statement. *)
Lemma TryEnumerator_sites (Type_ : FName) (Class_ : option UClass)
    (field key : string) (names : list string) :
  TryEnumerator field key names
    ∈ KindStatements Type_ ++ ParentClassStatements eng Class_
      ++ MaterialGraphNode_ExpressionWrapper eng Class_ ->
  (Type_ = "MaterialExpressionClamp" /\ field = "ClampMode" /\ key = "ClampMode"
   /\ names = ["CMODE_Clamp"; "CMODE_ClampMin"; "CMODE_ClampMax"])
  \/ (Type_ = "MaterialExpressionTextureProperty" /\ field = "Property" /\ key = "Property"
      /\ names = ["TMTM_TextureSize"; "TMTM_TexelSize"]).
Proof.
  unfold KindStatements, ParentClassStatements, MaterialGraphNode_ExpressionWrapper.
  rewrite !elem_of_app.
  intros [[H|[H|[H|[H|H]]]]|[[H|H]|[H|[H|H]]]].
  - unfold Chain1 in H. find_enumerator_in_chain H.
  - unfold RuntimeVirtualTextureSample in H. find_enumerator_in_chain H.
  - unfold RuntimeVirtualTextureSampleParameter in H. find_enumerator_in_chain H.
  - unfold Chain2 in H. find_enumerator_in_chain H.
  - unfold Chain3 in H. find_enumerator_in_chain H.
    + left. injection H as -> -> ->. by match goal with Hb : _ = true |- _ =>
        apply String.eqb_eq in Hb end.
    + right. injection H as -> -> ->. by match goal with Hb : _ = true |- _ =>
        apply String.eqb_eq in Hb end.
  - find_enumerator_in_chain H.
  - find_enumerator_in_chain H.
  - find_enumerator_in_chain H.
  - find_enumerator_in_chain H.
  - find_enumerator_in_chain H.
Qed.

End EnumeratorFacts.

(** * The claims of the specification *)

(** ** C1 *)

(** C1.  Every expression input the wiring engine hands out is either not
    wired or wired to an expression of the created-expression map:
    [CreateExpressionInput] sets the pointer only from an entry of the map
    found under the referenced name, and answers with the default input,
    whose pointer is null, when the name is absent.  The statements that
    wire an input always complete, and over a whole import (partition,
    construction, propagation) every input of every expression points into
    the map; the only fault a run can end in is the unchecked index of a
    switch over a fixed-size array, never an unresolved reference. *)
Theorem C1_wired_inputs_point_to_created_expressions :
  forall (P : Type) (plugin : Plugin) (eng : Engine)
         (NewObject : option UClass -> FName -> option P) (Parent : UParent),
  (forall (JsonProperties : FJsonObject) (M : gmap FName P) (PropertyName : string),
     TargetCreated M (CreateExpressionInput plugin JsonProperties M PropertyName)
     /\ (forall Object_ : FJsonObject,
           TryGetObjectField JsonProperties PropertyName = Some Object_ ->
           match M !! GetExpressionName plugin Object_ (ExpressionKey plugin) with
           | Some p =>
               Expression (CreateExpressionInput plugin JsonProperties M PropertyName) = Some p
           | None =>
               CreateExpressionInput plugin JsonProperties M PropertyName
               = FExpressionInput_default
           end))
  /\ (forall (Properties : FJsonObject) (M : gmap FName P) (field key : string)
             (e : UMaterialExpression P) (fx : Effects),
        exec plugin eng Parent Properties M (AssignInput field key) e fx
        = Done (SetField field (VInput (CreateExpressionInput plugin Properties M key)) e, fx)
        /\ exists e', exec plugin eng Parent Properties M (AssignInputIfFound field key) e fx
                      = Done (e', fx))
  /\ (forall (Type_ : string) (Exports_ : list FJsonValue) (bCheckOuter bSubgraph : bool),
        match ThreePasses plugin eng NewObject Parent Type_ Exports_ bCheckOuter bSubgraph with
        | (_, M, Done w) => WorldWired M w
        | (_, _, Crash f) => f = OutOfBounds
        end).
Proof.
  intros P plugin eng NewObject Parent. split; [|split].
  - intros JsonProperties M PropertyName. split.
    + apply TargetCreated_CreateExpressionInput.
    + intros Object_ Hobj.
      destruct (M !! _) as [p|] eqn:Hfound.
      * rewrite (CreateExpressionInput_found plugin _ Object_ M _ p) by done.
        apply PopulateExpressionInput_Expression.
      * by eapply CreateExpressionInput_unresolved.
  - intros Properties M field key e fx. split; [reflexivity|]. simpl. by eexists.
  - intros Type_ Exports_ bCheckOuter bSubgraph. unfold ThreePasses.
    destruct (PropagateExpressions _ _ _ _ _ _ _ _ _) as [w|f] eqn:Hrun.
    + eapply PropagateExpressions_wired; [|exact Hrun]. apply ConstructExpressions_wired.
    + eapply PropagateExpressions_fault; [| |exact Hrun].
      * intros Name. apply partition_names_indexed.
      * apply ConstructExpressions_backed.
Qed.

(** ** C2 *)

(** C2.  The code at a variant call.  The input object holds
    [UseConstant: true] and [Constant: 5] beside its reference.  With the
    variant [Scalar] both literals are assigned to the view of the input
    the cast gives, with an expression behind the input and with none; what
    [PopulateExpressionInput] returns is the [FExpressionInput] part alone,
    so the connection returned is that of a call with the variant
    [Default], and the same for an object with other literals: it carries
    none of them.  The variants [Color] and [Vector] return the same. *)
Lemma C2_variant_call_returns_no_constant :
  let Object_ := GetObjectField (Sample.bag_with_literals true 5) "A" in
  let other := GetObjectField (Sample.bag_with_literals false 7) "A" in
  let resolved : option (nat * FName) := Some (0%nat, "N9") in
  let unresolved : option (nat * FName) := None in
  TryGetBoolField Object_ "UseConstant" = Some true
  /\ TryGetNumberField Object_ "Constant" = Some 5
  /\ TryGetBoolField other "UseConstant" = Some false
  /\ TryGetNumberField other "Constant" = Some 7
  /\ UseConstant (PopulateExpressionInput_cast Object_ resolved "Scalar") = Some true
  /\ Constant (PopulateExpressionInput_cast Object_ resolved "Scalar") = Some (ScalarConstant 5)
  /\ UseConstant (PopulateExpressionInput_cast Object_ unresolved "Scalar") = Some true
  /\ Constant (PopulateExpressionInput_cast Object_ unresolved "Scalar")
     = Some (ScalarConstant 5)
  /\ PopulateExpressionInput Object_ resolved "Scalar"
     = PopulateExpressionInput Object_ resolved "Default"
  /\ PopulateExpressionInput Object_ resolved "Scalar"
     = PopulateExpressionInput other resolved "Scalar"
  /\ PopulateExpressionInput Object_ unresolved "Scalar"
     = PopulateExpressionInput other unresolved "Scalar"
  /\ PopulateExpressionInput Object_ resolved "Color"
     = PopulateExpressionInput other resolved "Scalar"
  /\ PopulateExpressionInput Object_ resolved "Vector"
     = PopulateExpressionInput other resolved "Scalar".
Proof. cbv zeta. repeat split; reflexivity. Qed.

(** ** C3 *)

(** C3, as stated, fails.  [TMVM_Bogus] is no name of the enum of the mip
    value modes; a texture sample whose [MipValueMode] is [TMVM_None] (0)
    and whose property bag holds [MipValueMode: TMVM_Bogus] comes out of the
    texture-sample statements with [MipValueMode] set to the cast of
    [INDEX_NONE], not with the value it had. *)
Lemma C3_unknown_enum_name_overwrites :
  let Properties := [("MipValueMode", JString "TMVM_Bogus")] in
  let body := ParentClassStatements Sample.engine (Class Sample.texture_sample) in
  ("TMVM_Bogus" ∉ (fst <$> EnumTable Sample.engine "ETextureMipValueMode"))
  /\ TryEnum "ETextureMipValueMode" "MipValueMode" "MipValueMode" ∈ body
  /\ Fields Sample.texture_sample !! "MipValueMode" = Some (VEnum 0)
  /\ exists e' fx',
       exec_all Sample.plugin Sample.engine Sample.material Properties ∅ body
         Sample.texture_sample Sample.no_effects = Done (e', fx')
       /\ Fields e' !! "MipValueMode" = Some (VEnum INDEX_NONE)
       /\ VEnum INDEX_NONE <> (VEnum 0 : FieldValue (nat * FName)).
Proof.
  cbv zeta. split; [|split; [|split]].
  - vm_compute. intros H. repeat (apply elem_of_cons in H as [H|H]; [discriminate H|]).
    by apply elem_of_nil in H.
  - vm_compute. left.
  - reflexivity.
  - eexists _, _. split; [vm_compute; reflexivity|]. split; [reflexivity|discriminate].
Qed.

(** C3, amended.  An enum member is read from a text in four statements,
    each of which completes.  Three of them, [TryEnum], the same followed by
    a change notification (the sampler type, in the wrapper) and the one on
    a member of an array entry ([OutputType] of a custom output,
    [BlendType] of a layer), are
    [if (TryGetStringField(key, V)) X->field = static_cast<E>(GetValueByNameString(V))]:
    when the getter finds no text, as it does for an absent key, the
    expression (or the struct) is left as it was; when it finds the text [V]
    the member is overwritten with the cast of the lookup's answer,
    whatever it held and leaving the other members alone: the value of the
    entry when [V] names one, [INDEX_NONE] when [V] is no name of the enum.
    The enum members of the runtime-virtual-texture sample and of the
    texture-sample parent class are populated this way.  The fourth
    statement compares the end of the text with the names the handler
    lists, and keeps the value of the member when the getter finds no text
    and when the text ends with none of the names; of all the handlers, the
    parent-class part and the wrapper, only the clamp (for [ClampMode]) and
    the texture property (for [Property]) have it. *)
Theorem C3_enum_member_population :
  forall (P : Type) (plugin : Plugin) (eng : Engine) (Parent : UParent)
         (Properties : FJsonObject) (M : gmap FName P) (E field key : string)
         (e : UMaterialExpression P) (fx : Effects),
  (TryGetField Properties key = None -> TryGetStringField Properties key = None)
  /\ (exists e',
        exec plugin eng Parent Properties M (TryEnum E field key) e fx = Done (e', fx)
        /\ match TryGetStringField Properties key with
           | None => e' = e
           | Some V =>
               Fields e' !! field = Some (VEnum (GetValueByNameString eng E V))
               /\ (forall other, other <> field -> Fields e' !! other = Fields e !! other)
           end)
  /\ (exists e' fx',
        exec plugin eng Parent Properties M (TryEnumAndNotify E field key) e fx
        = Done (e', fx')
        /\ match TryGetStringField Properties key with
           | None => e' = e /\ fx' = fx
           | Some V =>
               Fields e' !! field = Some (VEnum (GetValueByNameString eng E V))
               /\ (forall other, other <> field -> Fields e' !! other = Fields e !! other)
               /\ fx' = emit (EvPostEditChange field) fx
           end)
  /\ (forall (Object_ : FJsonObject) (S_ : Struct P),
        exists S',
          exec_member plugin eng M Object_ (MemberTryEnum E field key) S_ fx = (S', fx)
          /\ match TryGetStringField Object_ key with
             | None => S' = S_
             | Some V =>
                 S' !! field = Some (MEnum (GetValueByNameString eng E V))
                 /\ (forall other, other <> field -> S' !! other = S_ !! other)
             end)
  /\ (forall V : string,
        (V ∈ (fst <$> EnumTable eng E) -> (V, GetValueByNameString eng E V) ∈ EnumTable eng E)
        /\ (V ∉ (fst <$> EnumTable eng E) -> GetValueByNameString eng E V = INDEX_NONE))
  /\ (forall names : list string,
        exists e'',
          exec plugin eng Parent Properties M (TryEnumerator field key names) e fx
          = Done (e'', fx)
          /\ match TryGetStringField Properties key with
             | None => e'' = e
             | Some V =>
                 match find (EndsWith V) names with
                 | Some name =>
                     Fields e'' !! field = Some (VEnumerator name)
                     /\ (forall other, other <> field ->
                           Fields e'' !! other = Fields e !! other)
                 | None => e'' = e
                 end
             end)
  /\ (forall (Type_ : FName) (Class_ : option UClass) (field' key' : string)
             (names : list string),
        TryEnumerator field' key' names
          ∈ KindStatements Type_ ++ ParentClassStatements eng Class_
            ++ MaterialGraphNode_ExpressionWrapper eng Class_ ->
        (Type_ = "MaterialExpressionClamp" /\ field' = "ClampMode" /\ key' = "ClampMode"
         /\ names = ["CMODE_Clamp"; "CMODE_ClampMin"; "CMODE_ClampMax"])
        \/ (Type_ = "MaterialExpressionTextureProperty" /\ field' = "Property"
            /\ key' = "Property" /\ names = ["TMTM_TextureSize"; "TMTM_TexelSize"]))
  /\ TryEnumerator "ClampMode" "ClampMode" ["CMODE_Clamp"; "CMODE_ClampMin"; "CMODE_ClampMax"]
       ∈ KindStatements "MaterialExpressionClamp"
  /\ TryEnumerator "Property" "Property" ["TMTM_TextureSize"; "TMTM_TexelSize"]
       ∈ KindStatements "MaterialExpressionTextureProperty"
  /\ TryEnum "ERuntimeVirtualTextureMaterialType" "MaterialType" "MaterialType"
       ∈ KindStatements "MaterialExpressionRuntimeVirtualTextureSample"
  /\ TryEnum "ERuntimeVirtualTextureMipValueMode" "MipValueMode" "MipValueMode"
       ∈ KindStatements "MaterialExpressionRuntimeVirtualTextureSample"
  /\ TryEnum "ERuntimeVirtualTextureTextureAddressMode" "TextureAddressMode" "TextureAddressMode"
       ∈ KindStatements "MaterialExpressionRuntimeVirtualTextureSample"
  /\ (forall Class_,
        CastSucceeds eng Class_ "MaterialExpressionTextureSample" = true ->
        TryEnum "ETextureMipValueMode" "MipValueMode" "MipValueMode"
          ∈ ParentClassStatements eng Class_
        /\ TryEnum "ESamplerSourceMode" "SamplerSource" "SamplerSource"
          ∈ ParentClassStatements eng Class_)
  /\ (forall Class_,
        CastSucceeds eng Class_ "MaterialExpressionTextureBase" = true ->
        TryEnumAndNotify "EMaterialSamplerType" "SamplerType" "SamplerType"
          ∈ MaterialGraphNode_ExpressionWrapper eng Class_)
  /\ MemberTryEnum "ECustomMaterialOutputType" "OutputType" "OutputType"
       ∈ FCustomOutput_members
  /\ MemberTryEnum "ELandscapeLayerBlendType" "BlendType" "BlendType"
       ∈ FLayerBlendInput_members.
Proof.
  intros.
  split; [|split; [|split; [|split; [|split; [|split; [|split;
    [|split; [|split; [|split; [|split; [|split; [|split; [|split; [|split]]]]]]]]]]]]]].
  - unfold TryGetStringField. by intros ->.
  - eexists. split; [reflexivity|].
    destruct (TryGetStringField Properties key) as [V|]; [|done]. simpl.
    split; [apply lookup_insert_eq|]. intros other Hne. by apply lookup_insert_ne.
  - simpl. destruct (TryGetStringField Properties key) as [V|].
    + eexists _, _. split; [reflexivity|]. simpl.
      split; [apply lookup_insert_eq|]. split; [|done].
      intros other Hne. by apply lookup_insert_ne.
    + by eexists _, _.
  - intros Object_ S_. simpl. destruct (TryGetStringField Object_ key) as [V|].
    + eexists. split; [reflexivity|].
      split; [apply lookup_insert_eq|]. intros other Hne. by apply lookup_insert_ne.
    + by eexists.
  - intros V. split; [apply GetValueByNameString_known|apply GetValueByNameString_unknown].
  - intros names. simpl.
    destruct (TryGetStringField Properties key) as [V|]; [|by eexists].
    destruct (find (EndsWith V) names) as [name|]; [|by eexists].
    eexists. split; [reflexivity|]. simpl.
    split; [apply lookup_insert_eq|]. intros other Hne. by apply lookup_insert_ne.
  - intros Type_ Class_ field' key' names. apply TryEnumerator_sites.
  - vm_compute. in_list.
  - vm_compute. in_list.
  - vm_compute. in_list.
  - vm_compute. in_list.
  - vm_compute. in_list.
  - intros Class_ Hcast. unfold ParentClassStatements. rewrite Hcast.
    split; apply elem_of_app; left; in_list.
  - intros Class_ Hcast. unfold MaterialGraphNode_ExpressionWrapper.
    rewrite !elem_of_app. rewrite Hcast. right. right. in_list.
  - unfold FCustomOutput_members. in_list.
  - unfold FLayerBlendInput_members. in_list.
Qed.

(** ** C4 *)



(** ** C5 *)

(** C5, as stated, fails.  One editor-only-data export beside three
    expression exports, two of which are named [N1]: the ordered names are
    three, the index has two entries, and the entry of [N1] is the record
    of the later export. *)
Lemma C5_shared_name_shares_an_index_entry :
  let Exports_ :=
    [Sample.export "M_Test" "MaterialEditorOnlyData" [];
     Sample.export "N1" "MaterialExpressionAdd" [];
     Sample.export "N1" "MaterialExpressionConstant" [];
     Sample.export "N2" "MaterialExpressionConstant" []] in
  let part := FindEditorOnlyData Exports_ "Material" "M_Test" ∅ [] in
  length (EditorOnlyExports "Material" Exports_) = 1%nat
  /\ length (NodeExports "Material" Exports_) = 3%nat
  /\ EditorOnlyData part = Some (AsObject (Sample.export "M_Test" "MaterialEditorOnlyData" []))
  /\ ExpressionNames part = ["N1"; "N1"; "N2"]
  /\ size (OutExports part) = 2%nat
  /\ Type_ <$> OutExports part !! "N1" = Some "MaterialExpressionConstant".
Proof. cbv zeta. repeat split; vm_compute; reflexivity. Qed.

(** C5, amended.  [FindEditorOnlyData] splits the exports by their type: an
    export whose type is the unit's kind followed by [EditorOnlyData]
    enters neither the index nor the ordered names, and the last such
    export is the editor-only-data result; every other export is added to
    the index under its name, where it replaces an earlier export of the
    same name, and its name is appended to the ordered names, in the order
    of the list.  So the index has one entry for each name that occurs, the
    record of the last export of that name; and one editor-only-data export
    beside three expression exports of distinct names gives that one
    result, three index entries and three ordered names. *)
Theorem C5_partition_of_exports :
  forall (Exports_ : list FJsonValue) (Type_ Outer_ : string),
  let part := FindEditorOnlyData Exports_ Type_ Outer_ ∅ [] in
  ExpressionNames part = ExportName <$> NodeExports Type_ Exports_
  /\ OutExports part
     = foldl (fun m Value => <[ExportName Value := ImportDataOf Outer_ Value]> m)
         ∅ (NodeExports Type_ Exports_)
  /\ EditorOnlyData part = AsObject <$> last (EditorOnlyExports Type_ Exports_)
  /\ (forall Value,
        Value ∈ Exports_ ->
        (IsEditorOnlyData Type_ Value = true <-> Value ∈ EditorOnlyExports Type_ Exports_)
        /\ (IsEditorOnlyData Type_ Value = false <-> Value ∈ NodeExports Type_ Exports_))
  /\ (forall Value,
        Value ∈ NodeExports Type_ Exports_ ->
        ExportName Value ∈ ExpressionNames part
        /\ is_Some (OutExports part !! ExportName Value))
  /\ (forall Name : FName,
        OutExports part !! Name
        = ImportDataOf Outer_
          <$> last (filter (fun Value => ExportName Value = Name) (NodeExports Type_ Exports_)))
  /\ size (OutExports part)
     = length (remove_dups (ExportName <$> NodeExports Type_ Exports_))
  /\ (forall editor,
        EditorOnlyExports Type_ Exports_ = [editor] ->
        length (NodeExports Type_ Exports_) = 3%nat ->
        NoDup (ExportName <$> NodeExports Type_ Exports_) ->
        EditorOnlyData part = Some (AsObject editor)
        /\ size (OutExports part) = 3%nat
        /\ length (ExpressionNames part) = 3%nat).
Proof.
  intros Exports_ Type_ Outer_. cbv zeta. unfold FindEditorOnlyData.
  destruct (partition_fold Type_ Outer_ Exports_
              {| EditorOnlyData := None; OutExports := ∅; ExpressionNames := [] |})
    as (Hn & He & Hd).
  cbv zeta in Hn, He, Hd. cbn [ExpressionNames OutExports EditorOnlyData] in Hn, He, Hd.
  rewrite Hn, He, Hd. clear Hn He Hd.
  split; [done|]. split; [done|]. split; [by destruct (last _)|].
  split; [|split; [|split; [|split]]].
  - intros Value Hin. unfold EditorOnlyExports, NodeExports.
    rewrite !list_elem_of_filter. naive_solver.
  - intros Value Hin. split.
    + apply list_elem_of_fmap. by exists Value.
    + apply elem_of_dom. rewrite index_dom. apply elem_of_union_r.
      apply elem_of_list_to_set, list_elem_of_fmap. by exists Value.
  - intros Name. rewrite index_last, lookup_empty. by destruct (last _).
  - apply index_size_distinct.
  - intros editor Hed Hlen Hnodup. rewrite Hed. cbn [last].
    split; [done|]. split.
    + by rewrite index_size.
    + by rewrite length_app, length_fmap, Hlen.
Qed.

(** Scenario D on a concrete list: the editor-only data of a material between
    three expressions. *)
Example C5_scenario_D :
  let part :=
    FindEditorOnlyData
      [Sample.export "N1" "MaterialExpressionAdd" [];
       Sample.export "M_Test" "MaterialEditorOnlyData" [];
       Sample.export "N2" "MaterialExpressionConstant" [];
       Sample.export "N3" "MaterialExpressionConstant" []]
      "Material" "M_Test" ∅ [] in
  EditorOnlyData part = Some (AsObject (Sample.export "M_Test" "MaterialEditorOnlyData" []))
  /\ ExpressionNames part = ["N1"; "N2"; "N3"]
  /\ size (OutExports part) = 3%nat.
Proof. cbv zeta. repeat split; vm_compute; reflexivity. Qed.

(** ** C6 *)

(** C6, as stated, fails.  The virtual texture of a runtime-virtual-texture
    sample is an external asset pointer; here its direct load returns null,
    and what follows is the load and the notification, with no call of the
    recovery hook.  The declaration of a named reroute usage is loaded
    without hook and without notification. *)
Lemma C6_virtual_texture_not_recovered :
  let descriptor := [("ObjectName", JString "RuntimeVirtualTexture'RVT_Ground'");
                     ("ObjectPath", JString "/Game/VT/RVT_Ground.0")] in
  LoadObject Sample.engine [] descriptor = None
  /\ (exists e',
        exec_all Sample.plugin Sample.engine Sample.material
          [("VirtualTexture", JObject descriptor)] ∅
          (KindStatements "MaterialExpressionRuntimeVirtualTextureSample")
          (Sample.fresh "/Script/Engine.MaterialExpressionRuntimeVirtualTextureSample")
          Sample.no_effects
        = Done (e', {| Recovered := [];
                       Log := [EvLoadObject descriptor;
                               EvNotification "Virtual Texture Sample Missing: /Game/VT/RVT_Ground"] |})
        /\ Fields e' !! "VirtualTexture" = Some (VAsset None))
  /\ (exists e',
        exec_all Sample.plugin Sample.engine Sample.material
          [("Declaration", JObject descriptor)] ∅
          (KindStatements "MaterialExpressionNamedRerouteUsage")
          (Sample.fresh "/Script/Engine.MaterialExpressionNamedRerouteUsage")
          Sample.no_effects
        = Done (e', {| Recovered := []; Log := [EvLoadObject descriptor] |})
        /\ Fields e' !! "Declaration" = Some (VAsset None)).
Proof.
  cbv zeta. split; [reflexivity|].
  split; eexists; (split; [vm_compute; reflexivity|reflexivity]).
Qed.

(** C6, amended.  For the material function of a function-call node and
    the collection of a collection-parameter node (the statement
    [LoadOrRecover]): the descriptor is loaded; when the load returns null,
    [HandleReference] is called with the object path up to its first dot;
    if it succeeds the load is tried once more and its answer is what the
    member holds; if it fails the notification "... Missing: " followed by
    that path is raised and the member stays null.  The statement always
    completes.  These two are the only statements of the dispatch, of the
    parent-class part and of the wrapper that call the hook, and no other
    statement does: the virtual texture, the declaration, the curve, the
    atlas, the grass type, the physical material and the texture are
    loaded without it. *)
Theorem C6_missing_reference_recovery :
  forall (P : Type) (plugin : Plugin) (eng : Engine) (Parent : UParent)
         (Properties : FJsonObject) (M : gmap FName P) (field key what : string)
         (e : UMaterialExpression P) (fx : Effects),
  (exists e' fx',
     exec plugin eng Parent Properties M (LoadOrRecover field key what) e fx = Done (e', fx')
     /\ match TryGetObjectField Properties key with
        | None => e' = e /\ fx' = fx
        | Some descriptor =>
            let ObjectPath := SplitLeftOfDot (GetStringField descriptor "ObjectPath") in
            match LoadObject eng (Recovered fx) descriptor with
            | Some asset =>
                Fields e' !! field = Some (VAsset (Some asset))
                /\ Recovered fx' = Recovered fx
                /\ Log fx' = Log fx ++ [EvLoadObject descriptor]
            | None =>
                if HandleReference eng ObjectPath then
                  Fields e' !! field
                  = Some (VAsset (LoadObject eng (ObjectPath :: Recovered fx) descriptor))
                  /\ Recovered fx' = ObjectPath :: Recovered fx
                  /\ Log fx' = Log fx ++ [EvLoadObject descriptor; EvHandleReference ObjectPath;
                                          EvLoadObject descriptor]
                else
                  Fields e' !! field = Some (VAsset None)
                  /\ Recovered fx' = Recovered fx
                  /\ Log fx' = Log fx ++ [EvLoadObject descriptor; EvHandleReference ObjectPath;
                                          EvNotification (what +:+ ObjectPath)]
            end
        end)
  /\ KindStatements "MaterialExpressionMaterialFunctionCall"
     = [LoadOrRecover "MaterialFunction" "MaterialFunction" "Material Function Missing: ";
        FunctionInputs "FunctionInputs" "FunctionInputs";
        FunctionOutputs "FunctionOutputs" "FunctionOutputs"]
  /\ KindStatements "MaterialExpressionCollectionParameter"
     = [LoadOrRecover "Collection" "Collection" "Material Collection Missing: ";
        TryString "ParameterName" "ParameterName"; TryString "ParameterId" "ParameterId"]
  /\ (forall (Type_ : FName) (Class_ : option UClass) (field' key' what' : string),
        LoadOrRecover field' key' what'
          ∈ KindStatements Type_ ++ ParentClassStatements eng Class_
            ++ MaterialGraphNode_ExpressionWrapper eng Class_ ->
        (Type_ = "MaterialExpressionMaterialFunctionCall"
         /\ field' = "MaterialFunction" /\ key' = "MaterialFunction")
        \/ (Type_ = "MaterialExpressionCollectionParameter"
            /\ field' = "Collection" /\ key' = "Collection"))
  /\ (forall (s : Stmt) (e' : UMaterialExpression P) (fx' : Effects),
        (forall field' key' what', s <> LoadOrRecover field' key' what') ->
        exec plugin eng Parent Properties M s e fx = Done (e', fx') ->
        NoNewHook fx fx')
  /\ LoadOrNotify "VirtualTexture" "VirtualTexture" "Virtual Texture Sample Missing: "
       ∈ KindStatements "MaterialExpressionRuntimeVirtualTextureSample"
  /\ LoadPlain "Declaration" "Declaration"
       ∈ KindStatements "MaterialExpressionNamedRerouteUsage"
  /\ LoadPlain "Curve" "Curve" ∈ KindStatements "MaterialExpressionCurveAtlasRowParameter"
  /\ LoadPlain "Atlas" "Atlas" ∈ KindStatements "MaterialExpressionCurveAtlasRowParameter"
  /\ KindStatements "MaterialExpressionLandscapeGrassOutput"
     = [AddStructs true "GrassTypes" "GrassTypes"
          [MemberName "Name" "Name"; MemberLoad "GrassType" "GrassAsset";
           MemberInputIfFound "Input" "Input"]]
  /\ KindStatements "MaterialExpressionLandscapePhysicalMaterialOutput"
     = [AddStructs false "Inputs" "Inputs"
          [MemberLoad "PhysicalMaterial" "PhysicalMaterial";
           MemberInputIfFound "Input" "Input"]]
  /\ (forall Class_,
        CastSucceeds eng Class_ "MaterialExpressionTextureBase" = true ->
        LoadAndRefresh "Texture" "Texture" ∈ MaterialGraphNode_ExpressionWrapper eng Class_).
Proof.
  intros. split; [|split; [reflexivity|split; [reflexivity|]]].
  2: { split; [apply LoadOrRecover_sites|]. split; [intros s e' fx'; apply exec_hook|].
       split; [vm_compute; in_list|]. split; [vm_compute; in_list|].
       split; [vm_compute; in_list|]. split; [vm_compute; in_list|].
       split; [reflexivity|]. split; [reflexivity|].
       intros Class_ Hcast. unfold MaterialGraphNode_ExpressionWrapper. rewrite Hcast.
       rewrite !elem_of_app. right. right. in_list. }
  unfold exec, ShortObjectPath.
  destruct (TryGetObjectField Properties key) as [descriptor|]; [|by eexists _, _].
  cbv zeta.
  destruct (LoadObject eng (Recovered fx) descriptor) as [asset|].
  - eexists _, _. split; [reflexivity|]. split; [apply lookup_insert_eq|]. done.
  - destruct (HandleReference eng _).
    + eexists _, _. split; [reflexivity|]. split; [apply lookup_insert_eq|].
      split; [done|]. simpl. by rewrite <- !app_assoc.
    + eexists _, _. split; [reflexivity|]. split; [apply lookup_insert_eq|].
      split; [done|]. simpl. by rewrite <- !app_assoc.
Qed.

(** ** C7 *)

(** C7.  Two imports of the same exports into two fresh graphs differ at
    most in where the engine places the new objects.  Whenever the two
    engines make an object for the same requests, and the objects made for
    a request bear the same name, the two imports agree once every
    expression pointer is read as the name of the object behind it: the same
    partition, the same created-expression map, and the same outcome, that
    is the same objects with the same members, the same targets of all
    inputs, the same expression collection in the same order, and the same
    effects (or the same fault). *)
Theorem C7_import_is_deterministic_by_name :
  forall (P1 P2 : Type) (plugin : Plugin) (eng : Engine) (Parent : UParent)
         (NewObject1 : option UClass -> FName -> option P1)
         (NewObject2 : option UClass -> FName -> option P2)
         (name1 : P1 -> FName) (name2 : P2 -> FName)
         (Type_ : string) (Exports_ : list FJsonValue) (bCheckOuter bSubgraph : bool),
  (forall c n, name1 <$> NewObject1 c n = name2 <$> NewObject2 c n) ->
  let run1 := ThreePasses plugin eng NewObject1 Parent Type_ Exports_ bCheckOuter bSubgraph in
  let run2 := ThreePasses plugin eng NewObject2 Parent Type_ Exports_ bCheckOuter bSubgraph in
  fst (fst run1) = fst (fst run2)
  /\ name1 <$> snd (fst run1) = name2 <$> snd (fst run2)
  /\ map_outcome (rename_world name1) (snd run1)
     = map_outcome (rename_world name2) (snd run2).
Proof.
  intros P1 P2 plugin eng Parent NewObject1 NewObject2 name1 name2 Type_ Exports_
    bCheckOuter bSubgraph Hsame.
  cbv zeta. unfold ThreePasses. cbn [fst snd].
  set (part := FindEditorOnlyData Exports_ Type_ (ParentName Parent) ∅ []).
  pose proof (ConstructExpressions_rename name1 plugin eng NewObject1
                (fun c n => name1 <$> NewObject1 c n) (ParentName Parent)
                (OutExports part) (ExpressionNames part) (fun _ _ => eq_refl)) as H1.
  pose proof (ConstructExpressions_rename name2 plugin eng NewObject2
                (fun c n => name1 <$> NewObject1 c n) (ParentName Parent)
                (OutExports part) (ExpressionNames part) Hsame) as H2.
  rewrite H1 in H2.
  pose proof (f_equal fst H2) as HM. pose proof (f_equal snd H2) as Hw.
  cbn [fst snd] in HM, Hw.
  split; [done|]. split; [done|].
  rewrite <- !PropagateExpressions_rename. by rewrite HM, Hw.
Qed.

(** C7 at work: scenario A imported into a graph whose objects start at
    address 0 and into one whose objects start at address 1. *)
Lemma C7_two_fresh_graphs :
  let run1 :=
    ThreePasses Sample.plugin Sample.engine (Sample.NewObject_at 0) Sample.material
      "Material" Sample.scenario_A true false in
  let run2 :=
    ThreePasses Sample.plugin Sample.engine (Sample.NewObject_at 1) Sample.material
      "Material" Sample.scenario_A true false in
  (forall c n, snd <$> Sample.NewObject_at 0 c n = snd <$> Sample.NewObject_at 1 c n)
  /\ snd (fst run1) <> snd (fst run2)
  /\ fst (fst run1) = fst (fst run2)
  /\ snd <$> snd (fst run1) = snd <$> snd (fst run2)
  /\ map_outcome (rename_world snd) (snd run1) = map_outcome (rename_world snd) (snd run2).
Proof.
  cbv zeta.
  assert (forall c n, snd <$> Sample.NewObject_at 0 c n = snd <$> Sample.NewObject_at 1 c n)
    as Hsame by (by intros [c|] n).
  split; [exact Hsame|]. split.
  - intros Heq.
    assert (snd (fst (ThreePasses Sample.plugin Sample.engine (Sample.NewObject_at 0)
                        Sample.material "Material" Sample.scenario_A true false)) !! "N1"
            = Some (1%nat, "N1")) as Hone by (rewrite Heq; vm_compute; reflexivity).
    vm_compute in Hone. discriminate Hone.
  - exact (C7_import_is_deterministic_by_name (nat * FName) (nat * FName)
             Sample.plugin Sample.engine Sample.material
             (Sample.NewObject_at 0) (Sample.NewObject_at 1) snd snd
             "Material" Sample.scenario_A true false Hsame).
Defined.

(** ** C8 *)

(** C8.  However the ordered names are permuted before the construction
    pass, the created-expression map is the same map (and the objects behind
    it are the same), so every wiring call resolves as before: the second
    pass reads nothing of the first but that map.  The expression collection
    is filled in the order of the names the propagation pass iterates: it is
    the collection before, followed by the expressions of those names that
    are created and not skipped by the outer test, in their order. *)
Theorem C8_construction_order_is_irrelevant :
  forall (P : Type) (plugin : Plugin) (eng : Engine)
         (NewObject : option UClass -> FName -> option P) (Parent : UParent)
         (Outer_ : string) (Exports : gmap FName FImportData)
         (names names' : list FName) (w0 : World P) (bCheckOuter : bool),
  names' ≡ₚ names ->
  let built := ConstructExpressions plugin eng NewObject Outer_ names Exports w0 in
  let built' := ConstructExpressions plugin eng NewObject Outer_ names' Exports w0 in
  fst built' = fst built
  /\ Objects (snd built') = Objects (snd built)
  /\ (forall (JsonProperties : FJsonObject) (PropertyName : string),
        CreateExpressionInput plugin JsonProperties (fst built') PropertyName
        = CreateExpressionInput plugin JsonProperties (fst built) PropertyName)
  /\ (forall w : World P,
        PropagateExpressions plugin eng Parent names Exports (fst built') bCheckOuter false w
        = PropagateExpressions plugin eng Parent names Exports (fst built) bCheckOuter false w)
  /\ (forall w w' : World P,
        Kind Parent <> IsOtherObject ->
        PropagateExpressions plugin eng Parent names Exports (fst built) bCheckOuter false w
        = Done w' ->
        ExpressionCollection w'
        = ExpressionCollection w
          ++ omap (Visited Parent Exports (fst built) bCheckOuter) names).
Proof.
  intros P plugin eng NewObject Parent Outer_ Exports names names' w0 bCheckOuter Hperm.
  cbv zeta.
  assert (fst (ConstructExpressions plugin eng NewObject Outer_ names' Exports w0)
          = fst (ConstructExpressions plugin eng NewObject Outer_ names Exports w0)) as HM.
  { apply map_eq. intros n. rewrite !ConstructExpressions_lookup.
    by rewrite (Made_permutation _ _ _ _ _ names names'). }
  split; [done|]. split; [|split; [|split]].
  - apply map_eq. intros n. rewrite !ConstructExpressions_objects.
    by rewrite (Made_permutation _ _ _ _ _ names names').
  - intros. by rewrite HM.
  - intros. by rewrite HM.
  - intros w w' Hkind Hrun.
    rewrite (PropagateExpressions_collection _ _ _ _ _ _ _ _ _ _ Hrun).
    by apply Attach_all.
Qed.

(** C8 at work: the two names of scenario A, constructed in either order. *)
Lemma C8_construction_order_witness :
  let Exports := OutExports (FindEditorOnlyData Sample.scenario_A "Material" "M_Test" ∅ []) in
  let built :=
    ConstructExpressions Sample.plugin Sample.engine (Sample.NewObject_at 0) "M_Test"
      ["N1"; "N2"] Exports World_empty in
  let built' :=
    ConstructExpressions Sample.plugin Sample.engine (Sample.NewObject_at 0) "M_Test"
      ["N2"; "N1"] Exports World_empty in
  ["N2"; "N1"] ≡ₚ ["N1"; "N2"]
  /\ fst built' = fst built
  /\ Objects (snd built') = Objects (snd built).
Proof.
  cbv zeta.
  pose proof (C8_construction_order_is_irrelevant (nat * FName) Sample.plugin Sample.engine
                (Sample.NewObject_at 0) Sample.material "M_Test"
                (OutExports (FindEditorOnlyData Sample.scenario_A "Material" "M_Test" ∅ []))
                ["N1"; "N2"] ["N2"; "N1"] World_empty true (perm_swap "N1" "N2" []))
    as (HM & HO & _).
  split; [apply perm_swap|]. split; [exact HM|exact HO].
Defined.

(** ** C9 *)

(** C9, as stated, fails.  With the records as the specification writes
    them, even in an engine that has classes named [Add] and [Constant] (so
    that both expressions exist), no branch of the dispatch compares with
    the type [Add], so neither [A] nor [ConstB] of [N1] is assigned; and the
    reference [{ObjectName: N2}] has neither the [Expression] object nor the
    [ExpressionName] string [GetExpressionName] reads, so it names no
    expression.  After the import the only member assigned on [N1] is its
    owner. *)
Lemma C9_scenario_A_as_written :
  (GetExpressionName Sample.plugin [("ObjectName", JString "N2")]
     (ExpressionKey Sample.plugin) = NAME_None)
  /\ KindStatements "Add" = []
  /\ let '(_, M, result) :=
       ThreePasses Sample.plugin Sample.engine (Sample.NewObject_at 0) Sample.material
         "Material" Sample.scenario_A_literal true false in
     M !! "N1" = Some (0%nat, "N1")
     /\ M !! "N2" = Some (0%nat, "N2")
     /\ CreateExpressionInput Sample.plugin
          (GetObjectField (AsObject (Sample.export "N1" "Add"
             [("A", JObject [("ObjectName", JString "N2")]); ("B", JObject []);
              ("ConstA", JNumber 0); ("ConstB", JNumber 5)])) "Properties") M "A"
        = FExpressionInput_default
     /\ exists w N1,
          result = Done w
          /\ Objects w !! "N1" = Some N1
          /\ Fields N1 = {["Material" := VOwner "M_Test"]}
          /\ Fields N1 !! "A" = None
          /\ Fields N1 !! "ConstB" = None.
Proof.
  split; [reflexivity|]. split; [reflexivity|].
  vm_compute. split; [reflexivity|]. split; [reflexivity|]. split; [reflexivity|].
  eexists _, _. repeat split; reflexivity.
Qed.

(** C9, amended.  For the two records [{Name: N1, Type:
    MaterialExpressionAdd, Properties: {A: {ExpressionName: N2}, B: {},
    ConstA: 0, ConstB: 5}}] and [{Name: N2, Type: MaterialExpressionConstant,
    Properties: {R: 3}}], imported into a material wherever the engine
    places the objects: the graph has exactly the two expressions [N1] and
    [N2], the input [A] of [N1] points to the expression [N2] with output
    index 0, [B] is not wired, [ConstB] of [N1] is 5 and [R] of [N2] is 3. *)
Theorem C9_scenario_A :
  forall base : nat,
  let '(part, M, result) :=
    ThreePasses Sample.plugin Sample.engine (Sample.NewObject_at base) Sample.material
      "Material" Sample.scenario_A true false in
  ExpressionNames part = ["N1"; "N2"]
  /\ M = {["N1" := (base, "N1"); "N2" := (base, "N2")]}
  /\ exists w N1 N2 A B,
       result = Done w
       /\ ExpressionCollection w = [(base, "N1"); (base, "N2")]
       /\ Objects w = {["N1" := N1; "N2" := N2]}
       /\ Fields N1 !! "A" = Some (VInput A)
       /\ Expression A = Some (base, "N2")
       /\ M !! "N2" = Some (base, "N2")
       /\ OutputIndex A = 0
       /\ Fields N1 !! "B" = Some (VInput B)
       /\ Expression B = None
       /\ Fields N1 !! "ConstA" = Some (VNumber 0)
       /\ Fields N1 !! "ConstB" = Some (VNumber 5)
       /\ Fields N2 !! "R" = Some (VNumber 3).
Proof.
  intros base. vm_compute.
  split; [reflexivity|]. split; [reflexivity|].
  eexists _, _, _, _, _. repeat split; reflexivity.
Qed.

(** ** C10 *)

(** C10.  The loop of the quality switch writes the input of the entry at
    position [k] of the JSON array to [Inputs[k]] when the entry resolves,
    and advances the index for every entry, resolved or not; the index is
    never compared with the size of the array.  Hence the writes of a run
    are all in bounds whatever the created-expression map is exactly when
    the array has at most as many entries as [Inputs] has elements: with at
    most that many the loop completes, and a longer array has an entry past
    the end whose write, once it resolves, leaves the array. *)
Theorem C10_quality_switch_inputs_bound :
  forall (P : Type) (plugin : Plugin) (eng : Engine) (somewhere : P)
         (field : string) (items : list FJsonValue),
  ((length items <= QualityLevelNum eng)%nat
   <-> forall (M : gmap FName P) (e : UMaterialExpression P),
         exists e', WriteInputsByIndex plugin M (QualityLevelNum eng) field items 0 e = Done e')
  /\ (forall (M : gmap FName P) (e e' : UMaterialExpression P) (k : nat),
        Fields e !! field = None ->
        WriteInputsByIndex plugin M (QualityLevelNum eng) field items 0 e = Done e' ->
        GetInputArray (QualityLevelNum eng) e' field !! k
        = match WrittenAt plugin M items k with
          | Some written => Some written
          | None => replicate (QualityLevelNum eng) FExpressionInput_default !! k
          end)
  /\ (forall (M : gmap FName P) (e : UMaterialExpression P) (k : nat),
        (QualityLevelNum eng <= k)%nat ->
        is_Some (WrittenAt plugin M items k) ->
        WriteInputsByIndex plugin M (QualityLevelNum eng) field items 0 e = Crash OutOfBounds)
  /\ KindStatements "MaterialExpressionQualitySwitch"
     = [AssignInput "Default" "Default";
        InputsByIndex EMaterialQualityLevel_Num "Inputs" "Inputs"]
  /\ NumOf eng EMaterialQualityLevel_Num = QualityLevelNum eng.
Proof.
  intros P plugin eng somewhere field items. split; [|split; [|split; [|split]]].
  - split.
    + intros Hlen M e. by apply WriteInputsByIndex_in_bounds.
    + intros Hsafe.
      destruct (decide (length items <= QualityLevelNum eng)%nat) as [|Hlong]; [done|].
      exfalso.
      destruct (lookup_lt_is_Some_2 items (QualityLevelNum eng)) as [InputValue Hentry]; [lia|].
      set (Name := GetExpressionName plugin (AsObject InputValue) (ExpressionKey plugin)).
      destruct (Hsafe {[Name := somewhere]} {| Class := None; Fields := ∅ |}) as [e' Hrun].
      rewrite (WriteInputsByIndex_out_of_bounds plugin _ (QualityLevelNum eng) field items 0
                 (QualityLevelNum eng)) in Hrun; [done|lia|].
      unfold WrittenAt. rewrite Hentry. fold Name. rewrite lookup_singleton_eq. by eexists.
  - intros M e e' k Hfresh Hrun.
    assert (GetInputArray (QualityLevelNum eng) e field
            = replicate (QualityLevelNum eng) FExpressionInput_default) as Hdefault.
    { unfold GetInputArray. by rewrite Hfresh. }
    destruct (WriteInputsByIndex_content plugin M (QualityLevelNum eng) field items 0 e e' k)
      as (_ & Hat & _);
      [by rewrite Hdefault, length_replicate|done|].
    simpl in Hat. by rewrite Hat, Hdefault.
  - intros M e k Hk Hwritten.
    by apply (WriteInputsByIndex_out_of_bounds plugin M (QualityLevelNum eng) field items 0 k).
  - reflexivity.
  - reflexivity.
Qed.
(** * Further properties of the code *)

(** ** What a statement leaves alone *)

Section FrameFacts.
Context {P : Type}.
Variable plugin : Plugin.
Variable eng : Engine.
Variable Parent : UParent.
Variable Properties : FJsonObject.
Variable M : gmap FName P.

Lemma SetField_frame (field k : string) (v : FieldValue P) (e : UMaterialExpression P) :
  k <> field -> Fields (SetField field v e) !! k = Fields e !! k.
Proof. intros Hne. simpl. by rewrite lookup_insert_ne. Qed.

Lemma SetFieldIf_frame {A : Type} (field k : string) (mk : A -> FieldValue P)
    (found : option A) (e : UMaterialExpression P) :
  k <> field -> Fields (SetFieldIf field mk found e) !! k = Fields e !! k.
Proof. intros Hne. destruct found; [by apply SetField_frame|done]. Qed.

Lemma SetFieldIf_Class {A : Type} (field : string) (mk : A -> FieldValue P)
    (found : option A) (e : UMaterialExpression P) :
  Class (SetFieldIf field mk found e) = Class e.
Proof. by destruct found. Qed.

Lemma WriteInputsByIndex_frame (Num : nat) (field k : string) (items : list FJsonValue) :
  forall (i : nat) (e e' : UMaterialExpression P),
  WriteInputsByIndex plugin M Num field items i e = Done e' ->
  Class e' = Class e /\ (k <> field -> Fields e' !! k = Fields e !! k).
Proof.
  induction items as [|V rest IH]; intros i e e' Hrun; simpl in Hrun.
  - by injection Hrun as <-.
  - destruct (M !! _); [|by eapply IH].
    destruct (decide (i < Num)%nat); [|done].
    apply IH in Hrun as [Hc Hf]. split; [done|].
    intros Hne. rewrite Hf by done. by apply SetField_frame.
Qed.

(** A statement keeps the class of the expression and every member it does
    not name. *)
Lemma exec_frame (s : Stmt) (e e' : UMaterialExpression P) (fx fx' : Effects) (k : string) :
  exec plugin eng Parent Properties M s e fx = Done (e', fx') ->
  Class e' = Class e /\ (k ∉ Writes s -> Fields e' !! k = Fields e !! k).
Proof.
  intros Hrun.
  destruct s; simpl in Hrun; unfold bind in Hrun;
    split_run Hrun; try discriminate; injection Hrun as <- <-;
    try (split; [by rewrite ?SetFieldIf_Class|];
         intros Hk; simpl in Hk;
         first [ apply SetFieldIf_frame | apply SetField_frame | reflexivity ];
         intros ->; apply Hk; rewrite ?elem_of_cons; tauto).
  - (* InputsByIndex *)
    match goal with
    | H : WriteInputsByIndex _ _ _ _ _ _ _ = Done _ |- _ =>
        apply (WriteInputsByIndex_frame _ _ k) in H as [Hc Hf]
    end.
    split; [done|]. intros Hk. apply Hf. intros ->. apply Hk. by left.
  - (* InputsResized *)
    match goal with
    | H : WriteInputsByIndex _ _ _ _ _ _ _ = Done _ |- _ =>
        apply (WriteInputsByIndex_frame _ _ k) in H as [Hc Hf]
    end.
    split; [done|]. intros Hk.
    rewrite Hf; [apply SetField_frame|]; intros ->; apply Hk; by left.
Qed.

Lemma exec_all_frame (body : list Stmt) (k : string) :
  forall (e e' : UMaterialExpression P) (fx fx' : Effects),
  exec_all plugin eng Parent Properties M body e fx = Done (e', fx') ->
  Class e' = Class e /\ (k ∉ body ≫= Writes -> Fields e' !! k = Fields e !! k).
Proof.
  induction body as [|s rest IH]; intros e e' fx fx' Hrun; simpl in Hrun.
  - by injection Hrun as <- <-.
  - destruct (exec plugin eng Parent Properties M s e fx) as [[e1 fx1]|] eqn:Hs; [|done].
    simpl in Hrun. apply IH in Hrun as [Hc Hf].
    apply (exec_frame _ _ _ _ _ k) in Hs as [Hc1 Hf1].
    split; [congruence|]. intros Hk. simpl in Hk. rewrite elem_of_app in Hk.
    rewrite Hf by tauto. apply Hf1. tauto.
Qed.

End FrameFacts.

(** ** What the propagation does to the objects *)

Section PropagationFacts.
Context {P : Type}.
Variable plugin : Plugin.
Variable eng : Engine.
Variable Parent : UParent.
Variable Exports : gmap FName FImportData.
Variable M : gmap FName P.
Variable bCheckOuter bSubgraph : bool.

Lemma exec_all_app (Properties : FJsonObject) (l1 l2 : list Stmt) :
  forall (e : UMaterialExpression P) (fx : Effects),
  exec_all plugin eng Parent Properties M (l1 ++ l2) e fx
  = bind (exec_all plugin eng Parent Properties M l1 e fx)
      (fun r => exec_all plugin eng Parent Properties M l2 (fst r) (snd r)).
Proof.
  induction l1 as [|s rest IH]; intros e fx; simpl; [done|].
  destruct (exec plugin eng Parent Properties M s e fx) as [[e1 fx1]|]; simpl; [apply IH|done].
Qed.

(** The wrapper leaves the owner it has set in place. *)
Lemma wrapper_owner (Properties : FJsonObject) (Class_ : option UClass)
    (e e' : UMaterialExpression P) (fx fx' : Effects) (field : string) :
  OwnerField Parent = Some field ->
  exec_all plugin eng Parent Properties M (MaterialGraphNode_ExpressionWrapper eng Class_) e fx
  = Done (e', fx') ->
  Fields e' !! field = Some (VOwner (ParentName Parent)).
Proof.
  intros Hfield Hrun. unfold MaterialGraphNode_ExpressionWrapper in Hrun.
  match type of Hrun with
  | exec_all _ _ _ _ _ ([?a; ?b; ?c; SetOwner; ?d1; ?d2; ?d3; ?d4; ?d5; ?d6] ++ ?X ++ ?Y) _ _ = _ =>
      change ([a; b; c; SetOwner; d1; d2; d3; d4; d5; d6] ++ X ++ Y)
        with ([a; b; c] ++ SetOwner :: ([d1; d2; d3; d4; d5; d6] ++ X ++ Y)) in Hrun
  end.
  rewrite exec_all_app in Hrun. unfold bind in Hrun.
  destruct (exec_all _ _ _ _ _ [_; _; _] _ _) as [[e1 fx1]|]; [|done].
  cbn [exec_all fst snd] in Hrun.
  assert (exists e2, exec plugin eng Parent Properties M SetOwner e1 fx1 = Done (e2, fx1)
                     /\ Fields e2 !! field = Some (VOwner (ParentName Parent)))
    as (e2 & Hset & Hown).
  { unfold OwnerField in Hfield. simpl.
    destruct (Kind Parent); simplify_eq; eexists; (split; [done|]); apply lookup_insert_eq. }
  rewrite Hset in Hrun. cbn [bind fst snd] in Hrun.
  apply (exec_all_frame _ _ _ _ _ _ field) in Hrun as [_ Hframe].
  rewrite Hframe; [done|].
  unfold OwnerField in Hfield.
  destruct (CastSucceeds eng Class_ "MaterialExpressionParameter"),
           (CastSucceeds eng Class_ "MaterialExpressionTextureBase"),
           (Kind Parent); simplify_eq;
    apply (bool_decide_unpack _); by vm_compute.
Qed.

Lemma step_objects (Name : FName) (w w' : World P) :
  PropagateExpressions_step plugin eng Parent Exports M bCheckOuter bSubgraph Name w = Done w' ->
  dom (Objects w') = dom (Objects w)
  /\ (forall n, n <> Name -> Objects w' !! n = Objects w !! n)
  /\ (Visited Parent Exports M bCheckOuter Name = None -> Objects w' = Objects w)
  /\ (forall n e e', Objects w !! n = Some e -> Objects w' !! n = Some e' -> Class e' = Class e)
  /\ (is_Some (Visited Parent Exports M bCheckOuter Name) -> Owned Parent w' Name).
Proof.
  unfold PropagateExpressions_step, Visited. intros Hstep.
  destruct (Exports !! Name) as [data|]; [|done].
  destruct (M !! Name) as [Expression_|];
    [|injection Hstep as <-; repeat split; try done; try congruence;
      destruct (SkippedByOuter _ _ _); by intros []].
  destruct (SkippedByOuter Parent bCheckOuter data);
    [injection Hstep as <-; repeat split; try done; try congruence; by intros []|].
  destruct (Objects w !! Name) as [e|] eqn:He; [|done].
  unfold bind in Hstep.
  destruct (exec_all _ _ _ _ _ _ _ _) as [[e1 fx1]|] eqn:H1; [|done].
  destruct (exec_all _ _ _ _ _ (MaterialGraphNode_ExpressionWrapper _ _) _ _)
    as [[e2 fx2]|] eqn:H2; [|done].
  injection Hstep as <-. cbn [Objects fst snd] in *.
  pose proof (exec_all_frame _ _ _ _ _ _ "" _ _ _ _ H1) as [Hc1 _].
  pose proof (exec_all_frame _ _ _ _ _ _ "" _ _ _ _ H2) as [Hc2 _].
  split; [|split; [|split; [|split]]].
  - rewrite dom_insert_L. apply elem_of_dom_2 in He. set_solver.
  - intros n Hne. by rewrite lookup_insert_ne.
  - done.
  - intros n e0 e' Hn Hn'. destruct (decide (n = Name)) as [->|Hne].
    + rewrite lookup_insert_eq in Hn'. simplify_eq. congruence.
    + rewrite lookup_insert_ne in Hn' by done. congruence.
  - intros _. unfold Owned. destruct (OwnerField Parent) as [field|] eqn:Hfield; [|done].
    exists e2. split; [apply lookup_insert_eq|]. by eapply wrapper_owner.
Qed.

Lemma propagate_objects (names : list FName) :
  forall w w' : World P,
  PropagateExpressions plugin eng Parent names Exports M bCheckOuter bSubgraph w = Done w' ->
  dom (Objects w') = dom (Objects w)
  /\ (forall n, n ∉ names \/ Visited Parent Exports M bCheckOuter n = None ->
                Objects w' !! n = Objects w !! n)
  /\ (forall n e e', Objects w !! n = Some e -> Objects w' !! n = Some e' -> Class e' = Class e).
Proof.
  induction names as [|Name rest IH]; intros w w' Hrun; simpl in Hrun.
  - injection Hrun as <-. split; [done|]. split; [done|]. intros; congruence.
  - destruct (PropagateExpressions_step _ _ _ _ _ _ _ _ _) as [w1|] eqn:Hstep; [|done].
    simpl in Hrun. apply IH in Hrun as (Hd & Hf & Hc).
    apply step_objects in Hstep as (Hd1 & Hf1 & Hs1 & Hc1 & _).
    split; [congruence|]. split.
    + intros n Hn. rewrite Hf.
      * destruct (decide (n = Name)) as [->|Hne]; [|by apply Hf1].
        destruct Hn as [Hn|Hn]; [exfalso; apply Hn; by left|by rewrite Hs1].
      * destruct Hn as [Hn|Hn]; [left|by right]. intros Hin. apply Hn. by right.
    + intros n e e' Hn Hn'.
      assert (is_Some (Objects w1 !! n)) as [e1 He1].
      { apply elem_of_dom. rewrite Hd1. by apply elem_of_dom. }
      rewrite (Hc n e1 e' He1 Hn'). by eapply Hc1.
Qed.

Lemma step_owned (Name n : FName) (w w' : World P) :
  PropagateExpressions_step plugin eng Parent Exports M bCheckOuter bSubgraph Name w = Done w' ->
  Owned Parent w n -> Owned Parent w' n.
Proof.
  intros Hstep Hown.
  pose proof (step_objects _ _ _ Hstep) as (_ & Hf & Hs & _ & Hnew).
  destruct (decide (n = Name)) as [->|Hne].
  - destruct (Visited Parent Exports M bCheckOuter Name) eqn:Hv.
    + apply Hnew. by eexists.
    + unfold Owned in *. by rewrite (Hs eq_refl).
  - unfold Owned in *. destruct (OwnerField Parent); [|done]. by rewrite Hf.
Qed.

Lemma propagate_owned (names : list FName) :
  forall w w' : World P,
  PropagateExpressions plugin eng Parent names Exports M bCheckOuter bSubgraph w = Done w' ->
  (forall n, Owned Parent w n -> Owned Parent w' n)
  /\ (forall n, n ∈ names -> is_Some (Visited Parent Exports M bCheckOuter n) ->
                Owned Parent w' n).
Proof.
  induction names as [|Name rest IH]; intros w w' Hrun; simpl in Hrun.
  - injection Hrun as <-. split; [done|]. by intros n Hn%elem_of_nil.
  - destruct (PropagateExpressions_step _ _ _ _ _ _ _ _ _) as [w1|] eqn:Hstep; [|done].
    simpl in Hrun. apply IH in Hrun as [Hkeep Hnew]. split.
    + intros n Hn. by eapply Hkeep, step_owned.
    + intros n [->|Hin]%elem_of_cons Hv; [|by apply Hnew].
      apply Hkeep. by apply (step_objects _ _ _ Hstep).
Qed.

End PropagationFacts.

(** ** Where a run can fault *)

Section FaultSites.
Context {P : Type}.
Variable plugin : Plugin.
Variable eng : Engine.
Variable Parent : UParent.

Lemma exec_all_fault_stmt (Properties : FJsonObject) (M : gmap FName P) (body : list Stmt) :
  forall (e : UMaterialExpression P) (fx : Effects) (f : Fault),
  exec_all plugin eng Parent Properties M body e fx = Crash f ->
  exists s e1 fx1, s ∈ body /\ exec plugin eng Parent Properties M s e1 fx1 = Crash f.
Proof.
  induction body as [|s rest IH]; intros e fx f Hrun; simpl in Hrun; [done|].
  destruct (exec plugin eng Parent Properties M s e fx) as [[e1 fx1]|f1] eqn:Hs; simpl in Hrun.
  - destruct (IH _ _ _ Hrun) as (s' & e' & fx' & Hin & Hs'). exists s', e', fx'.
    split; [by right|done].
  - injection Hrun as <-. exists s, e, fx. split; [by left|done].
Qed.

(** The loop faults only on an array longer than the one it writes to. *)
Lemma InputsByIndex_fault_long (Properties : FJsonObject) (M : gmap FName P)
    (bound : ArrayBound) (field key : string) (e : UMaterialExpression P) (fx : Effects)
    (f : Fault) :
  exec plugin eng Parent Properties M (InputsByIndex bound field key) e fx = Crash f ->
  exists items, TryGetArrayField Properties key = Some items
                /\ (NumOf eng bound < length items)%nat.
Proof.
  simpl. destruct (TryGetArrayField Properties key) as [items|]; [|done].
  intros Hrun. exists items. split; [done|].
  destruct (decide (NumOf eng bound < length items)%nat) as [|Hshort]; [done|].
  destruct (WriteInputsByIndex_in_bounds plugin M (NumOf eng bound) field items 0 e)
    as [e' He']; [simpl; lia|].
  by rewrite He' in Hrun.
Qed.

Lemma no_loop_in_body (body : list Stmt) (bound : ArrayBound) (field key : string) :
  forallb (fun s => negb (IsIndexedLoop s)) body = true ->
  InputsByIndex bound field key ∈ body -> False.
Proof.
  intros Hall Hin. apply list_elem_of_In in Hin.
  by apply (proj1 (forallb_forall _ _) Hall) in Hin.
Qed.

Ltac find_loop_in_body H :=
  first [ exfalso; exact (no_loop_in_body _ _ _ _ eq_refl H)
        | repeat (apply elem_of_cons in H as [H|H]; [try discriminate H|]);
          try (by apply elem_of_nil in H) ].

Ltac find_loop_in_chain H :=
  repeat (apply elem_of_if in H as [[? H]|H]; [find_loop_in_body H|]);
  find_loop_in_body H.

Ltac this_kind :=
  match goal with
  | Hb : String.eqb _ _ = true |- _ => apply String.eqb_eq in Hb; subst
  end.

(** The three handlers that have the loop. *)
Lemma InputsByIndex_sites (Type_ : FName) (Class_ : option UClass)
    (bound : ArrayBound) (field key : string) :
  InputsByIndex bound field key
    ∈ KindStatements Type_ ++ ParentClassStatements eng Class_
      ++ MaterialGraphNode_ExpressionWrapper eng Class_ ->
  (Type_, bound) ∈ SwitchKinds /\ field = "Inputs" /\ key = "Inputs".
Proof.
  unfold KindStatements, ParentClassStatements, MaterialGraphNode_ExpressionWrapper.
  rewrite !elem_of_app.
  intros [[H|[H|[H|[H|H]]]]|[[H|H]|[H|[H|H]]]].
  - unfold Chain1 in H. find_loop_in_chain H.
  - unfold RuntimeVirtualTextureSample in H. find_loop_in_chain H.
  - unfold RuntimeVirtualTextureSampleParameter in H. find_loop_in_chain H.
  - unfold Chain2 in H. find_loop_in_chain H.
    injection H as -> -> ->. this_kind. split; [|done]. unfold SwitchKinds. in_list.
  - unfold Chain3 in H. find_loop_in_chain H.
    + injection H as -> -> ->. this_kind. split; [|done]. unfold SwitchKinds. in_list.
    + injection H as -> -> ->. this_kind. split; [|done]. unfold SwitchKinds. in_list.
  - find_loop_in_chain H.
  - find_loop_in_chain H.
  - find_loop_in_chain H.
  - find_loop_in_chain H.
  - find_loop_in_chain H.
Qed.

Lemma step_fault_site (Exports : gmap FName FImportData) (M : gmap FName P)
    (bCheckOuter bSubgraph : bool) (Name : FName) (data : FImportData) (w : World P)
    (f : Fault) :
  Exports !! Name = Some data ->
  Backed M w ->
  PropagateExpressions_step plugin eng Parent Exports M bCheckOuter bSubgraph Name w = Crash f ->
  exists bound items,
    (Type_ data, bound) ∈ SwitchKinds
    /\ TryGetArrayField (GetObjectField (Json data) "Properties") "Inputs" = Some items
    /\ (NumOf eng bound < length items)%nat.
Proof.
  intros Hdata Hb Hstep. unfold PropagateExpressions_step in Hstep. rewrite Hdata in Hstep.
  destruct (M !! Name) as [Expression_|] eqn:HM; [|done].
  destruct (SkippedByOuter Parent bCheckOuter data); [done|].
  destruct (Hb _ _ HM) as [e He]. rewrite He in Hstep.
  unfold bind in Hstep.
  assert (exists s e1 fx1,
            s ∈ KindStatements (Type_ data) ++ ParentClassStatements eng (Class e)
                ++ MaterialGraphNode_ExpressionWrapper eng (Class e)
            /\ exec plugin eng Parent (GetObjectField (Json data) "Properties") M s e1 fx1
               = Crash f) as (s & e1 & fx1 & Hin & Hs).
  { destruct (exec_all _ _ _ _ _ _ _ _) as [[e1 fx1]|f1] eqn:H1.
    - destruct (exec_all _ _ _ _ _ (MaterialGraphNode_ExpressionWrapper _ _) _ _)
        as [[e2 fx2]|f2] eqn:H2; [done|].
      injection Hstep as <-.
      destruct (exec_all_fault_stmt _ _ _ _ _ _ H2) as (s & e' & fx' & Hin & Hs).
      exists s, e', fx'. split; [|done].
      rewrite app_assoc. apply elem_of_app. by right.
    - injection Hstep as <-.
      destruct (exec_all_fault_stmt _ _ _ _ _ _ H1) as (s & e' & fx' & Hin & Hs).
      exists s, e', fx'. split; [|done]. rewrite app_assoc. apply elem_of_app. by left. }
  destruct (exec_fault _ _ _ _ _ _ _ _ _ Hs) as [_ (bound & field & key & ->)].
  apply InputsByIndex_sites in Hin as (Hkind & -> & ->).
  apply InputsByIndex_fault_long in Hs as (items & Hitems & Hlong).
  by exists bound, items.
Qed.

Lemma propagate_fault_site (Exports : gmap FName FImportData) (M : gmap FName P)
    (bCheckOuter bSubgraph : bool) (names : list FName) :
  forall (w : World P) (f : Fault),
  (forall Name, Name ∈ names -> is_Some (Exports !! Name)) ->
  Backed M w ->
  PropagateExpressions plugin eng Parent names Exports M bCheckOuter bSubgraph w = Crash f ->
  exists Name data bound items,
    Name ∈ names /\ Exports !! Name = Some data
    /\ (Type_ data, bound) ∈ SwitchKinds
    /\ TryGetArrayField (GetObjectField (Json data) "Properties") "Inputs" = Some items
    /\ (NumOf eng bound < length items)%nat.
Proof.
  induction names as [|Name rest IH]; intros w f Hnames Hb Hrun; simpl in Hrun; [done|].
  destruct (PropagateExpressions_step _ _ _ _ _ _ _ _ _) as [w1|f1] eqn:Hstep; simpl in Hrun.
  - destruct (IH w1 f) as (n & data & bound & items & Hin & Hrest); [| |done|].
    + intros n Hn. apply Hnames. by right.
    + by eapply PropagateExpressions_step_backed.
    + exists n, data, bound, items. split; [by right|done].
  - destruct (Hnames Name) as [data Hdata]; [by left|].
    destruct (step_fault_site _ _ _ _ _ _ _ _ Hdata Hb Hstep) as (bound & items & Hrest).
    exists Name, data, bound, items. split; [by left|done].
Qed.

End FaultSites.

(** An entry of the index of the exports is the record of an export. *)
Lemma index_lookup (Outer_ : string) (records : list FJsonValue) :
  forall (m : gmap FName FImportData) (Name : FName) (data : FImportData),
  foldl (fun m Value => <[ExportName Value := ImportDataOf Outer_ Value]> m) m records !! Name
  = Some data ->
  m !! Name = Some data
  \/ exists Value, Value ∈ records /\ ExportName Value = Name
                   /\ data = ImportDataOf Outer_ Value.
Proof.
  induction records as [|Value rest IH]; intros m Name data Hlook; simpl in Hlook; [by left|].
  apply IH in Hlook as [Hlook|(V & Hin & Hname & Hdata)].
  - destruct (decide (ExportName Value = Name)) as [Heq|Hne].
    + rewrite <- Heq, lookup_insert_eq in Hlook. injection Hlook as <-.
      right. exists Value. split; [by left|done].
    + rewrite lookup_insert_ne in Hlook by done. by left.
  - right. exists V. split; [by right|done].
Qed.

(** ** Properties of the passes *)

(** X1.  Provided [NewObject] makes no object of a null class, every
    expression an import constructs was made of the class found under the
    name of its kind (so each handler is handed an object of its kind), and
    the import can end in a fault only through a switch over a fixed-size
    array whose JSON lists more inputs than the array holds: if the three
    passes over a list of exports fault, the fault is an out-of-bounds
    write, and one of the exports is a quality, feature-level or
    shading-path switch whose [Inputs] array is longer than the array of
    that switch. *)
Theorem import_faults_only_on_a_long_switch
    (P : Type) (plugin : Plugin) (eng : Engine)
    (NewObject : option UClass -> FName -> option P) (Parent : UParent)
    (Unit_ : string) (Exports_ : list FJsonValue) (bCheckOuter bSubgraph : bool)
    (Hclass : forall Name : FName, NewObject None Name = None) :
  let run := ThreePasses plugin eng NewObject Parent Unit_ Exports_ bCheckOuter bSubgraph in
  (forall (Name : FName) (Expression : P),
     snd (fst run) !! Name = Some Expression ->
     exists data Class_,
       OutExports (fst (fst run)) !! Name = Some data
       /\ FindExpressionClass eng (Type_ data) = Some Class_
       /\ NewObject (Some Class_) Name = Some Expression)
  /\ match snd run with
     | Crash f =>
         f = OutOfBounds
         /\ exists Value bound items,
              Value ∈ Exports_
              /\ (GetStringField (AsObject Value) "Type", bound) ∈ SwitchKinds
              /\ TryGetArrayField (GetObjectField (AsObject Value) "Properties") "Inputs"
                 = Some items
              /\ (NumOf eng bound < length items)%nat
     | Done _ => True
     end.
Proof.
  cbv zeta. unfold ThreePasses. cbn [fst snd]. split.
  { intros Name Expression Hmade. rewrite ConstructExpressions_lookup in Hmade.
    unfold Made, Constructed, CreateEmptyExpression in Hmade.
    destruct (bool_decide (Name ∈ _)); [|done].
    destruct (OutExports _ !! Name) as [data|]; [|done].
    destruct (String.eqb (Outer data) (ParentName Parent)); [|done].
    destruct (bool_decide (Type_ data ∈ IgnoredExpressions plugin)); [done|].
    cbn [fst] in Hmade.
    destruct (FindExpressionClass eng (Type_ data)) as [Class_|] eqn:Hfound.
    - exists data, Class_. split; [done|]. split; [done|].
      by destruct (NewObject (Some Class_) Name).
    - by rewrite Hclass in Hmade. }
  destruct (PropagateExpressions _ _ _ _ _ _ _ _ _) as [w|f] eqn:Hrun; [done|].
  assert (forall Name,
            Name ∈ ExpressionNames (FindEditorOnlyData Exports_ Unit_ (ParentName Parent) ∅ []) ->
            is_Some (OutExports (FindEditorOnlyData Exports_ Unit_ (ParentName Parent) ∅ [])
                     !! Name)) as Hindexed.
  { intros Name. apply partition_names_indexed. }
  split.
  - eapply PropagateExpressions_fault; [exact Hindexed| |exact Hrun].
    apply ConstructExpressions_backed.
  - destruct (propagate_fault_site _ _ _ _ _ _ _ _ _ _ Hindexed
                (ConstructExpressions_backed _ _ _ _ _ _ _) Hrun)
      as (Name & data & bound & items & _ & Hdata & Hkind & Hitems & Hlong).
    unfold FindEditorOnlyData in Hdata.
    destruct (partition_fold Unit_ (ParentName Parent) Exports_
                {| EditorOnlyData := None; OutExports := ∅; ExpressionNames := [] |})
      as (_ & He & _).
    cbv zeta in He. rewrite He in Hdata. cbn [OutExports] in Hdata.
    apply index_lookup in Hdata as [Hdata|(Value & Hin & _ & ->)];
      [by rewrite lookup_empty in Hdata|].
    exists Value, bound, items. split; [|done].
    unfold NodeExports in Hin. by apply list_elem_of_filter in Hin as [_ Hin].
Qed.

(** X1 at work: a quality switch with five inputs, each naming the constant
    beside it, imported into an engine whose quality levels are four. *)
Lemma import_fault_witness :
  let Input_ := JObject [("ExpressionName", JString "N2")] in
  let Exports_ :=
    [Sample.export "N2" "MaterialExpressionConstant" [("R", JNumber 3)];
     Sample.export "N1" "MaterialExpressionQualitySwitch"
       [("Inputs", JArray [Input_; Input_; Input_; Input_; Input_])]] in
  let run :=
    ThreePasses Sample.plugin Sample.engine (Sample.NewObject_at 0) Sample.material
      "Material" Exports_ true false in
  snd run = Crash OutOfBounds
  /\ (forall (Name : FName) (Expression : nat * FName),
        snd (fst run) !! Name = Some Expression ->
        exists data Class_,
          OutExports (fst (fst run)) !! Name = Some data
          /\ FindExpressionClass Sample.engine (Type_ data) = Some Class_
          /\ Sample.NewObject_at 0 (Some Class_) Name = Some Expression)
  /\ match snd run with
     | Crash f =>
         f = OutOfBounds
         /\ exists Value bound items,
              Value ∈ Exports_
              /\ (GetStringField (AsObject Value) "Type", bound) ∈ SwitchKinds
              /\ TryGetArrayField (GetObjectField (AsObject Value) "Properties") "Inputs"
                 = Some items
              /\ (NumOf Sample.engine bound < length items)%nat
     | Done _ => True
     end.
Proof.
  cbv zeta. split; [vm_compute; reflexivity|].
  apply (import_faults_only_on_a_long_switch (nat * FName) Sample.plugin Sample.engine
           (Sample.NewObject_at 0) Sample.material "Material").
  reflexivity.
Defined.

(** X2.  The propagation neither creates nor removes an object and never
    changes the class of one; the object of a name that is not in
    [ExpressionNames], has no expression in the map or is skipped by the
    [Outer] test is exactly as it was. *)
Theorem propagation_keeps_the_objects :
  forall (P : Type) (plugin : Plugin) (eng : Engine) (Parent : UParent)
         (names : list FName) (Exports : gmap FName FImportData) (M : gmap FName P)
         (bCheckOuter bSubgraph : bool) (w : World P),
  match PropagateExpressions plugin eng Parent names Exports M bCheckOuter bSubgraph w with
  | Done w' =>
      dom (Objects w') = dom (Objects w)
      /\ (forall n, n ∉ names \/ Visited Parent Exports M bCheckOuter n = None ->
                    Objects w' !! n = Objects w !! n)
      /\ (forall n e e', Objects w !! n = Some e -> Objects w' !! n = Some e' ->
                         Class e' = Class e)
  | Crash _ => True
  end.
Proof.
  intros. destruct (PropagateExpressions _ _ _ _ _ _ _ _ _) as [w'|] eqn:Hrun; [|done].
  by eapply propagate_objects.
Qed.

(** X3.  After a propagation that completes, every expression it has
    visited points back to [Parent]: its member [Material] holds the parent
    when the parent is a material, its member [Function] when the parent is
    a material function.  (The wrapper sets the owner, and nothing that runs
    after it, for this name or for a later one, assigns that member.) *)
Theorem visited_expressions_point_back_to_parent :
  forall (P : Type) (plugin : Plugin) (eng : Engine) (Parent : UParent)
         (names : list FName) (Exports : gmap FName FImportData) (M : gmap FName P)
         (bCheckOuter bSubgraph : bool) (w : World P),
  match PropagateExpressions plugin eng Parent names Exports M bCheckOuter bSubgraph w with
  | Done w' =>
      forall n, n ∈ names -> is_Some (Visited Parent Exports M bCheckOuter n) ->
        match Kind Parent with
        | IsMaterial =>
            exists e, Objects w' !! n = Some e
                      /\ Fields e !! "Material" = Some (VOwner (ParentName Parent))
        | IsMaterialFunction =>
            exists e, Objects w' !! n = Some e
                      /\ Fields e !! "Function" = Some (VOwner (ParentName Parent))
        | IsOtherObject => True
        end
  | Crash _ => True
  end.
Proof.
  intros. destruct (PropagateExpressions _ _ _ _ _ _ _ _ _) as [w'|] eqn:Hrun; [|done].
  intros n Hin Hv.
  pose proof (proj2 (propagate_owned _ _ _ _ _ _ _ _ _ _ Hrun) n Hin Hv) as Hown.
  unfold Owned, OwnerField in Hown. by destruct (Kind Parent).
Qed.

(** ** Properties of the handlers *)

Section HandlerFacts.
Context {P : Type}.
Variable plugin : Plugin.
Variable eng : Engine.
Variable Parent : UParent.
Variable Properties : FJsonObject.
Variable M : gmap FName P.

Lemma WriteInputsByIndex_array (Num : nat) (field : string) (items : list FJsonValue) :
  forall (i : nat) (e e' : UMaterialExpression P) (l : list (FExpressionInput P)),
  Fields e !! field = Some (VInputArray l) ->
  WriteInputsByIndex plugin M Num field items i e = Done e' ->
  Fields e' !! field = Some (VInputArray (GetInputArray Num e' field)).
Proof.
  induction items as [|V rest IH]; intros i e e' l Hl Hrun; simpl in Hrun.
  - injection Hrun as <-. unfold GetInputArray. by rewrite Hl.
  - destruct (M !! _); [|by eapply IH].
    destruct (decide (i < Num)%nat); [|done].
    eapply IH; [|exact Hrun]. simpl. apply lookup_insert_eq.
Qed.

Lemma length_SetNumZeroed (n : nat) (l : list (FExpressionInput P)) :
  length (SetNumZeroed n l) = n.
Proof. unfold SetNumZeroed. rewrite length_app, length_take, length_replicate. lia. Qed.

Lemma lookup_SetNumZeroed (n k : nat) (l : list (FExpressionInput P)) :
  (k < n)%nat ->
  SetNumZeroed n l !! k = Some (default FExpressionInput_default (l !! k)).
Proof.
  intros Hk. unfold SetNumZeroed.
  destruct (decide (k < length l)%nat) as [Hin|Hout].
  - rewrite lookup_app_l by (rewrite length_take; lia).
    rewrite lookup_take_lt by done.
    destruct (lookup_lt_is_Some_2 l k Hin) as [x Hx]. by rewrite Hx.
  - rewrite lookup_app_r by (rewrite length_take; lia).
    rewrite length_take, lookup_replicate_2 by lia.
    by rewrite lookup_ge_None_2 by lia.
Qed.

(** The handler of a switch over a fixed-size array completes for every
    map exactly when the array of the JSON is not longer. *)
Lemma switch_handler_safe_iff (somewhere : P) (first : Stmt) (bound : ArrayBound) :
  (forall (M' : gmap FName P) e fx, exists r,
     exec plugin eng Parent Properties M' first e fx = Done r) ->
  (forall (M' : gmap FName P) (e : UMaterialExpression P) (fx : Effects),
     exists r, exec_all plugin eng Parent Properties M'
                 [first; InputsByIndex bound "Inputs" "Inputs"] e fx = Done r)
  <-> (forall items, TryGetArrayField Properties "Inputs" = Some items ->
                     (length items <= NumOf eng bound)%nat).
Proof.
  intros Hfirst. split.
  - intros Hsafe items Hitems.
    destruct (decide (length items <= NumOf eng bound)%nat) as [|Hlong]; [done|]. exfalso.
    destruct (lookup_lt_is_Some_2 items (NumOf eng bound)) as [InputValue Hentry]; [lia|].
    set (Name := GetExpressionName plugin (AsObject InputValue) (ExpressionKey plugin)).
    destruct (Hsafe {[Name := somewhere]} {| Class := None; Fields := ∅ |}
                {| Recovered := []; Log := [] |}) as [r Hrun].
    simpl in Hrun.
    destruct (exec plugin eng Parent Properties _ first _ _) as [[e1 fx1]|]; [|done].
    simpl in Hrun. rewrite Hitems in Hrun.
    rewrite (WriteInputsByIndex_out_of_bounds plugin _ (NumOf eng bound) "Inputs" items 0
               (NumOf eng bound)) in Hrun; [done|lia|].
    unfold WrittenAt. rewrite Hentry. fold Name. rewrite lookup_singleton_eq. by eexists.
  - intros Hshort M' e fx. simpl.
    destruct (Hfirst M' e fx) as [[e1 fx1] ->]. simpl.
    destruct (TryGetArrayField Properties "Inputs") as [items|] eqn:Hitems; [|by eexists].
    destruct (WriteInputsByIndex_in_bounds plugin M' (NumOf eng bound) "Inputs" items 0 e1)
      as [e2 ->]; [simpl; by apply Hshort|].
    by eexists.
Qed.

Lemma lookup_SetFieldIf {A : Type} (field : string) (mk : A -> FieldValue P)
    (found : option A) (e : UMaterialExpression P) :
  Fields (SetFieldIf field mk found e) !! field
  = match found with Some a => Some (mk a) | None => Fields e !! field end.
Proof. destruct found; [apply lookup_insert_eq|done]. Qed.

Lemma lookup_SetField (field : string) (v : FieldValue P) (e : UMaterialExpression P) :
  Fields (SetField field v e) !! field = Some v.
Proof. apply lookup_insert_eq. Qed.

End HandlerFacts.

(** Rewriting a member lookup through the assignments of other members. *)
Ltac through_frames :=
  repeat first [ rewrite SetFieldIf_frame by done | rewrite SetField_frame by done ].

(** X4.  The handlers of the feature-level switch and of the
    shading-path switch have the loop of the quality switch, over their own
    arrays: each completes, whatever the created-expression map is, exactly
    when the [Inputs] array of the property bag has at most as many entries
    as the array of the switch. *)
Theorem other_switches_inputs_bound :
  forall (P : Type) (plugin : Plugin) (eng : Engine) (Parent : UParent) (somewhere : P)
         (Properties : FJsonObject),
  ((forall (M : gmap FName P) (e : UMaterialExpression P) (fx : Effects),
      exists r, exec_all plugin eng Parent Properties M
                  (KindStatements "MaterialExpressionFeatureLevelSwitch") e fx = Done r)
   <-> (forall items, TryGetArrayField Properties "Inputs" = Some items ->
                      (length items <= FeatureLevelNum eng)%nat))
  /\ ((forall (M : gmap FName P) (e : UMaterialExpression P) (fx : Effects),
         exists r, exec_all plugin eng Parent Properties M
                     (KindStatements "MaterialExpressionShadingPathSwitch") e fx = Done r)
      <-> (forall items, TryGetArrayField Properties "Inputs" = Some items ->
                         (length items <= ShadingPathNum eng)%nat)).
Proof.
  intros. split.
  - apply (switch_handler_safe_iff plugin eng Parent Properties somewhere
             (AssignInputIfFound "Default" "Default") ERHIFeatureLevel_Num).
    intros. by eexists.
  - apply (switch_handler_safe_iff plugin eng Parent Properties somewhere
             (AssignInputIfFound "Default" "Default") ERHIShadingPath_Num).
    intros. by eexists.
Qed.

(** X5.  The handler of the set-material-attributes expression sizes the
    array [Inputs] to the JSON array before it writes by index, so it never
    leaves the array: the statement always completes, and with an [Inputs]
    array in the bag the member has exactly one input per entry, the input
    of the entry where the entry resolves and otherwise what the array held
    at that index, a default input where it held nothing. *)
Theorem set_material_attributes_inputs_fit :
  forall (P : Type) (plugin : Plugin) (eng : Engine) (Parent : UParent)
         (Properties : FJsonObject) (M : gmap FName P) (e : UMaterialExpression P)
         (fx : Effects),
  KindStatements "MaterialExpressionSetMaterialAttributes"
  = [InputsResized "Inputs" "Inputs"; SetStrings "AttributeSetTypes" "AttributeSetTypes"]
  /\ exists e',
       exec plugin eng Parent Properties M (InputsResized "Inputs" "Inputs") e fx
       = Done (e', fx)
       /\ match TryGetArrayField Properties "Inputs" with
          | None => e' = e
          | Some items =>
              exists l,
                Fields e' !! "Inputs" = Some (VInputArray l)
                /\ length l = length items
                /\ forall k, (k < length items)%nat ->
                     l !! k
                     = Some match WrittenAt plugin M items k with
                            | Some written => written
                            | None => default FExpressionInput_default
                                        (GetInputArray 0 e "Inputs" !! k)
                            end
          end.
Proof.
  intros. split; [reflexivity|]. simpl.
  destruct (TryGetArrayField Properties "Inputs") as [items|]; [|by eexists].
  set (e0 := SetField "Inputs" _ e).
  destruct (WriteInputsByIndex_in_bounds plugin M (length items) "Inputs" items 0 e0)
    as [e1 Hrun]; [simpl; lia|].
  rewrite Hrun. simpl. exists e1. split; [done|].
  assert (GetInputArray (length items) e0 "Inputs"
          = SetNumZeroed (length items) (GetInputArray 0 e "Inputs")) as Harr.
  { unfold e0. apply GetInputArray_SetField. }
  exists (GetInputArray (length items) e1 "Inputs"). split.
  { eapply WriteInputsByIndex_array; [|exact Hrun]. unfold e0. apply lookup_SetField. }
  assert (length (GetInputArray (length items) e0 "Inputs") = length items) as Hlen.
  { rewrite Harr. apply length_SetNumZeroed. }
  split.
  - by destruct (WriteInputsByIndex_content plugin M (length items) "Inputs" items 0 e0 e1 0
                   Hlen Hrun) as (Hlen1 & _).
  - intros k Hk.
    destruct (WriteInputsByIndex_content plugin M (length items) "Inputs" items 0 e0 e1 k
                Hlen Hrun) as (_ & Hat & _).
    simpl in Hat. rewrite Hat.
    destruct (WrittenAt plugin M items k); [done|].
    rewrite Harr. by apply lookup_SetNumZeroed.
Qed.

(** X6.  The handler of the static component mask parameter resets the
    four defaults before it reads them: whatever the expression held, each
    of [DefaultR], [DefaultG], [DefaultB], [DefaultA] ends as the boolean of
    the bag, and as false when the bag has none. *)
Theorem static_component_mask_defaults_are_reset :
  forall (P : Type) (plugin : Plugin) (eng : Engine) (Parent : UParent)
         (Properties : FJsonObject) (M : gmap FName P) (e : UMaterialExpression P)
         (fx : Effects),
  exists e',
    exec_all plugin eng Parent Properties M
      (KindStatements "MaterialExpressionStaticComponentMaskParameter") e fx = Done (e', fx)
    /\ forall channel, channel ∈ ["DefaultR"; "DefaultG"; "DefaultB"; "DefaultA"] ->
         Fields e' !! channel
         = Some (VBool (default false (TryGetBoolField Properties channel))).
Proof.
  intros. eexists. split; [reflexivity|].
  intros channel Hin. cbn [fst snd].
  repeat (apply elem_of_cons in Hin as [->|Hin]); [| | | |by apply elem_of_nil in Hin];
    through_frames; rewrite lookup_SetFieldIf;
    (destruct (TryGetBoolField Properties _); [done|]);
    through_frames; by rewrite lookup_SetField.
Qed.

Section HandlerRuns.
Context {P : Type}.
Variable plugin : Plugin.
Variable eng : Engine.
Variable Parent : UParent.
Variable Properties : FJsonObject.
Variable M : gmap FName P.

(** A body that has no loop over a fixed-size array completes. *)
Lemma exec_all_completes (body : list Stmt) (e : UMaterialExpression P) (fx : Effects) :
  forallb (fun s => negb (IsIndexedLoop s)) body = true ->
  exists e' fx', exec_all plugin eng Parent Properties M body e fx = Done (e', fx').
Proof.
  intros Hall.
  destruct (exec_all_total plugin eng Parent Properties M body) with (e := e) (fx := fx)
    as [[e' fx'] Hrun]; [|by exists e', fx'].
  intros bound field key Hin. by eapply no_loop_in_body.
Qed.

(** What a member holds after a body, read at the statement that assigns
    it last. *)
Lemma exec_all_middle (l1 l2 : list Stmt) (s : Stmt) (field : string)
    (e e' : UMaterialExpression P) (fx fx' : Effects) :
  exec_all plugin eng Parent Properties M (l1 ++ s :: l2) e fx = Done (e', fx') ->
  field ∉ l2 ≫= Writes ->
  exists e1 fx1 e2 fx2,
    exec_all plugin eng Parent Properties M l1 e fx = Done (e1, fx1)
    /\ exec plugin eng Parent Properties M s e1 fx1 = Done (e2, fx2)
    /\ Fields e' !! field = Fields e2 !! field.
Proof.
  intros Hrun Hfield. rewrite exec_all_app in Hrun. unfold bind in Hrun.
  destruct (exec_all plugin eng Parent Properties M l1 e fx) as [[e1 fx1]|] eqn:H1; [|done].
  cbn [exec_all fst snd] in Hrun. unfold bind in Hrun.
  destruct (exec plugin eng Parent Properties M s e1 fx1) as [[e2 fx2]|] eqn:Hs; [|done].
  cbn [fst snd] in Hrun.
  apply (exec_all_frame _ _ _ _ _ _ field) in Hrun as [_ Hframe].
  exists e1, fx1, e2, fx2. split; [done|]. split; [done|]. by apply Hframe.
Qed.

Lemma exec_all_frame_fields (body : list Stmt) (field : string)
    (e e' : UMaterialExpression P) (fx fx' : Effects) :
  exec_all plugin eng Parent Properties M body e fx = Done (e', fx') ->
  field ∉ body ≫= Writes -> Fields e' !! field = Fields e !! field.
Proof. intros Hrun. by apply (exec_all_frame _ _ _ _ _ _ field) in Hrun as [_ Hframe]. Qed.

(** The structs of an array, seen through an observation of one struct
    that depends on the entry only. *)
Lemma MakeStructs_map {B : Type} (g : Struct P -> B) (h : FJsonObject -> B)
    (skipNull : bool) (members : list MemberStmt) (items : list FJsonValue) :
  (forall Object_ fx, g (fst (exec_members plugin eng M Object_ members ∅ fx)) = h Object_) ->
  forall fx : Effects,
  g <$> fst (MakeStructs plugin eng M skipNull members items fx)
  = (fun V => h (AsObject V)) <$> filter (fun V => (skipNull && IsNull V) = false) items.
Proof.
  intros Hg. induction items as [|V rest IH]; intros fx; simpl; [done|].
  rewrite filter_cons. destruct (skipNull && IsNull V) eqn:Hskip.
  - rewrite decide_False by done. apply IH.
  - rewrite decide_True by done. cbn [fst fmap list_fmap]. by rewrite Hg, IH.
Qed.

(** The loads of the structs of an array: one for each entry that is kept
    and has the key, in the order of the array. *)
Lemma MakeStructs_log (loads : FJsonObject -> list Event)
    (skipNull : bool) (members : list MemberStmt) (items : list FJsonValue) :
  (forall Object_ fx,
     Recovered (snd (exec_members plugin eng M Object_ members ∅ fx)) = Recovered fx
     /\ Log (snd (exec_members plugin eng M Object_ members ∅ fx))
        = Log fx ++ loads Object_) ->
  forall fx : Effects,
  Recovered (snd (MakeStructs plugin eng M skipNull members items fx)) = Recovered fx
  /\ Log (snd (MakeStructs plugin eng M skipNull members items fx))
     = Log fx ++ (filter (fun V => (skipNull && IsNull V) = false) items
                  ≫= fun V => loads (AsObject V)).
Proof.
  intros Hm. induction items as [|V rest IH]; intros fx; simpl.
  - by rewrite app_nil_r.
  - rewrite filter_cons. destruct (skipNull && IsNull V) eqn:Hskip.
    + rewrite decide_False by done. apply IH.
    + rewrite decide_True by done. cbn [snd].
      destruct (IH (snd (exec_members plugin eng M (AsObject V) members ∅ fx))) as [Hr Hl].
      destruct (Hm (AsObject V) fx) as [Hr1 Hl1].
      split; [congruence|]. rewrite Hl, Hl1. simpl. by rewrite <- app_assoc.
Qed.

Lemma FindExpressionInput_Expression (JsonProperties : FJsonObject) (key : string) :
  Expression (default FExpressionInput_default (FindExpressionInput plugin M JsonProperties key))
  = TryGetObjectField JsonProperties key
    ≫= fun Object_ => M !! GetExpressionName plugin Object_ (ExpressionKey plugin).
Proof.
  unfold FindExpressionInput.
  destruct (TryGetObjectField JsonProperties key) as [Object_|]; simpl; [|done].
  destruct (M !! _) as [p|]; simpl; [|done]. apply PopulateExpressionInput_Expression.
Qed.

End HandlerRuns.

(** A member that a list of statements written out does not assign. *)
Ltac not_written := apply (bool_decide_unpack _); by vm_compute.

(** X7.  The smooth step and the clamp both accept two spellings of
    their bounds, with opposite rules.  The smooth step wires [Min] from the
    key [Min] and turns to the key [min] whenever that did not resolve to an
    expression.  The clamp reads the key [min] and turns to [Min] only when
    [min] holds no object: a [min] that holds an object which does not
    resolve leaves the member as it was, whatever [Min] holds. *)
Theorem smooth_step_and_clamp_read_two_spellings :
  forall (P : Type) (plugin : Plugin) (eng : Engine) (Parent : UParent)
         (Properties : FJsonObject) (M : gmap FName P) (e : UMaterialExpression P)
         (fx : Effects),
  (exists e' i,
     exec_all plugin eng Parent Properties M (KindStatements "MaterialExpressionSmoothStep")
       e fx = Done (e', fx)
     /\ Fields e' !! "Min" = Some (VInput i)
     /\ Expression i
        = match Expression (CreateExpressionInput plugin Properties M "Min") with
          | Some p => Some p
          | None => Expression (CreateExpressionInput plugin Properties M "min")
          end)
  /\ (exists e',
        exec_all plugin eng Parent Properties M (KindStatements "MaterialExpressionClamp")
          e fx = Done (e', fx)
        /\ Fields e' !! "Min"
           = match TryGetObjectField Properties "min" with
             | Some _ =>
                 match FindExpressionInput plugin M Properties "min" with
                 | Some i => Some (VInput i)
                 | None => Fields e !! "Min"
                 end
             | None =>
                 match FindExpressionInput plugin M Properties "Min" with
                 | Some i => Some (VInput i)
                 | None => Fields e !! "Min"
                 end
             end).
Proof.
  intros. split.
  - change (KindStatements "MaterialExpressionSmoothStep")
      with [AssignInputEither "Min" "Min" "min"; AssignInputEither "Max" "Max" "max";
            AssignInput "Value" "Value"; TryNumber "ConstMin" "ConstMin";
            TryNumber "ConstMax" "ConstMax"; TryNumber "ConstValue" "ConstValue"].
    cbn [exec_all]. unfold exec at 1. cbv zeta.
    destruct (Expression (CreateExpressionInput plugin Properties M "Min")) as [p|] eqn:Hmin;
      cbn [bind fst snd];
      (unfold exec at 1; cbv zeta;
       destruct (Expression (CreateExpressionInput plugin Properties M "Max"));
       cbn [bind fst snd exec];
       eexists _, _; (split; [reflexivity|]);
       through_frames; rewrite lookup_SetField; done).
  - change (KindStatements "MaterialExpressionClamp")
      with [AssignInputIfFound "Input" "Input"; AssignInputIfFoundEither "Min" "min" "Min";
            AssignInputIfFoundEither "Max" "max" "Max";
            TryEnumerator "ClampMode" "ClampMode" ["CMODE_Clamp"; "CMODE_ClampMin"; "CMODE_ClampMax"];
            TryNumber "MinDefault" "MinDefault"; TryNumber "MaxDefault" "MaxDefault"].
    cbn [exec_all exec bind fst snd].
    destruct (TryGetStringField Properties "ClampMode") as [V|]; cbn [bind fst snd];
      (eexists; split; [reflexivity|]);
      through_frames; rewrite lookup_SetFieldIf; through_frames;
      unfold FindExpressionInputEither;
      destruct (TryGetObjectField Properties "min"); reflexivity.
Qed.

(** X8.  The handler of the material function call always completes, and
    it keeps the pins in step with the JSON: the member [FunctionInputs] has
    one pin for each entry of the array of that name, at the same index,
    whether the entry resolves or not (a null entry gives a default pin);
    the pin carries the identifier of its entry and is wired to the
    expression the entry's [Input] names, if the map has it.  The member
    [FunctionOutputs] has one output for each entry as well. *)
Theorem function_call_pins_follow_the_json :
  forall (P : Type) (plugin : Plugin) (eng : Engine) (Parent : UParent)
         (Properties : FJsonObject) (M : gmap FName P) (e : UMaterialExpression P)
         (fx : Effects),
  exists e' fx',
    exec_all plugin eng Parent Properties M
      (KindStatements "MaterialExpressionMaterialFunctionCall") e fx = Done (e', fx')
    /\ match TryGetArrayField Properties "FunctionInputs" with
       | Some items =>
           exists pins,
             Fields e' !! "FunctionInputs" = Some (VFunctionInputs pins)
             /\ length pins = length items
             /\ forall k V, items !! k = Some V ->
                  exists pin,
                    pins !! k = Some pin
                    /\ ExpressionInputId pin
                       = default "" (TryGetStringField (AsObject V) "ExpressionInputId")
                    /\ Expression (Input pin)
                       = TryGetObjectField (AsObject V) "Input"
                         ≫= fun Object_ =>
                              M !! GetExpressionName plugin Object_ (ExpressionKey plugin)
       | None => Fields e' !! "FunctionInputs" = Fields e !! "FunctionInputs"
       end
    /\ match TryGetArrayField Properties "FunctionOutputs" with
       | Some items =>
           exists outputs,
             Fields e' !! "FunctionOutputs" = Some (VFunctionOutputs outputs)
             /\ length outputs = length items
       | None => Fields e' !! "FunctionOutputs" = Fields e !! "FunctionOutputs"
       end.
Proof.
  intros.
  change (KindStatements "MaterialExpressionMaterialFunctionCall")
    with ([LoadOrRecover "MaterialFunction" "MaterialFunction" "Material Function Missing: "]
          ++ [FunctionInputs "FunctionInputs" "FunctionInputs";
              FunctionOutputs "FunctionOutputs" "FunctionOutputs"]).
  rewrite exec_all_app.
  destruct (exec_all_completes plugin eng Parent Properties M
              [LoadOrRecover "MaterialFunction" "MaterialFunction" "Material Function Missing: "]
              e fx eq_refl) as (e1 & fx1 & Hload).
  rewrite Hload. cbn [bind fst snd exec_all exec].
  eexists _, _. split; [reflexivity|].
  pose proof (exec_all_frame_fields _ _ _ _ _ _ "FunctionInputs" _ _ _ _ Hload
                ltac:(not_written)) as Hin.
  pose proof (exec_all_frame_fields _ _ _ _ _ _ "FunctionOutputs" _ _ _ _ Hload
                ltac:(not_written)) as Hout.
  split.
  - through_frames. rewrite lookup_SetFieldIf.
    destruct (TryGetArrayField Properties "FunctionInputs") as [items|]; [|done].
    eexists. split; [reflexivity|]. split; [by rewrite length_fmap|].
    intros k V Hk. rewrite list_lookup_fmap, Hk. simpl. eexists. split; [reflexivity|].
    split; [done|]. apply FindExpressionInput_Expression.
  - rewrite lookup_SetFieldIf.
    destruct (TryGetArrayField Properties "FunctionOutputs") as [items|].
    + eexists. split; [reflexivity|]. by rewrite length_fmap.
    + by through_frames.
Qed.

(** X9.  The handler of the custom expression always completes, and it
    drops the null entries of [Inputs]: the member has one input for each
    entry that is not null, in the order of the array, so the index of an
    input is the number of non-null entries before its entry; each carries
    the [InputName] of its entry, when the entry has one. *)
Theorem custom_inputs_drop_null_entries :
  forall (P : Type) (plugin : Plugin) (eng : Engine) (Parent : UParent)
         (Properties : FJsonObject) (M : gmap FName P) (e : UMaterialExpression P)
         (fx : Effects),
  exists e' fx',
    exec_all plugin eng Parent Properties M (KindStatements "MaterialExpressionCustom") e fx
    = Done (e', fx')
    /\ match TryGetArrayField Properties "Inputs" with
       | Some items =>
           exists inputs,
             Fields e' !! "Inputs" = Some (VStructs inputs)
             /\ (fun S_ : Struct P => S_ !! "InputName") <$> inputs
                = (fun V => MString <$> TryGetStringField (AsObject V) "InputName")
                    <$> filter (fun V => IsNull V = false) items
       | None => Fields e' !! "Inputs" = Fields e !! "Inputs"
       end.
Proof.
  intros.
  destruct (exec_all_completes plugin eng Parent Properties M
              (KindStatements "MaterialExpressionCustom") e fx eq_refl) as (e' & fx' & Hrun).
  exists e', fx'. split; [done|].
  change (KindStatements "MaterialExpressionCustom")
    with ([TryString "Code" "Code";
           TryEnum "ECustomMaterialOutputType" "OutputType" "OutputType";
           TryString "Description" "Description"]
          ++ SetStructs "Inputs" "Inputs" FCustomInput_members
          :: [SetStructs "AdditionalOutputs" "AdditionalOutputs" FCustomOutput_members;
              SetStructs "AdditionalDefines" "AdditionalDefines" FCustomDefine_members;
              SetStrings "IncludeFilePaths" "IncludeFilePaths"]) in Hrun.
  apply (exec_all_middle _ _ _ _ _ _ _ _ "Inputs") in Hrun
    as (e1 & fx1 & e2 & fx2 & Hbefore & Hs & ->); [|not_written].
  apply (exec_all_frame_fields _ _ _ _ _ _ "Inputs") in Hbefore; [|not_written].
  simpl in Hs.
  destruct (TryGetArrayField Properties "Inputs") as [items|];
    [|injection Hs as <- <-; done].
  injection Hs as <- <-. eexists. split; [apply lookup_SetField|].
  rewrite (MakeStructs_map plugin eng M (fun S_ : Struct P => S_ !! "InputName")
             (fun Object_ => MString <$> TryGetStringField Object_ "InputName")); [done|].
  intros Object_ fx0. unfold FCustomInput_members. cbn [exec_members exec_member fst snd].
  destruct (FindExpressionInput plugin M Object_ "Input"); cbn [fst snd];
    destruct (TryGetStringField Object_ "InputName"); cbn [fst snd];
    by rewrite ?lookup_insert_eq, ?lookup_insert_ne, ?lookup_empty by done.
Qed.

(** X10.  The handler of the landscape physical material output, unlike
    those of the custom expression, the grass output and the layer blend,
    does not pass over a null entry: it adds one input for every entry of
    [Inputs], and it loads the physical material once for each entry that
    has the key, in the order of the array, without calling the recovery
    hook. *)
Theorem physical_material_output_loads_per_entry :
  forall (P : Type) (plugin : Plugin) (eng : Engine) (Parent : UParent)
         (Properties : FJsonObject) (M : gmap FName P) (e : UMaterialExpression P)
         (fx : Effects),
  exists e' fx',
    exec_all plugin eng Parent Properties M
      (KindStatements "MaterialExpressionLandscapePhysicalMaterialOutput") e fx
    = Done (e', fx')
    /\ Recovered fx' = Recovered fx
    /\ match TryGetArrayField Properties "Inputs" with
       | Some items =>
           (exists added,
              Fields e' !! "Inputs" = Some (AddedStructs (Fields e !! "Inputs") added)
              /\ length added = length items)
           /\ Log fx'
              = Log fx
                ++ omap (fun V => EvLoadObject
                                    <$> TryGetObjectField (AsObject V) "PhysicalMaterial")
                     items
       | None => e' = e /\ fx' = fx
       end.
Proof.
  intros.
  change (KindStatements "MaterialExpressionLandscapePhysicalMaterialOutput")
    with [AddStructs false "Inputs" "Inputs" FPhysicalMaterialInput_members].
  cbn [exec_all exec].
  destruct (TryGetArrayField Properties "Inputs") as [items|]; cbn [bind fst snd];
    [|by eexists _, _].
  eexists _, _. split; [reflexivity|].
  destruct (MakeStructs_log plugin eng M
              (fun Object_ =>
                 match TryGetObjectField Object_ "PhysicalMaterial" with
                 | Some descriptor => [EvLoadObject descriptor]
                 | None => []
                 end)
              false FPhysicalMaterialInput_members items) with (fx := fx) as [Hrec Hlog].
  { intros Object_ fx0. unfold FPhysicalMaterialInput_members.
    cbn [exec_members exec_member fst snd].
    destruct (TryGetObjectField Object_ "PhysicalMaterial"); cbn [fst snd];
      destruct (FindExpressionInput plugin M Object_ "Input"); cbn [fst snd];
      by rewrite ?app_nil_r. }
  split; [done|]. split.
  - eexists. split; [apply lookup_SetField|].
    pose proof (MakeStructs_map plugin eng M (fun _ : Struct P => tt) (fun _ => tt)
                  false FPhysicalMaterialInput_members items (fun _ _ => eq_refl) fx) as Hmap.
    apply (f_equal length) in Hmap. rewrite !length_fmap in Hmap. rewrite Hmap.
    f_equal. clear. induction items as [|V rest IH]; [done|].
    rewrite filter_cons, decide_True by done. by rewrite IH.
  - rewrite Hlog. f_equal. clear.
    induction items as [|V rest IH]; [done|].
    rewrite filter_cons, decide_True by done. cbn [mbind list_bind omap list_omap].
    fold (@mbind list _ _ _ (fun V : FJsonValue =>
            match TryGetObjectField (AsObject V) "PhysicalMaterial" with
            | Some descriptor => [EvLoadObject descriptor]
            | None => []
            end) (filter (fun V => (false && IsNull V) = false) rest)).
    rewrite IH.
    by destruct (TryGetObjectField (AsObject V) "PhysicalMaterial").
Qed.

(** ** A reference that names nothing *)

Lemma partition_index (Exports_ : list FJsonValue) (Type_ Outer_ : string) (Name : FName) :
  let part := FindEditorOnlyData Exports_ Type_ Outer_ ∅ [] in
  (Name ∈ ExpressionNames part <-> is_Some (OutExports part !! Name))
  /\ (is_Some (OutExports part !! Name)
      <-> exists Value, Value ∈ NodeExports Type_ Exports_ /\ ExportName Value = Name)
  /\ (forall data, OutExports part !! Name = Some data -> Outer data = Outer_).
Proof.
  cbv zeta. unfold FindEditorOnlyData.
  destruct (partition_fold Type_ Outer_ Exports_
              {| EditorOnlyData := None; OutExports := ∅; ExpressionNames := [] |})
    as (Hn & He & _).
  cbv zeta in Hn, He. rewrite Hn, He. cbn [ExpressionNames OutExports app].
  assert (is_Some (foldl (fun m Value => <[ExportName Value := ImportDataOf Outer_ Value]> m)
                     (∅ : gmap FName FImportData) (NodeExports Type_ Exports_) !! Name)
          <-> Name ∈ ExportName <$> NodeExports Type_ Exports_) as Hdom.
  { rewrite <- elem_of_dom, index_dom, dom_empty_L. set_solver. }
  split; [by rewrite Hdom|]. split.
  - rewrite Hdom, list_elem_of_fmap. split; intros (Value & H1 & H2); by exists Value.
  - intros data Hdata.
    apply index_lookup in Hdata as [Hdata|(Value & _ & _ & ->)]; [|done].
    by rewrite lookup_empty in Hdata.
Qed.

(** X11.  A reference that names no expression is looked up under the
    empty name like any other, and an export without a [Name] is filed under
    the empty name: in a whole import, an input whose reference yields
    [NAME_None] is wired to the expression made for the nameless export, if
    there is one and it was constructed, and is left unwired otherwise. *)
Theorem unnamed_reference_is_wired_to_the_unnamed_export :
  forall (P : Type) (plugin : Plugin) (eng : Engine)
         (NewObject : option UClass -> FName -> option P) (Parent : UParent)
         (Unit_ : string) (Exports_ : list FJsonValue) (bCheckOuter bSubgraph : bool)
         (Properties Object_ : FJsonObject) (key : string),
  TryGetObjectField Properties key = Some Object_ ->
  GetExpressionName plugin Object_ (ExpressionKey plugin) = NAME_None ->
  let run := ThreePasses plugin eng NewObject Parent Unit_ Exports_ bCheckOuter bSubgraph in
  let part := fst (fst run) in
  let M := snd (fst run) in
  Expression (CreateExpressionInput plugin Properties M key)
  = (OutExports part !! NAME_None
     ≫= fun data => fst (CreateEmptyExpression plugin eng NewObject NAME_None
                           (Type_ data)))
  /\ (is_Some (OutExports part !! NAME_None)
      <-> exists Value, Value ∈ NodeExports Unit_ Exports_ /\ ExportName Value = NAME_None).
Proof.
  intros P plugin eng NewObject Parent Unit_ Exports_ bCheckOuter bSubgraph
         Properties Object_ key Hobj Hname.
  cbv zeta. unfold ThreePasses. cbn [fst snd].
  destruct (partition_index Exports_ Unit_ (ParentName Parent) NAME_None)
    as (Hnames & Hsome & Houter).
  cbv zeta in Hnames, Hsome, Houter. split; [|exact Hsome].
  unfold CreateExpressionInput. rewrite Hobj, Hname.
  set (part := FindEditorOnlyData Exports_ Unit_ (ParentName Parent) ∅ []) in *.
  assert (fst (ConstructExpressions plugin eng NewObject (ParentName Parent)
                 (ExpressionNames part) (OutExports part) World_empty) !! NAME_None
          = OutExports part !! NAME_None
            ≫= fun data => fst (CreateEmptyExpression plugin eng NewObject NAME_None
                                  (Type_ data))) as ->.
  { rewrite ConstructExpressions_lookup. unfold Made, Constructed.
    destruct (OutExports part !! NAME_None) as [data|] eqn:Hdata.
    - rewrite bool_decide_eq_true_2 by (apply Hnames; by eexists).
      rewrite (Houter data eq_refl), String.eqb_refl. simpl.
      by destruct (fst (CreateEmptyExpression _ _ _ _ _)).
    - by destruct (bool_decide _). }
  destruct (OutExports part !! NAME_None) as [data|]; simpl; [|done].
  destruct (fst (CreateEmptyExpression _ _ _ _ _)) as [p|]; [|done].
  apply PopulateExpressionInput_Expression.
Qed.

Lemma unnamed_reference_witness :
  let Exports_ :=
    [JObject [("Type", JString "MaterialExpressionConstant");
              ("Properties", JObject [("R", JNumber 1)])];
     Sample.export "N1" "MaterialExpressionAdd" [("B", JObject [])]] in
  let run := ThreePasses Sample.plugin Sample.engine (Sample.NewObject_at 0) Sample.material
               "Material" Exports_ true false in
  TryGetObjectField [("B", JObject [])] "B" = Some []
  /\ GetExpressionName Sample.plugin [] (ExpressionKey Sample.plugin) = NAME_None
  /\ Expression (CreateExpressionInput Sample.plugin [("B", JObject [])] (snd (fst run)) "B")
     = Some (0%nat, NAME_None).
Proof.
  cbv zeta.
  pose proof (unnamed_reference_is_wired_to_the_unnamed_export (nat * FName)
                Sample.plugin Sample.engine (Sample.NewObject_at 0) Sample.material "Material"
                [JObject [("Type", JString "MaterialExpressionConstant");
                          ("Properties", JObject [("R", JNumber 1)])];
                 Sample.export "N1" "MaterialExpressionAdd" [("B", JObject [])]]
                true false [("B", JObject [])] [] "B" eq_refl eq_refl) as [Hwired _].
  split; [reflexivity|]. split; [reflexivity|].
  cbv zeta in Hwired. rewrite Hwired. by vm_compute.
Defined.

(** ** The comments *)

Section CommentFacts.
Context {P : Type}.
Variable plugin : Plugin.
Variable eng : Engine.
Variable CommentClass : UClass.
Variable NewComment : FName -> P.
Variable Parent : UParent.
Variable Exports : gmap FName FImportData.

Lemma comment_statements_complete (Comment : FJsonObject) (e : UMaterialExpression P)
    (fx : Effects) :
  exists e' fx',
    exec_all plugin eng Parent Comment (∅ : gmap FName P)
      (CommentStatements ++ MaterialGraphNode_ExpressionWrapper eng (Some CommentClass)) e fx
    = Done (e', fx').
Proof.
  apply exec_all_completes. unfold MaterialGraphNode_ExpressionWrapper.
  by destruct (CastSucceeds eng (Some CommentClass) "MaterialExpressionParameter"),
              (CastSucceeds eng (Some CommentClass) "MaterialExpressionTextureBase").
Qed.

Lemma comments_loop_spec (items : list FJsonValue) :
  forall acc : World P * list P,
  match ConstructComments_loop plugin eng CommentClass NewComment Parent Exports items acc with
  | Done acc' =>
      (forall V, V ∈ items -> IsNull V = false ->
                 is_Some (Exports !! CommentExportName plugin V))
      /\ snd acc'
         = foldl (fun comments c => AddComment Parent c comments) (snd acc)
             ((fun V => NewComment (CommentExportName plugin V))
                <$> filter (fun V => IsNull V = false) items)
      /\ ExpressionCollection (fst acc') = ExpressionCollection (fst acc)
  | Crash f =>
      f = NullDereference
      /\ exists V, V ∈ items /\ IsNull V = false
                   /\ Exports !! CommentExportName plugin V = None
  end.
Proof.
  induction items as [|V rest IH]; intros acc; simpl.
  - split; [by intros V HV%elem_of_nil|done].
  - unfold ConstructComments_step. rewrite filter_cons.
    destruct (IsNull V) eqn:Hnull.
    + rewrite decide_False by done. simpl. specialize (IH acc).
      destruct (ConstructComments_loop _ _ _ _ _ _ rest acc) as [acc'|f].
      * destruct IH as (Hall & Hc & He). split; [|done].
        intros V' [->|Hin]%elem_of_cons Hnn; [congruence|by apply Hall].
      * destruct IH as (Hf & V' & Hin & Hnn & Hnone). split; [done|].
        exists V'. split; [by right|done].
    + rewrite decide_True by done.
      destruct (Exports !! CommentExportName plugin V) as [data|] eqn:Hdata.
      * destruct (comment_statements_complete (GetObjectField (Json data) "Properties")
                    {| Class := Some CommentClass; Fields := ∅ |} (Fx (fst acc)))
          as (e' & fx' & ->).
        cbn [bind fst snd].
        match goal with
        | |- context [ConstructComments_loop _ _ _ _ _ _ rest ?a] => specialize (IH a)
        end.
        destruct (ConstructComments_loop _ _ _ _ _ _ rest _) as [acc'|f].
        -- destruct IH as (Hall & Hc & He). split; [|done].
           intros V' [->|Hin]%elem_of_cons Hnn; [by eexists|by apply Hall].
        -- destruct IH as (Hf & V' & Hin & Hnn & Hnone). split; [done|].
           exists V'. split; [by right|done].
      * simpl. split; [done|]. exists V. split; [by left|done].
Qed.

End CommentFacts.

(** X12.  [MaterialGraphNode_ConstructComments] dereferences the export of
    every comment entry without a test: it completes exactly when every
    entry of [EditorComments] that is not null names an export of the
    index, and otherwise ends in a null dereference; without the key
    [EditorComments] it does nothing. *)
Theorem comments_need_their_exports :
  forall (P : Type) (plugin : Plugin) (eng : Engine) (CommentClass : UClass)
         (NewComment : FName -> P) (Parent : UParent) (Json_ : FJsonObject)
         (Exports : gmap FName FImportData) (acc : World P * list P),
  let result :=
    MaterialGraphNode_ConstructComments plugin eng CommentClass NewComment Parent
      Json_ Exports acc in
  ((exists acc', result = Done acc')
   <-> forall V, V ∈ CommentEntries Json_ -> is_Some (Exports !! CommentExportName plugin V))
  /\ (forall f, result = Crash f -> f = NullDereference)
  /\ (TryGetArrayField Json_ "EditorComments" = None -> result = Done acc).
Proof.
  intros. unfold result, MaterialGraphNode_ConstructComments, CommentEntries, GetArrayField.
  destruct (TryGetArrayField Json_ "EditorComments") as [items|]; simpl.
  - pose proof (comments_loop_spec plugin eng CommentClass NewComment Parent Exports items acc)
      as Hspec.
    destruct (ConstructComments_loop _ _ _ _ _ _ items acc) as [acc'|f].
    + destruct Hspec as (Hall & _). split; [|done]. split; [|by eexists].
      intros _ V [Hnn Hin]%list_elem_of_filter. by apply Hall.
    + destruct Hspec as (-> & V & Hin & Hnn & Hnone). split; [|split; [|done]].
      * split; [by intros [? ?]|]. intros Hall. exfalso.
        destruct (Hall V) as [data Hdata]; [by apply list_elem_of_filter|congruence].
      * by intros ? [= <-].
  - split; [|done]. split; [|by eexists]. by intros _ V HV%elem_of_nil.
Qed.

(** X13.  When [MaterialGraphNode_ConstructComments] completes, the
    comments of a material or of a material function have grown by one
    comment for each entry that is not null, in the order of the array and
    named after the export of its entry; for another parent no comment is
    added.  The list of expressions of the collection is never touched. *)
Theorem comments_are_added_in_order :
  forall (P : Type) (plugin : Plugin) (eng : Engine) (CommentClass : UClass)
         (NewComment : FName -> P) (Parent : UParent) (Json_ : FJsonObject)
         (Exports : gmap FName FImportData) (w : World P) (comments : list P),
  match MaterialGraphNode_ConstructComments plugin eng CommentClass NewComment Parent
          Json_ Exports (w, comments) with
  | Done (w', comments') =>
      comments'
      = comments
        ++ match Kind Parent with
           | IsOtherObject => []
           | _ => (fun V => NewComment (CommentExportName plugin V)) <$> CommentEntries Json_
           end
      /\ ExpressionCollection w' = ExpressionCollection w
  | Crash _ => True
  end.
Proof.
  intros. unfold MaterialGraphNode_ConstructComments, CommentEntries, GetArrayField.
  destruct (TryGetArrayField Json_ "EditorComments") as [items|]; simpl.
  - pose proof (comments_loop_spec plugin eng CommentClass NewComment Parent Exports items
                  (w, comments)) as Hspec.
    destruct (ConstructComments_loop _ _ _ _ _ _ items _) as [[w' comments']|f]; [|done].
    destruct Hspec as (_ & Hc & He). cbn [fst snd] in Hc, He. split; [|done].
    rewrite Hc. clear. generalize comments.
    induction (_ <$> filter _ items) as [|c rest IH]; intros comments0; simpl.
    + by destruct (Kind Parent); rewrite app_nil_r.
    + rewrite IH. unfold AddComment. destruct (Kind Parent); by rewrite <- ?app_assoc.
  - split; [|done]. by destruct (Kind Parent); rewrite app_nil_r.
Qed.

(** ** Text operations *)

Section TextFacts.

Lemma append_String (x : ascii) (a b : string) :
  String x a +:+ b = String x (a +:+ b).
Proof. reflexivity. Qed.

Lemma append_empty_l (a : string) : "" +:+ a = a.
Proof. reflexivity. Qed.

Lemma append_assoc (a b c : string) : (a +:+ b) +:+ c = a +:+ (b +:+ c).
Proof.
  induction a as [|x a IH]; [done|].
  rewrite !append_String. f_equal. apply IH.
Qed.

Lemma append_empty_r (a : string) : a +:+ "" = a.
Proof.
  induction a as [|x a IH]; [done|].
  rewrite append_String. f_equal. apply IH.
Qed.

(** The slash is no letter: a search finds it whatever the search case. *)
Lemma SameChar_slash (SearchCase : ESearchCase) (c : ascii) :
  SameChar SearchCase "/" c = Ascii.eqb "/" c.
Proof.
  destruct SearchCase; [done|].
  destruct c as [[] [] [] [] [] [] [] []]; reflexivity.
Qed.

Lemma SameChar_refl (SearchCase : ESearchCase) (c : ascii) :
  SameChar SearchCase c c = true.
Proof. destruct SearchCase; apply Ascii.eqb_refl. Qed.

Lemma BeginsWith_String (SearchCase : ESearchCase) (a b : ascii) (sub s : string) :
  BeginsWith SearchCase (String a sub) (String b s)
  = SameChar SearchCase a b && BeginsWith SearchCase sub s.
Proof. reflexivity. Qed.

Lemma BeginsWith_append (SearchCase : ESearchCase) (p s : string) :
  BeginsWith SearchCase p (p +:+ s) = true.
Proof.
  induction p as [|x p IH]; [done|].
  by rewrite append_String, BeginsWith_String, SameChar_refl, IH.
Qed.

Lemma BeginsWith_of_empty (SearchCase : ESearchCase) (p : string) :
  BeginsWith SearchCase p "" = true -> p = "".
Proof. by destruct p. Qed.

Lemma BeginsWith_slash (SearchCase : ESearchCase) (s : string) :
  BeginsWith SearchCase "/" s = BeginsWith CaseSensitive "/" s.
Proof.
  destruct s as [|c s]; [done|].
  by rewrite !BeginsWith_String, SameChar_slash.
Qed.

Lemma BeginsWith_exact (p s : string) :
  BeginsWith CaseSensitive p s = true -> s = p +:+ Mid (String.length p) s.
Proof.
  revert s. induction p as [|x p IH]; intros s H; [done|].
  destruct s as [|y s]; [done|].
  rewrite BeginsWith_String in H. apply andb_true_iff in H as [Hc H].
  apply Ascii.eqb_eq in Hc as ->.
  rewrite append_String. simpl. f_equal. by apply IH.
Qed.

Lemma SplitFromStart_eq (SearchCase : ESearchCase) (sub s : string) :
  SplitFromStart SearchCase sub s =
  if BeginsWith SearchCase sub s then Some ("", Mid (String.length sub) s)
  else
    match s with
    | "" => None
    | String c rest =>
        (fun lr => (String c (fst lr), snd lr)) <$> SplitFromStart SearchCase sub rest
    end.
Proof. by destruct s. Qed.

Lemma SplitFromEnd_String (SearchCase : ESearchCase) (sub : string) (c : ascii) (s : string) :
  SplitFromEnd SearchCase sub (String c s) =
  match SplitFromEnd SearchCase sub s with
  | Some lr => Some (String c (fst lr), snd lr)
  | None =>
      if BeginsWith SearchCase sub (String c s)
      then Some ("", Mid (String.length sub) (String c s))
      else None
  end.
Proof. reflexivity. Qed.

(** A search for the slash is the same search in either case. *)
Lemma SplitFromStart_slash (SearchCase : ESearchCase) (s : string) :
  SplitFromStart SearchCase "/" s = SplitFromStart CaseSensitive "/" s.
Proof.
  induction s as [|c s IH]; [done|].
  rewrite (SplitFromStart_eq SearchCase), (SplitFromStart_eq CaseSensitive).
  by rewrite BeginsWith_slash, IH.
Qed.

Lemma SplitFromEnd_slash (SearchCase : ESearchCase) (s : string) :
  SplitFromEnd SearchCase "/" s = SplitFromEnd CaseSensitive "/" s.
Proof.
  induction s as [|c s IH]; [done|].
  by rewrite !SplitFromEnd_String, BeginsWith_slash, IH.
Qed.

(** What a search from the start finds begins where the left part ends;
    what it does not find begins nowhere in the text. *)
Lemma SplitFromStart_Some (SearchCase : ESearchCase) (sub s l r : string) :
  SplitFromStart SearchCase sub s = Some (l, r) ->
  exists b, s = l +:+ b /\ BeginsWith SearchCase sub b = true.
Proof.
  revert l. induction s as [|c s IH]; intros l; rewrite SplitFromStart_eq.
  - destruct (BeginsWith SearchCase sub "") eqn:Hb; [|done].
    intros [= <- <-]. by exists "".
  - destruct (BeginsWith SearchCase sub (String c s)) eqn:Hb.
    + intros [= <- <-]. by exists (String c s).
    + destruct (SplitFromStart SearchCase sub s) as [[l' r']|] eqn:Hs; [|done].
      simpl. intros [= <- <-].
      destruct (IH l' eq_refl) as (b & -> & Hfound). by exists b.
Qed.

Lemma SplitFromStart_None (SearchCase : ESearchCase) (sub s : string) :
  SplitFromStart SearchCase sub s = None ->
  forall a b, s = a +:+ b -> BeginsWith SearchCase sub b = false.
Proof.
  induction s as [|c s IH]; rewrite SplitFromStart_eq; intros H a b Heq.
  - destruct a; [|done]. rewrite append_empty_l in Heq. subst b.
    by destruct (BeginsWith SearchCase sub "").
  - destruct (BeginsWith SearchCase sub (String c s)) eqn:Hb; [done|].
    destruct a as [|x a].
    + rewrite append_empty_l in Heq. by subst b.
    + rewrite append_String in Heq. injection Heq as -> ->.
      destruct (SplitFromStart SearchCase sub (a +:+ b)) eqn:Hs; [done|].
      by apply (IH eq_refl a b).
Qed.

(** A split gives back the text around one occurrence of the delimiter. *)
Lemma SplitFromStart_append (sub s l r : string) :
  SplitFromStart CaseSensitive sub s = Some (l, r) -> s = l +:+ sub +:+ r.
Proof.
  revert l. induction s as [|c s IH]; intros l; rewrite SplitFromStart_eq.
  - destruct (BeginsWith CaseSensitive sub "") eqn:Hp; [|done].
    intros [= <- <-]. by apply BeginsWith_exact in Hp.
  - destruct (BeginsWith CaseSensitive sub (String c s)) eqn:Hp.
    + intros [= <- <-]. by apply BeginsWith_exact in Hp.
    + destruct (SplitFromStart CaseSensitive sub s) as [[l' r']|] eqn:Hs; [|done].
      simpl. intros [= <- <-]. rewrite append_String. f_equal. by apply IH.
Qed.

Lemma SplitFromEnd_append (sub s l r : string) :
  SplitFromEnd CaseSensitive sub s = Some (l, r) -> s = l +:+ sub +:+ r.
Proof.
  revert l. induction s as [|c s IH]; intros l.
  - destruct sub; [|done]. by intros [= <- <-].
  - rewrite SplitFromEnd_String.
    destruct (SplitFromEnd CaseSensitive sub s) as [[l' r']|] eqn:Hs.
    + simpl. intros [= <- <-]. rewrite append_String. f_equal. by apply IH.
    + destruct (BeginsWith CaseSensitive sub (String c s)) eqn:Hp; [|done].
      intros [= <- <-]. by apply BeginsWith_exact in Hp.
Qed.

(** A text in which the delimiter occurs can be split, from either end. *)
Lemma SplitFromStart_finds (sub a b : string) :
  is_Some (SplitFromStart CaseSensitive sub (a +:+ sub +:+ b)).
Proof.
  induction a as [|c a IH].
  - rewrite append_empty_l, SplitFromStart_eq. by rewrite BeginsWith_append.
  - rewrite append_String, SplitFromStart_eq.
    destruct (BeginsWith CaseSensitive sub (String c (a +:+ sub +:+ b))); [done|].
    by destruct IH as [lr ->].
Qed.

Lemma SplitFromEnd_finds (sub a b : string) :
  is_Some (SplitFromEnd CaseSensitive sub (a +:+ sub +:+ b)).
Proof.
  induction a as [|c a IH].
  - rewrite append_empty_l. destruct sub as [|x sub].
    + rewrite append_empty_l. destruct b as [|y b]; [done|].
      rewrite SplitFromEnd_String. by destruct (SplitFromEnd CaseSensitive "" b).
    + rewrite append_String, SplitFromEnd_String.
      destruct (SplitFromEnd CaseSensitive (String x sub) (sub +:+ b)); [done|].
      rewrite <- append_String. by rewrite BeginsWith_append.
  - rewrite append_String, SplitFromEnd_String. by destruct IH as [lr ->].
Qed.

(** Left of the first occurrence the delimiter does not occur. *)
Lemma SplitFromStart_first (sub s l r : string) :
  sub <> "" -> SplitFromStart CaseSensitive sub s = Some (l, r) ->
  forall a b, l <> a +:+ sub +:+ b.
Proof.
  intros Hsub. revert l. induction s as [|c s IH]; intros l; rewrite SplitFromStart_eq.
  - destruct (BeginsWith CaseSensitive sub "") eqn:Hp; [|done].
    by apply BeginsWith_of_empty in Hp.
  - destruct (BeginsWith CaseSensitive sub (String c s)) eqn:Hp.
    + intros [= <- <-] a b Hl. destruct a; [|done].
      rewrite append_empty_l in Hl. by destruct sub.
    + destruct (SplitFromStart CaseSensitive sub s) as [[l' r']|] eqn:Hs; [|done].
      simpl. intros [= <- <-] a b Hl.
      destruct a as [|x a].
      * rewrite append_empty_l in Hl.
        apply SplitFromStart_append in Hs. subst s.
        rewrite <- append_String, Hl, append_assoc, BeginsWith_append in Hp. done.
      * rewrite append_String in Hl. injection Hl as -> ->. by eapply IH.
Qed.

(** Where no split is found from the end, none is found in what follows. *)
Lemma SplitFromEnd_None_Mid (sub s : string) (n : nat) :
  SplitFromEnd CaseSensitive sub s = None ->
  SplitFromEnd CaseSensitive sub (Mid n s) = None.
Proof.
  revert n. induction s as [|c s IH]; intros n H.
  - by destruct n.
  - destruct n as [|n]; [done|]. rewrite SplitFromEnd_String in H. simpl.
    destruct (SplitFromEnd CaseSensitive sub s); [done|]. by apply IH.
Qed.

Lemma SplitFromEnd_None (sub s : string) :
  SplitFromEnd CaseSensitive sub s = None -> forall a b, s <> a +:+ sub +:+ b.
Proof.
  intros H a b ->. destruct (SplitFromEnd_finds sub a b) as [lr Hlr]. congruence.
Qed.

(** Right of the last occurrence the delimiter does not occur. *)
Lemma SplitFromEnd_last (sub s l r : string) :
  sub <> "" -> SplitFromEnd CaseSensitive sub s = Some (l, r) ->
  forall a b, r <> a +:+ sub +:+ b.
Proof.
  intros Hsub H. apply SplitFromEnd_None. revert l H.
  induction s as [|c s IH]; intros l.
  - destruct sub; [|done]. by intros [= <- <-].
  - rewrite SplitFromEnd_String.
    destruct (SplitFromEnd CaseSensitive sub s) as [[l' r']|] eqn:Hs.
    + simpl. intros [= <- <-]. by eapply IH.
    + destruct (BeginsWith CaseSensitive sub (String c s)) eqn:Hp; [|done].
      intros [= <- <-].
      destruct sub as [|x sub]; [done|].
      change (Mid (String.length (String x sub)) (String c s))
        with (Mid (String.length sub) s).
      by apply SplitFromEnd_None_Mid.
Qed.

End TextFacts.

(** ** The package path *)

Section PackagePathFacts.

Lemma Split_FromEnd_slash (s : string) :
  Split s "/" IgnoreCase FromEnd = SplitFromEnd CaseSensitive "/" s.
Proof. unfold Split. apply SplitFromEnd_slash. Qed.

Lemma Split_FromStart_slash (s : string) :
  Split s "/" IgnoreCase FromStart = SplitFromStart CaseSensitive "/" s.
Proof. unfold Split. apply SplitFromStart_slash. Qed.

(** The last split of a text that starts with a slash and has another one
    further on leaves a directory that starts with the slash. *)
Lemma rooted_directory (a b : string) :
  exists l r,
    SplitFromEnd CaseSensitive "/" ("/" +:+ a +:+ "/" +:+ b) = Some ("/" +:+ l, r).
Proof.
  change ("/" +:+ a +:+ "/" +:+ b) with (String "/" (a +:+ "/" +:+ b)).
  rewrite SplitFromEnd_String.
  destruct (SplitFromEnd_finds "/" a b) as [[l r] ->]. by exists l, r.
Qed.

Lemma SameChar_slash_eq (SearchCase : ESearchCase) (c : ascii) :
  SameChar SearchCase "/" c = true -> c = "/"%char.
Proof. rewrite SameChar_slash. by intros ->%Ascii.eqb_eq. Qed.

Lemma BeginsWith_inv (SearchCase : ESearchCase) (a : ascii) (sub s : string) :
  BeginsWith SearchCase (String a sub) s = true ->
  exists b s', s = String b s' /\ SameChar SearchCase a b = true
               /\ BeginsWith SearchCase sub s' = true.
Proof.
  destruct s as [|b s']; [done|]. rewrite BeginsWith_String.
  intros [Hc H]%andb_true_iff. by exists b, s'.
Qed.

(** A text that starts with "/Game/" or "/Plugins/", in whatever case of
    the letters, starts with a slash and has another one further on. *)
Lemma StartsWith_Game (s : string) :
  StartsWith s "/Game/" = true -> exists a b, s = "/" +:+ a +:+ "/" +:+ b.
Proof.
  unfold StartsWith. intros [_ H]%andb_true_iff.
  apply BeginsWith_inv in H as (c0 & s0 & -> & ->%SameChar_slash_eq & H).
  apply BeginsWith_inv in H as (c1 & s1 & -> & _ & H).
  apply BeginsWith_inv in H as (c2 & s2 & -> & _ & H).
  apply BeginsWith_inv in H as (c3 & s3 & -> & _ & H).
  apply BeginsWith_inv in H as (c4 & s4 & -> & _ & H).
  apply BeginsWith_inv in H as (c5 & rest & -> & ->%SameChar_slash_eq & _).
  by exists (String c1 (String c2 (String c3 (String c4 "")))), rest.
Qed.

Lemma StartsWith_Plugins (s : string) :
  StartsWith s "/Plugins/" = true -> exists a b, s = "/" +:+ a +:+ "/" +:+ b.
Proof.
  unfold StartsWith. intros [_ H]%andb_true_iff.
  apply BeginsWith_inv in H as (c0 & s0 & -> & ->%SameChar_slash_eq & H).
  apply BeginsWith_inv in H as (c1 & s1 & -> & _ & H).
  apply BeginsWith_inv in H as (c2 & s2 & -> & _ & H).
  apply BeginsWith_inv in H as (c3 & s3 & -> & _ & H).
  apply BeginsWith_inv in H as (c4 & s4 & -> & _ & H).
  apply BeginsWith_inv in H as (c5 & s5 & -> & _ & H).
  apply BeginsWith_inv in H as (c6 & s6 & -> & _ & H).
  apply BeginsWith_inv in H as (c7 & s7 & -> & _ & H).
  apply BeginsWith_inv in H as (c8 & rest & -> & ->%SameChar_slash_eq & _).
  by exists (String c1 (String c2 (String c3 (String c4 (String c5 (String c6 (String c7 ""))))))),
            rest.
Qed.

Lemma rooted_output_path (OutputPath : string) :
  negb (StartsWith OutputPath "/Game/") && negb (StartsWith OutputPath "/Plugins/") = false ->
  exists l r, SplitFromEnd CaseSensitive "/" OutputPath = Some ("/" +:+ l, r).
Proof.
  intros H. apply andb_false_iff in H as [H|H]; apply negb_false_iff in H.
  - apply StartsWith_Game in H as (a & b & ->). apply rooted_directory.
  - apply StartsWith_Plugins in H as (a & b & ->). apply rooted_directory.
Qed.

Lemma Split_leading_slash (M : string) :
  Split ("/" +:+ M) "/" IgnoreCase FromStart = Some ("", M).
Proof.
  rewrite Split_FromStart_slash, SplitFromStart_eq.
  by rewrite (BeginsWith_append CaseSensitive "/" M).
Qed.

(** The plugin looked up is the text up to the first slash of the path
    made. *)
Lemma plugin_segment (M : string) :
  exists l r, SplitFromStart CaseSensitive "/" (M +:+ "/") = Some (l, r) /\
              forall a b, l <> a +:+ "/" +:+ b.
Proof.
  destruct (SplitFromStart_finds "/" M "") as [[l r] H].
  exists l, r. split; [done|]. by eapply SplitFromStart_first.
Qed.

End PackagePathFacts.

(** ** Constructing assets *)

Section SupportedTypeFacts.

Lemma existsb_eqb (s : string) (l : list string) :
  existsb (String.eqb s) l = true <-> s ∈ l.
Proof.
  rewrite existsb_exists. split.
  - intros (x & Hx & ->%String.eqb_eq). by apply list_elem_of_In.
  - intros H. exists s. split; [by apply list_elem_of_In|apply String.eqb_refl].
Qed.

Lemma texture_types_supported (s : string) : s ∈ TextureTypes -> s ∈ SupportedTypes.
Proof.
  unfold TextureTypes, SupportedTypes. rewrite !elem_of_cons.
  intros [->|[->|[->|H]]]; [tauto..|]. by apply elem_of_nil in H.
Qed.

End SupportedTypeFacts.

(** X14. Whatever the output path, the export directory and the plugins
    installed, the package [CreateAssetPackage] creates has a path of the
    form "/<directory>/<Name>": it starts with a slash and ends with a
    slash followed by the asset's name. *)
Theorem package_path_is_rooted_and_ends_in_the_name
    (ExportDirectory : string) (FindPlugin : string -> bool) (Name OutputPath : string) :
  exists directory,
    PathWithGame (CreateAssetPackage_path ExportDirectory FindPlugin Name OutputPath)
    = "/" +:+ directory +:+ "/" +:+ Name.
Proof.
  unfold CreateAssetPackage_path.
  destruct (negb (StartsWith OutputPath "/Game/") && negb (StartsWith OutputPath "/Plugins/"))
    eqn:Hbranch.
  - cbv zeta.
    match goal with |- context [StartsWith ?m "Plugins"] => generalize m end.
    intros M. destruct (StartsWith M "Plugins").
    + match goal with |- context [FindPlugin ?n] => destruct (FindPlugin n) end.
      * exists (Replace (Replace (Replace M "Plugins/" "") "GameFeatures/" "") "Content/" "").
        cbn [PathWithGame]. rewrite !append_assoc. reflexivity.
      * exists "Game". reflexivity.
    + exists (Replace M "Content" "Game").
      cbn [PathWithGame]. rewrite !append_assoc. reflexivity.
  - cbv zeta. rewrite Split_FromEnd_slash.
    destruct (rooted_output_path OutputPath Hbranch) as (l & r & ->).
    exists l. cbn [PathWithGame fst]. rewrite !append_assoc. reflexivity.
Qed.

(** X15. An output path that already starts with "/Game/" or "/Plugins/"
    keeps its directory: the package path is the output path with what
    follows its last slash replaced by the asset's name, and no plugin is
    looked up. *)
Theorem game_path_keeps_its_directory
    (ExportDirectory : string) (FindPlugin : string -> bool) (Name OutputPath : string)
    (Hgame : StartsWith OutputPath "/Game/" = true \/ StartsWith OutputPath "/Plugins/" = true) :
  exists directory file,
    OutputPath = directory +:+ "/" +:+ file /\
    (forall a b, file <> a +:+ "/" +:+ b) /\
    CreateAssetPackage_path ExportDirectory FindPlugin Name OutputPath
    = {| PathWithGame := directory +:+ "/" +:+ Name; PluginMissing := None |}.
Proof.
  assert (negb (StartsWith OutputPath "/Game/") && negb (StartsWith OutputPath "/Plugins/")
          = false) as Hbranch.
  { destruct Hgame as [-> | ->]; [done|]. by rewrite andb_false_r. }
  unfold CreateAssetPackage_path. rewrite Hbranch. cbv zeta.
  rewrite Split_FromEnd_slash.
  destruct (rooted_output_path OutputPath Hbranch) as (l & r & Hsplit).
  rewrite Hsplit. exists ("/" +:+ l), r. split; [|split].
  - by apply SplitFromEnd_append in Hsplit.
  - by eapply SplitFromEnd_last.
  - cbn [fst]. by rewrite !append_assoc.
Qed.

Lemma game_path_witness :
  exists directory file,
    "/Game/Athena/Items/T_Rock.T_Rock" = directory +:+ "/" +:+ file /\
    (forall a b, file <> a +:+ "/" +:+ b) /\
    CreateAssetPackage_path "C:/Exports" (fun _ => false) "T_Rock"
      "/Game/Athena/Items/T_Rock.T_Rock"
    = {| PathWithGame := directory +:+ "/" +:+ "T_Rock"; PluginMissing := None |}.
Proof.
  apply (game_path_keeps_its_directory "C:/Exports" (fun _ => false) "T_Rock"
           "/Game/Athena/Items/T_Rock.T_Rock").
  left. reflexivity.
Defined.

(** X16. An output path outside the export directory loses all of its
    directories: when it is no "/Game/" or "/Plugins/" path and the text
    "<ExportDirectory>/" begins at none of its positions, the case of the
    letters left aside as the search of the code leaves it aside, the
    package is created at "//<Name>". *)
Theorem path_outside_the_export_directory
    (ExportDirectory : string) (FindPlugin : string -> bool) (Name OutputPath : string)
    (Hgame : StartsWith OutputPath "/Game/" = false)
    (Hplugins : StartsWith OutputPath "/Plugins/" = false)
    (Houtside : forall a b, OutputPath = a +:+ b ->
                            BeginsWith IgnoreCase (ExportDirectory +:+ "/") b = false) :
  CreateAssetPackage_path ExportDirectory FindPlugin Name OutputPath
  = {| PathWithGame := "//" +:+ Name; PluginMissing := None |}.
Proof.
  unfold CreateAssetPackage_path. rewrite Hgame, Hplugins. cbn [negb andb]. cbv zeta.
  assert (Split OutputPath (ExportDirectory +:+ "/") IgnoreCase FromStart = None) as ->;
    [|done].
  unfold Split. destruct (String.eqb _ ""); [done|].
  destruct (SplitFromStart _ _ OutputPath) as [[l r]|] eqn:Hsplit; [|done].
  apply SplitFromStart_Some in Hsplit as (b & Heq & Hfound).
  by rewrite (Houtside l b Heq) in Hfound.
Qed.

Lemma path_outside_witness :
  CreateAssetPackage_path "C:/Exports" (fun _ => true) "M_Rock"
    "D:/Dump/Game/Content/Materials/M_Rock.json"
  = {| PathWithGame := "//" +:+ "M_Rock"; PluginMissing := None |}.
Proof.
  apply (path_outside_the_export_directory "C:/Exports" (fun _ => true) "M_Rock"
           "D:/Dump/Game/Content/Materials/M_Rock.json").
  - reflexivity.
  - reflexivity.
  - apply SplitFromStart_None. reflexivity.
Defined.

(** The search for the export directory leaves the case of the letters
    aside: a path under the directory in another spelling is placed by what
    follows the directory all the same. *)
Example package_path_ignores_case :
  CreateAssetPackage_path "C:/Exports" (fun _ => true) "M_Rock"
    "c:/exports/FortniteGame/Content/Athena/M_Rock.json"
  = {| PathWithGame := "/Game/Athena/M_Rock"; PluginMissing := None |}.
Proof. reflexivity. Qed.

(** X17. The "Plugin Missing" notification is raised only for a name that
    [FindPlugin] does not know; that name is a single segment of the path
    (it holds no slash), and the package then goes directly under
    "/Game/". *)
Theorem missing_plugin_falls_back_to_game
    (ExportDirectory : string) (FindPlugin : string -> bool) (Name OutputPath : string) :
  match PluginMissing (CreateAssetPackage_path ExportDirectory FindPlugin Name OutputPath) with
  | Some PluginName =>
      FindPlugin PluginName = false /\
      (forall a b, PluginName <> a +:+ "/" +:+ b) /\
      PathWithGame (CreateAssetPackage_path ExportDirectory FindPlugin Name OutputPath)
      = "/Game/" +:+ Name
  | None => True
  end.
Proof.
  unfold CreateAssetPackage_path.
  destruct (negb (StartsWith OutputPath "/Game/") && negb (StartsWith OutputPath "/Plugins/"));
    [|done].
  cbv zeta.
  match goal with |- context [StartsWith ?m "Plugins"] => generalize m end.
  intros M. destruct (StartsWith M "Plugins"); [|done].
  match goal with |- context [Replace ?m "Content/" ""] => generalize (Replace m "Content/" "") end.
  intros M'.
  rewrite Split_leading_slash. cbn [snd]. rewrite Split_FromStart_slash.
  destruct (plugin_segment M') as (l & r & -> & Hl). cbn [fst].
  destruct (FindPlugin l) eqn:Hfind; [done|]. by cbn [PluginMissing PathWithGame].
Qed.

(** X18. [Construct_TypeTexture] faults in exactly one situation: both
    requests are answered and the second answer is an empty JSON array.  The
    first element is then read (for the importer's constructor) before the
    test for an empty array is reached, so that test never answers. *)
Theorem texture_faults_exactly_on_an_empty_array
    (UTexture : Type)
    (ExecuteRequestSync : string -> option HttpResponse)
    (Deserialize : string -> option (list FJsonValue))
    (NewTextureImporters : string -> string -> FJsonObject -> string -> UTextureImporters UTexture)
    (MarkPackageDirty : UTexture -> bool)
    (Path : string) (OutTexture : Pointer UTexture) :
  let run := Construct_TypeTexture UTexture ExecuteRequestSync Deserialize
               NewTextureImporters MarkPackageDirty Path OutTexture in
  ((exists f, snd run = Crash f) <->
   (exists HttpResponse_ NewResponse,
      ExecuteRequestSync (export_url Path) = Some HttpResponse_ /\
      ExecuteRequestSync (raw_export_url Path) = Some NewResponse /\
      Deserialize (GetContentAsString NewResponse) = Some [])) /\
  (forall f, snd run = Crash f ->
     f = OutOfBounds /\
     fst run = [Requested (export_url Path); Requested (raw_export_url Path);
                PackageCreated (fst (SplitPath Path))]).
Proof.
  cbv zeta. unfold Construct_TypeTexture.
  destruct (ExecuteRequestSync (export_url Path)) as [r1|] eqn:H1; cbn [fst snd].
  2: { split; [|by intros f [=]]. split; [by intros [f [=]]|]. by intros (? & ? & [=] & _). }
  destruct (ExecuteRequestSync (raw_export_url Path)) as [r2|] eqn:H2; cbn [fst snd].
  2: { split; [|by intros f [=]]. split; [by intros [f [=]]|].
       by intros (? & ? & _ & [=] & _). }
  destruct (Deserialize (GetContentAsString r2)) as [[|First rest]|] eqn:H3; cbn [fst snd].
  - split; [|by intros f [= <-]]. split; [|by exists OutOfBounds].
    intros _. exists r1, r2. by rewrite H3.
  - assert (forall (x : list (AssetEvent UTexture) * Outcome (bool * Pointer UTexture)),
              (forall f, snd x <> Crash f) ->
              ((exists f, snd x = Crash f) <->
               exists HttpResponse_ NewResponse : HttpResponse,
                 Some r1 = Some HttpResponse_ /\ Some r2 = Some NewResponse /\
                 Deserialize (GetContentAsString NewResponse) = Some []) /\
              (forall f, snd x = Crash f ->
                 f = OutOfBounds /\
                 fst x = [Requested (export_url Path); Requested (raw_export_url Path);
                          PackageCreated (fst (SplitPath Path))])) as Hdone.
    { intros x Hx. split; [|by intros f ?%Hx]. split; [by intros [f ?%Hx]|].
      intros (? & r & _ & [= <-] & Hr). congruence. }
    apply Hdone. intros f. cbn [lookup list_lookup IsEmpty].
    repeat match goal with
           | |- context [match ?o with Some _ => _ | None => _ end] => destruct o
           | |- context [if ?b then _ else _] => destruct b
           end; done.
  - split; [|by intros f [=]]. split; [by intros [f [=]]|].
    intros (? & r & _ & [= <-] & Hr). congruence.
Qed.

(** X19. When the second answer for a texture is no JSON array at all,
    [ConstructAsset] reports success ([true] returned and [bSuccess] set)
    although nothing was imported, and gives the caller's [OutObject] the
    value of a pointer variable that was never assigned. *)
Theorem texture_success_without_a_texture
    (UTexture T : Type)
    (ExecuteRequestSync : string -> option HttpResponse)
    (Deserialize : string -> option (list FJsonValue))
    (NewTextureImporters : string -> string -> FJsonObject -> string -> UTextureImporters UTexture)
    (MarkPackageDirty : UTexture -> bool)
    (Cast : UTexture -> option T)
    (HandleExports : list FJsonValue -> string -> bool)
    (StaticLoadObject : string -> option T)
    (Path Type_ : string) (OutObject : Pointer T) (bSuccess : bool)
    (HttpResponse_ NewResponse : HttpResponse)
    (Htexture : Type_ ∈ TextureTypes)
    (Hfirst : ExecuteRequestSync (export_url Path) = Some HttpResponse_)
    (Hsecond : ExecuteRequestSync (raw_export_url Path) = Some NewResponse)
    (Hjson : Deserialize (GetContentAsString NewResponse) = None) :
  ConstructAsset UTexture T ExecuteRequestSync Deserialize NewTextureImporters
    MarkPackageDirty Cast HandleExports StaticLoadObject Path Type_ OutObject bSuccess
  = ([Requested (export_url Path); Requested (raw_export_url Path)],
     Done (true, Indeterminate, true)).
Proof.
  unfold ConstructAsset.
  pose proof (texture_types_supported _ Htexture) as Hsupported.
  apply existsb_eqb in Htexture as ->. apply existsb_eqb in Hsupported as ->.
  unfold Construct_TypeTexture. by rewrite Hfirst, Hsecond, Hjson.
Qed.

Lemma texture_success_without_a_texture_witness :
  ConstructAsset unit unit
    (fun _ => Some {| GetContent := []; GetContentAsString := "Not Found" |})
    (fun _ => None)
    (fun _ _ _ _ => {| ImportTexture2D := fun _ _ => None;
                       ImportTextureCube := fun _ _ => None;
                       ImportRenderTarget2D := fun _ => None |})
    (fun _ => true) (fun _ => None) (fun _ _ => true) (fun _ => None)
    "/Game/T_Rock.T_Rock" "Texture2D" Nullptr false
  = ([Requested (export_url "/Game/T_Rock.T_Rock");
      Requested (raw_export_url "/Game/T_Rock.T_Rock")],
     Done (true, Indeterminate, true)).
Proof.
  apply (texture_success_without_a_texture unit unit
           (fun _ => Some {| GetContent := []; GetContentAsString := "Not Found" |})
           (fun _ => None) _ _ _ _ _ _ _ _ _
           {| GetContent := []; GetContentAsString := "Not Found" |}
           {| GetContent := []; GetContentAsString := "Not Found" |}).
  - unfold TextureTypes. apply elem_of_cons. by left.
  - reflexivity.
  - reflexivity.
  - reflexivity.
Defined.

(** X20. [ConstructAsset] answers [true] exactly for the types its list
    names; for any other type it makes no request and leaves [OutObject]
    and [bSuccess] as they were.  It can fault only for a texture type. *)
Theorem construct_asset_answers_by_type
    (UTexture T : Type)
    (ExecuteRequestSync : string -> option HttpResponse)
    (Deserialize : string -> option (list FJsonValue))
    (NewTextureImporters : string -> string -> FJsonObject -> string -> UTextureImporters UTexture)
    (MarkPackageDirty : UTexture -> bool)
    (Cast : UTexture -> option T)
    (HandleExports : list FJsonValue -> string -> bool)
    (StaticLoadObject : string -> option T)
    (Path Type_ : string) (OutObject : Pointer T) (bSuccess : bool) :
  let run := ConstructAsset UTexture T ExecuteRequestSync Deserialize NewTextureImporters
               MarkPackageDirty Cast HandleExports StaticLoadObject Path Type_
               OutObject bSuccess in
  match snd run with
  | Done (returned, _, _) => returned = true <-> Type_ ∈ SupportedTypes
  | Crash _ => Type_ ∈ TextureTypes
  end /\
  (Type_ ∉ SupportedTypes -> run = ([], Done (false, OutObject, bSuccess))).
Proof.
  cbv zeta. unfold ConstructAsset.
  destruct (existsb (String.eqb Type_) SupportedTypes) eqn:Hs.
  - apply existsb_eqb in Hs. split; [|done].
    destruct (existsb (String.eqb Type_) TextureTypes) eqn:Ht.
    + apply existsb_eqb in Ht.
      destruct (Construct_TypeTexture _ _ _ _ _ _ _) as [log [[b t]|f]]; cbn [snd]; done.
    + destruct (IsEmpty _); cbn [snd]; done.
  - split; [|done]. cbn [snd]. split; [done|].
    intros H%existsb_eqb. congruence.
Qed.

(** X21. For a supported type that is no texture, an answer without
    exports (the request failed, the text is no JSON array, or the array is
    empty) makes [ConstructAsset] return [true] after the one request, with
    no package created and [OutObject] and [bSuccess] left as they were. *)
Theorem no_exports_is_reported_as_handled
    (UTexture T : Type)
    (ExecuteRequestSync : string -> option HttpResponse)
    (Deserialize : string -> option (list FJsonValue))
    (NewTextureImporters : string -> string -> FJsonObject -> string -> UTextureImporters UTexture)
    (MarkPackageDirty : UTexture -> bool)
    (Cast : UTexture -> option T)
    (HandleExports : list FJsonValue -> string -> bool)
    (StaticLoadObject : string -> option T)
    (Path Type_ : string) (OutObject : Pointer T) (bSuccess : bool)
    (Hsupported : Type_ ∈ SupportedTypes)
    (Hother : Type_ ∉ TextureTypes)
    (Hnothing :
       ExecuteRequestSync (raw_export_url Path) = None \/
       exists NewResponse,
         ExecuteRequestSync (raw_export_url Path) = Some NewResponse /\
         (Deserialize (GetContentAsString NewResponse) = None \/
          Deserialize (GetContentAsString NewResponse) = Some [])) :
  ConstructAsset UTexture T ExecuteRequestSync Deserialize NewTextureImporters
    MarkPackageDirty Cast HandleExports StaticLoadObject Path Type_ OutObject bSuccess
  = ([Requested (raw_export_url Path)], Done (true, OutObject, bSuccess)).
Proof.
  unfold ConstructAsset.
  apply existsb_eqb in Hsupported as ->.
  destruct (existsb (String.eqb Type_) TextureTypes) eqn:Ht.
  { by apply existsb_eqb in Ht. }
  unfold API_RequestExports.
  destruct Hnothing as [-> | (r & -> & [-> | ->])]; done.
Qed.

Lemma no_exports_witness :
  ConstructAsset unit unit (fun _ => None) (fun _ => None)
    (fun _ _ _ _ => {| ImportTexture2D := fun _ _ => None;
                       ImportTextureCube := fun _ _ => None;
                       ImportRenderTarget2D := fun _ => None |})
    (fun _ => true) (fun _ => None) (fun _ _ => true) (fun _ => None)
    "/Game/C_Fade.C_Fade" "CurveFloat" Nullptr false
  = ([Requested (raw_export_url "/Game/C_Fade.C_Fade")], Done (true, Nullptr, false)).
Proof.
  apply (no_exports_is_reported_as_handled unit unit (fun _ => None) (fun _ => None)).
  - apply (bool_decide_unpack _). by vm_compute.
  - apply (bool_decide_unpack _). by vm_compute.
  - left. reflexivity.
Defined.
